(** * ESP32 remote I/O Modbus TCP slave: register store, interlock and debounce

    Shallow embedding of
    - [main/modbus_params.h]               (coil macros, register structs),
    - [main/esp32_rio_modbus_tcp_slave.c]  (interlock controller, register bridge),
    - [components/remote_io/remote_io.c]   (pin tables, outputs, ISR, debounce, io task),
    - [components/usb_console/usb_console.c] (command line parser, commands),
    followed by the properties of the interlock, the coil addressing, the
    debounce guard, the event consumer and the console. *)

From stdpp Require Import gmap list strings.
From Stdlib Require Import ZArith Lia Ascii.

Open Scope Z_scope.

(** ** C integer conversions

    [uint16_t], [unsigned int] (32 bits on the target) and
    [unsigned long long] values are integers in [Z]; a conversion to the type
    reduces modulo its width and [~] complements within the width. *)

Definition to_uint16 (x : Z) : Z := x mod 2 ^ 16.
Definition to_uint32 (x : Z) : Z := x mod 2 ^ 32.
Definition to_uint64 (x : Z) : Z := x mod 2 ^ 64.

(** [~x] on an [unsigned int]. *)
Definition not32 (x : Z) : Z := Z.lxor x (Z.ones 32).
(** [~x] on an [unsigned long long]. *)
Definition not64 (x : Z) : Z := Z.lxor x (Z.ones 64).

(** [1U << n] and [1ULL << n]. *)
Definition bit32 (n : Z) : Z := to_uint32 (Z.shiftl 1 n).
Definition bit64 (n : Z) : Z := to_uint64 (Z.shiftl 1 n).

(** ** modbus_params.h *)

Definition OE_COIL_ADDR : Z := 31.

Record coil_reg_params_t := mk_coil_reg_params {
  coils_bank0 : Z;
  coils_bank1 : Z
}.

Record discrete_reg_params_t := mk_discrete_reg_params {
  discrete_inputs : Z
}.

(** [MB_IS_COIL_ON(address)]: the argument is first stored in a [uint16_t]. *)
Definition MB_IS_COIL_ON (coil_reg_params : coil_reg_params_t) (address : Z) : bool :=
  let addr := to_uint16 address in
  if addr <? 16 then
    negb (Z.land (coils_bank0 coil_reg_params) (bit32 addr) =? 0)
  else if (16 <=? addr) && (addr <? 32) then
    negb (Z.land (coils_bank1 coil_reg_params) (bit32 (addr - 16)) =? 0)
  else false.

(** [MB_TURN_COIL_ON(address)]. *)
Definition MB_TURN_COIL_ON (address : Z) (coil_reg_params : coil_reg_params_t)
  : coil_reg_params_t :=
  let addr := to_uint16 address in
  if addr <? 16 then
    mk_coil_reg_params
      (to_uint16 (Z.lor (coils_bank0 coil_reg_params) (bit32 addr)))
      (coils_bank1 coil_reg_params)
  else if (16 <=? addr) && (addr <? 32) then
    mk_coil_reg_params
      (coils_bank0 coil_reg_params)
      (to_uint16 (Z.lor (coils_bank1 coil_reg_params) (bit32 (addr - 16))))
  else coil_reg_params.

(** [MB_TURN_COIL_OFF(address)]: the mask is built from [1ULL]. *)
Definition MB_TURN_COIL_OFF (address : Z) (coil_reg_params : coil_reg_params_t)
  : coil_reg_params_t :=
  let addr := to_uint16 address in
  if addr <? 16 then
    mk_coil_reg_params
      (to_uint16 (Z.land (coils_bank0 coil_reg_params) (not64 (bit64 addr))))
      (coils_bank1 coil_reg_params)
  else if (16 <=? addr) && (addr <? 32) then
    mk_coil_reg_params
      (coils_bank0 coil_reg_params)
      (to_uint16 (Z.land (coils_bank1 coil_reg_params) (not64 (bit64 (addr - 16)))))
  else coil_reg_params.

(** ** remote_io.h / remote_io.c: pins and outputs *)

Definition ESP32_RIO_NUM_IO_CHANNELS : nat := 10.

Definition STATUS_LED : Z := 43.
Definition OE_TOGGLE_BTN : Z := 3.

Definition DI : list Z := [4; 5; 6; 7; 15; 16; 17; 9; 8; 18].
Definition DQ0 : list Z := [10; 12; 14; 47; 39; 40; 41; 42; 2; 1].
Definition DQ1 : list Z := [46; 11; 13; 21; 48; 45; 35; 36; 37; 38].

(** The output latch of the GPIO matrix: the level last driven on each pin.
    [gpio_set_level] is the driver call, [gpio_level] reads the latch back
    (a pin never driven is low). *)
Definition gpio_set_level (pin : Z) (level : bool) (g : gmap Z bool) : gmap Z bool :=
  <[pin := level]> g.

Definition gpio_level (g : gmap Z bool) (pin : Z) : bool :=
  default false (g !! pin).

(** [gpio_set_level(TBL[i], level)].  Reading a pin table past its end is
    undefined in C; every caller keeps [i] below [ESP32_RIO_NUM_IO_CHANNELS],
    and the model leaves the latch alone otherwise. *)
Definition gpio_set_level_at (tbl : list Z) (i : nat) (level : bool)
    (g : gmap Z bool) : gmap Z bool :=
  match tbl !! i with
  | Some pin => gpio_set_level pin level g
  | None => g
  end.

(** [for (int i = 0; i < n; i++) body(i)] over a state. *)
Definition for_loop {St : Type} (n : nat) (body : nat → St → St) (s : St) : St :=
  foldl (λ acc i, body i acc) s (seq 0 n).

Definition esp32_rio_configure_gpio (g : gmap Z bool) : gmap Z bool :=
  for_loop ESP32_RIO_NUM_IO_CHANNELS
    (λ i g, gpio_set_level_at DQ1 i false (gpio_set_level_at DQ0 i false g))
    (gpio_set_level STATUS_LED false g).

Definition esp32_rio_disable_outputs (g : gmap Z bool) : gmap Z bool :=
  for_loop ESP32_RIO_NUM_IO_CHANNELS
    (λ i g, gpio_set_level_at DQ1 i false (gpio_set_level_at DQ0 i false g))
    g.

Definition esp32_rio_turn_status_led_on (g : gmap Z bool) : gmap Z bool :=
  gpio_set_level STATUS_LED true g.

Definition esp32_rio_turn_status_led_off (g : gmap Z bool) : gmap Z bool :=
  gpio_set_level STATUS_LED false g.

Definition esp32_rio_turn_output_on (bank_number output_number : nat)
    (g : gmap Z bool) : gmap Z bool :=
  if (bank_number =? 0)%nat then gpio_set_level_at DQ0 output_number true g
  else if (bank_number =? 1)%nat then gpio_set_level_at DQ1 output_number true g
  else g.

Definition esp32_rio_turn_output_off (bank_number output_number : nat)
    (g : gmap Z bool) : gmap Z bool :=
  if (bank_number =? 0)%nat then gpio_set_level_at DQ0 output_number false g
  else if (bank_number =? 1)%nat then gpio_set_level_at DQ1 output_number false g
  else g.

(** [esp32_rio_is_input_on]: samples the level present at pin [DI[n]];
    [pins] gives the level the field wiring presents at each pin. *)
Definition esp32_rio_is_input_on (pins : Z → bool) (input_number : nat) : bool :=
  match DI !! input_number with
  | Some pin => pins pin
  | None => false
  end.

(** ** esp32_rio_modbus_tcp_slave.c: globals *)

Record board := mk_board {
  coil_reg_params : coil_reg_params_t;
  discrete_reg_params : discrete_reg_params_t;
  outputs_enabled : bool;
  gpio_out : gmap Z bool;      (* levels driven on the pins *)
  gpio_in : Z → bool           (* levels present at the input pins *)
}.

Definition set_coil_reg_params (c : coil_reg_params_t) (st : board) : board :=
  mk_board c (discrete_reg_params st) (outputs_enabled st) (gpio_out st) (gpio_in st).

Definition set_discrete_inputs (d : Z) (st : board) : board :=
  mk_board (coil_reg_params st) (mk_discrete_reg_params d) (outputs_enabled st)
    (gpio_out st) (gpio_in st).

Definition set_outputs_enabled (b : bool) (st : board) : board :=
  mk_board (coil_reg_params st) (discrete_reg_params st) b (gpio_out st) (gpio_in st).

Definition on_gpio (f : gmap Z bool → gmap Z bool) (st : board) : board :=
  mk_board (coil_reg_params st) (discrete_reg_params st) (outputs_enabled st)
    (f (gpio_out st)) (gpio_in st).

(** [update_digital_outputs]. *)
Definition update_digital_outputs (st : board) : board :=
  for_loop ESP32_RIO_NUM_IO_CHANNELS
    (λ i st,
       let st :=
         if MB_IS_COIL_ON (coil_reg_params st) (Z.of_nat i)
         then on_gpio (esp32_rio_turn_output_on 0 i) st
         else on_gpio (esp32_rio_turn_output_off 0 i) st in
       if MB_IS_COIL_ON (coil_reg_params st) (Z.of_nat i + 16)
       then on_gpio (esp32_rio_turn_output_on 1 i) st
       else on_gpio (esp32_rio_turn_output_off 1 i) st)
    st.

(** The two branches of [on_oe_button_toggle]. *)
Definition oe_toggle_disable (st : board) : board :=
  let st := set_outputs_enabled false st in
  let st := set_coil_reg_params (MB_TURN_COIL_OFF OE_COIL_ADDR (coil_reg_params st)) st in
  let st := on_gpio esp32_rio_disable_outputs st in
  on_gpio esp32_rio_turn_status_led_off st.

Definition oe_toggle_enable (st : board) : board :=
  let st := update_digital_outputs st in
  let st := set_outputs_enabled true st in
  let st := set_coil_reg_params (MB_TURN_COIL_ON OE_COIL_ADDR (coil_reg_params st)) st in
  on_gpio esp32_rio_turn_status_led_on st.

Definition on_oe_button_toggle (st : board) : board :=
  if outputs_enabled st then oe_toggle_disable st else oe_toggle_enable st.

(** [on_di_level_change].  The shift [1U << input_number] is undefined in C
    from 32 on; the observer is only called with a channel index. *)
Definition on_di_level_change (input_number : nat) (st : board) : board :=
  let d := discrete_inputs (discrete_reg_params st) in
  if esp32_rio_is_input_on (gpio_in st) input_number then
    set_discrete_inputs (to_uint16 (Z.lor d (bit32 (Z.of_nat input_number)))) st
  else
    set_discrete_inputs
      (to_uint16 (Z.land d (not32 (bit32 (Z.of_nat input_number))))) st.

(** [setup_reg_data]. *)
Definition setup_reg_data (st : board) : board :=
  let st := set_coil_reg_params (mk_coil_reg_params 0 0) st in
  for_loop ESP32_RIO_NUM_IO_CHANNELS
    (λ i st,
       let d := discrete_inputs (discrete_reg_params st) in
       if esp32_rio_is_input_on (gpio_in st) i then
         set_discrete_inputs (to_uint16 (Z.lor d (bit32 (Z.of_nat i)))) st
       else
         set_discrete_inputs (to_uint16 (Z.land d (not32 (bit32 (Z.of_nat i))))) st)
    st.

(** The static initialisers of the globals, over the pin state found at
    power-on. *)
Definition power_on (latch : gmap Z bool) (pins : Z → bool) : board :=
  mk_board (mk_coil_reg_params 0 0) (mk_discrete_reg_params 0) false latch pins.

(** [app_main] up to the entry of [mb_slave_run] when neither observer
    runs before [mb_slave_init]: [esp32_rio_configure_gpio], then
    [setup_reg_data].  [app_main_start] is the start-up with the events of
    the wait for the Wi-Fi connection. *)
Definition initial_board (latch : gmap Z bool) (pins : Z → bool) : board :=
  setup_reg_data (on_gpio esp32_rio_configure_gpio (power_on latch pins)).

(** ** remote_io.c: interrupt handler, debounce timer, io task

    The component is described between a successful
    [esp32_rio_io_services_init] and [esp32_rio_io_services_deinit], where the
    queue and the timer exist.  The two observers are function pointers that
    the code tests against [NULL]; they act on the state [A] of their owner. *)

Definition DEBOUNCE_TIME_MS : nat := 250.

(** FreeRTOS software timer, single-shot ([pdFALSE] auto-reload): its period
    in ticks and, while active, the ticks left until it expires. *)
Record timer := mk_timer {
  tm_period : nat;
  tm_left : option nat
}.

Definition pdMS_TO_TICKS (configTICK_RATE_HZ ms : nat) : nat :=
  (ms * configTICK_RATE_HZ / 1000)%nat.

Definition xTimerCreate (period : nat) : timer := mk_timer period None.

(** [xTimerStartFromISR]: starts the timer, or restarts it when it is active
    already (the expiry is recomputed from now). *)
Definition xTimerStartFromISR (t : timer) : timer :=
  mk_timer (tm_period t) (Some (tm_period t)).

(** The length passed to [xQueueCreate] in [esp32_rio_io_services_init]. *)
Definition IO_EVENT_QUEUE_LENGTH : nat := 10.

(** [xQueueSendFromISR]: appends unless the queue is full. *)
Definition xQueueSendFromISR (q : list Z) (item : Z) : list Z :=
  if (length q <? IO_EVENT_QUEUE_LENGTH)%nat then q ++ [item] else q.

Record remote_io (A : Type) := mk_remote_io {
  s_debounce_timer : timer;
  s_button_pressed : bool;
  s_oe_button_toggle_callback : option (A → A);
  s_di_level_change_callback : option (nat → A → A);
  s_io_event_queue : list Z
}.

Arguments mk_remote_io {A} _ _ _ _ _.
Arguments s_debounce_timer {A} _.
Arguments s_button_pressed {A} _.
Arguments s_oe_button_toggle_callback {A} _.
Arguments s_di_level_change_callback {A} _.
Arguments s_io_event_queue {A} _.

Definition esp32_rio_io_services_init {A : Type} (configTICK_RATE_HZ : nat)
    (oe_button_toggle_callback : option (A → A))
    (di_level_change_callback : option (nat → A → A)) : remote_io A :=
  mk_remote_io
    (xTimerCreate (pdMS_TO_TICKS configTICK_RATE_HZ DEBOUNCE_TIME_MS))
    false oe_button_toggle_callback di_level_change_callback [].

(** [io_isr_handler]. *)
Definition io_isr_handler {A : Type} (gpio_num : Z) (r : remote_io A) : remote_io A :=
  if gpio_num =? OE_TOGGLE_BTN then
    mk_remote_io (xTimerStartFromISR (s_debounce_timer r)) true
      (s_oe_button_toggle_callback r) (s_di_level_change_callback r)
      (s_io_event_queue r)
  else
    mk_remote_io (s_debounce_timer r) (s_button_pressed r)
      (s_oe_button_toggle_callback r) (s_di_level_change_callback r)
      (xQueueSendFromISR (s_io_event_queue r) gpio_num).

(** [debounce_timer_callback], on the component and its owner. *)
Definition debounce_timer_callback {A : Type} (s : remote_io A * A) : remote_io A * A :=
  let (r, a) := s in
  if s_button_pressed r then
    let r := mk_remote_io (s_debounce_timer r) false
               (s_oe_button_toggle_callback r) (s_di_level_change_callback r)
               (s_io_event_queue r) in
    match s_oe_button_toggle_callback r with
    | Some callback => (r, callback a)
    | None => (r, a)
    end
  else (r, a).

(** The scan of [io_task] over the rest [tbl] of the [DI] table, from index
    [i]: at the first match the observer (if any) is called and the loop is
    left. *)
Fixpoint io_task_scan {A : Type} (callback : option (nat → A → A)) (io_num : Z)
    (tbl : list Z) (i : nat) (a : A) : A :=
  match tbl with
  | [] => a
  | pin :: tbl =>
      if io_num =? pin then
        match callback with
        | Some cb => cb i a
        | None => a
        end
      else io_task_scan callback io_num tbl (S i) a
  end.

(** One round of the loop of [io_task]; [None] while [xQueueReceive] blocks
    on the empty queue. *)
Definition io_task {A : Type} (s : remote_io A * A) : option (remote_io A * A) :=
  let (r, a) := s in
  match s_io_event_queue r with
  | [] => None
  | io_num :: q =>
      Some (mk_remote_io (s_debounce_timer r) (s_button_pressed r)
              (s_oe_button_toggle_callback r) (s_di_level_change_callback r) q,
            io_task_scan (s_di_level_change_callback r) io_num DI 0 a)
  end.

(** One tick of the FreeRTOS timer service: an active timer counts down and,
    at its expiry, goes dormant and runs its callback. *)
Definition timer_tick {A : Type} (s : remote_io A * A) : remote_io A * A :=
  let (r, a) := s in
  let t := s_debounce_timer r in
  match tm_left t with
  | None => (r, a)
  | Some n =>
      if (n <=? 1)%nat then
        debounce_timer_callback
          (mk_remote_io (mk_timer (tm_period t) None) (s_button_pressed r)
             (s_oe_button_toggle_callback r) (s_di_level_change_callback r)
             (s_io_event_queue r), a)
      else
        (mk_remote_io (mk_timer (tm_period t) (Some (n - 1)%nat)) (s_button_pressed r)
           (s_oe_button_toggle_callback r) (s_di_level_change_callback r)
           (s_io_event_queue r), a)
  end.

(** What happens to the component: an edge on a watched pin, or a tick. *)
Inductive io_event :=
  | Edge (gpio_num : Z)
  | Tick.

Definition io_step {A : Type} (s : remote_io A * A) (e : io_event) : remote_io A * A :=
  match e with
  | Edge gpio_num => (io_isr_handler gpio_num (fst s), snd s)
  | Tick => timer_tick s
  end.

Definition io_run {A : Type} (es : list io_event) (s : remote_io A * A)
  : remote_io A * A :=
  foldl io_step s es.

(** [k] button edges of one burst: the first one, then each further one
    [g] ticks after its predecessor, for the gaps [g] of [gaps]. *)
Definition burst (gaps : list nat) : list io_event :=
  Edge OE_TOGGLE_BTN
    :: flat_map (λ g, repeat Tick g ++ [Edge OE_TOGGLE_BTN]) gaps.

(** ** usb_console.c: the command line parser

    Characters are [ascii] values, C strings are read from a buffer up to
    its first zero.  A store outside a buffer, or through the [NULL]
    argument pointer, is a fault of its own; what the console writes, and
    the calls that leave it, are collected as effects. *)

Definition MAX_COMMAND_LENGTH : nat := 32.
Definition MAX_ARG_COUNT : nat := 2.
Definition MAX_ARG_LENGTH : nat := 64.
Definition MAX_CMD_OUTPUT_LENGTH : nat := MAX_COMMAND_LENGTH + 3 + 128.

(** wifi_connect.h *)
Definition ESP32_RIO_SSID_MAX_LENGTH : nat := 32.
Definition ESP32_RIO_PASSWORD_MAX_LENGTH : nat := 64.

Inductive console_cmd_parse_state_t :=
  | STATE_IDLE
  | STATE_READING_COMMAND_NAME
  | STATE_EXPECTING_ARG
  | STATE_READING_ARG
  | STATE_READING_QUOTED_ARG
  | STATE_CLOSED_QUOTED_ARG
  | STATE_ERROR.

Record console := mk_console {
  s_cmd_buffer : list ascii;
  s_arg_buffer : list (list ascii);
  s_cmd_char_idx : nat;
  s_arg_char_idx : nat;
  s_arg_count : nat;
  s_current_arg_buf : option nat;   (* the row of [s_arg_buffer] pointed to *)
  s_escape_next_char : bool;
  s_current_state : console_cmd_parse_state_t
}.

(** <ctype.h> in the C locale. *)
Definition isalpha (c : ascii) : bool :=
  let n := nat_of_ascii c in
  ((65 <=? n) && (n <=? 90) || (97 <=? n) && (n <=? 122))%nat.

Definition isdigit (c : ascii) : bool :=
  let n := nat_of_ascii c in ((48 <=? n) && (n <=? 57))%nat.

Definition isalnum (c : ascii) : bool := isalpha c || isdigit c.

Definition isblank (c : ascii) : bool :=
  Ascii.eqb c " "%char || Ascii.eqb c "009"%char.

Definition is_newline (c : ascii) : bool :=
  Ascii.eqb c "013"%char || Ascii.eqb c "010"%char.

(** The C string held in a buffer, and [strlen] of it. *)
Fixpoint cstring (buf : list ascii) : string :=
  match buf with
  | [] => EmptyString
  | c :: buf => if Ascii.eqb c zero then EmptyString else String c (cstring buf)
  end.

Definition strlen (buf : list ascii) : nat := String.length (cstring buf).

(** [snprintf] into a buffer of [size] bytes keeps [size - 1] characters. *)
Definition snprintf (size : nat) (s : string) : string := String.substring 0 (size - 1) s.

Inductive console_effect :=
  | usb_console_write_str (str : string)
  | esp32_rio_wifi_nv_params_save (ssid password : string)
  | esp_restart
  | esp_abort.

(** What the Wi-Fi driver and the credential store answer to
    [evaluate_command]: the SSID of the access point when connected, the
    address, mask and gateway as [IPSTR] prints them when the interface has
    them, and whether saving the credentials succeeds. *)
Record console_env := mk_console_env {
  ap_info_ssid : option string;
  ip_info_str : option (string * string * string);
  nv_params_save_ok : bool
}.

Inductive outcome :=
  | Continue (st : console) (out : list console_effect)
  | Halt (out : list console_effect)
  | Fault.

(** [reset_console_state]. *)
Definition reset_console_state : console :=
  mk_console (replicate (MAX_COMMAND_LENGTH + 1) zero)
    (replicate MAX_ARG_COUNT (replicate (MAX_ARG_LENGTH + 1) zero))
    0 0 0 None false STATE_IDLE.

Definition set_state (s : console_cmd_parse_state_t) (st : console) : console :=
  mk_console (s_cmd_buffer st) (s_arg_buffer st) (s_cmd_char_idx st)
    (s_arg_char_idx st) (s_arg_count st) (s_current_arg_buf st)
    (s_escape_next_char st) s.

Definition set_escape (b : bool) (st : console) : console :=
  mk_console (s_cmd_buffer st) (s_arg_buffer st) (s_cmd_char_idx st)
    (s_arg_char_idx st) (s_arg_count st) (s_current_arg_buf st) b
    (s_current_state st).

Definition set_arg_char_idx (i : nat) (st : console) : console :=
  mk_console (s_cmd_buffer st) (s_arg_buffer st) (s_cmd_char_idx st) i
    (s_arg_count st) (s_current_arg_buf st) (s_escape_next_char st)
    (s_current_state st).

(** [s_cmd_buffer[s_cmd_char_idx] = c]. *)
Definition store_cmd (c : ascii) (st : console) : option console :=
  if (s_cmd_char_idx st <? length (s_cmd_buffer st))%nat then
    Some (mk_console (<[s_cmd_char_idx st := c]> (s_cmd_buffer st)) (s_arg_buffer st)
            (s_cmd_char_idx st) (s_arg_char_idx st) (s_arg_count st)
            (s_current_arg_buf st) (s_escape_next_char st) (s_current_state st))
  else None.

(** [s_cmd_buffer[s_cmd_char_idx++] = c]. *)
Definition store_cmd_inc (c : ascii) (st : console) : option console :=
  match store_cmd c st with
  | Some st =>
      Some (mk_console (s_cmd_buffer st) (s_arg_buffer st) (S (s_cmd_char_idx st))
              (s_arg_char_idx st) (s_arg_count st) (s_current_arg_buf st)
              (s_escape_next_char st) (s_current_state st))
  | None => None
  end.

(** [s_current_arg_buf[s_arg_char_idx++] = c]. *)
Definition store_arg_inc (c : ascii) (st : console) : option console :=
  match s_current_arg_buf st with
  | None => None
  | Some k =>
      match s_arg_buffer st !! k with
      | None => None
      | Some buf =>
          if (s_arg_char_idx st <? length buf)%nat then
            Some (mk_console (s_cmd_buffer st)
                    (<[k := <[s_arg_char_idx st := c]> buf]> (s_arg_buffer st))
                    (s_cmd_char_idx st) (S (s_arg_char_idx st)) (s_arg_count st)
                    (s_current_arg_buf st) (s_escape_next_char st)
                    (s_current_state st))
          else None
      end
  end.

(** [s_current_arg_buf = s_arg_buffer[s_arg_count]; s_arg_count++]. *)
Definition next_arg_buf (st : console) : console :=
  mk_console (s_cmd_buffer st) (s_arg_buffer st) (s_cmd_char_idx st)
    (s_arg_char_idx st) (S (s_arg_count st)) (Some (s_arg_count st))
    (s_escape_next_char st) (s_current_state st).

(** Row [k] of [s_arg_buffer]. *)
Definition arg_buffer (st : console) (k : nat) : list ascii :=
  default [] (s_arg_buffer st !! k).

Definition newline : string := String "010"%char EmptyString.
Definition quote : string := String "034"%char EmptyString.

(** [evaluate_command]: its effects, and whether it returns. *)
Definition evaluate_command (env : console_env) (st : console)
  : list console_effect * bool :=
  let cmd := cstring (s_cmd_buffer st) in
  let fmt (s : string) := usb_console_write_str (snprintf MAX_CMD_OUTPUT_LENGTH s) in
  if String.eqb cmd "help" then
    if (s_arg_count st =? 0)%nat then
      ([ fmt (newline +:+ "[" +:+ cmd +:+ "] Recognized commands:" +:+ newline);
         usb_console_write_str ("  help" +:+ newline);
         usb_console_write_str
           ("    List and describe all available commands." +:+ newline);
         usb_console_write_str ("  wifi-status" +:+ newline);
         usb_console_write_str ("    Show WiFi connection information." +:+ newline);
         usb_console_write_str ("  wifi-config SSID PASSWORD" +:+ newline);
         usb_console_write_str
           ("    Configure stored WiFi connection information (SSID & mandatory password),"
            +:+ newline);
         usb_console_write_str ("    rebooting afterwards." +:+ newline) ], true)
    else
      ([ fmt (newline +:+ "[" +:+ cmd
              +:+ "] Error: Command does not take arguments." +:+ newline) ], true)
  else if String.eqb cmd "wifi-status" then
    if (s_arg_count st =? 0)%nat then
      (match ap_info_ssid env with
      | Some ssid =>
          fmt (newline +:+ "[" +:+ cmd +:+ "] Connected to " +:+ quote +:+ ssid
               +:+ quote +:+ ":" +:+ newline)
          :: match ip_info_str env with
             | Some (ip, netmask, gw) =>
                 [ fmt ("  IP Address: " +:+ ip +:+ newline);
                   fmt ("  Subnet Mask: " +:+ netmask +:+ newline);
                   fmt ("  Gateway: " +:+ gw +:+ newline) ]
             | None =>
                 [ usb_console_write_str ("  IP Information: Not available." +:+ newline) ]
             end
      | None => [ fmt (newline +:+ "[" +:+ cmd +:+ "] Disconnected." +:+ newline) ]
      end, true)
    else
      ([ fmt (newline +:+ "[" +:+ cmd
              +:+ "] Error: Command does not take arguments." +:+ newline) ], true)
  else if String.eqb cmd "wifi-config" then
    let ssid_length := strlen (arg_buffer st 0) in
    let password_length := strlen (arg_buffer st 1) in
    if (s_arg_count st =? 2)%nat && (0 <? ssid_length)%nat && (0 <? password_length)%nat
    then
      if (ESP32_RIO_SSID_MAX_LENGTH - 1 <? ssid_length)%nat then
        ([ fmt (newline +:+ "[" +:+ cmd +:+ "] Error: SSID length is too long."
                +:+ newline) ], true)
      else if (ESP32_RIO_PASSWORD_MAX_LENGTH - 1 <? password_length)%nat then
        ([ fmt (newline +:+ "[" +:+ cmd +:+ "] Error: Password length is too long."
                +:+ newline) ], true)
      else if nv_params_save_ok env then
        ([ esp32_rio_wifi_nv_params_save (cstring (arg_buffer st 0))
             (cstring (arg_buffer st 1));
           fmt (newline +:+ "[" +:+ cmd +:+ "] Configuration successful. Rebooting..."
                +:+ newline);
           esp_restart ], false)
      else
        ([ esp32_rio_wifi_nv_params_save (cstring (arg_buffer st 0))
             (cstring (arg_buffer st 1));
           esp_abort ], false)
    else
      ([ fmt (newline +:+ "[" +:+ cmd
              +:+ "] Error: Command requires two (non-empty) arguments. See help."
              +:+ newline) ], true)
  else
    ([ fmt (newline +:+ "Unrecognized command: " +:+ cmd +:+ newline) ], true).

(** [evaluate_command(); reset_console_state();]. *)
Definition evaluate_and_reset (env : console_env) (st : console) : outcome :=
  let (out, returns) := evaluate_command env st in
  if returns then Continue reset_console_state out else Halt out.

Definition parse_error (msg : string) (st : console) : outcome :=
  Continue (set_state STATE_ERROR st)
    [usb_console_write_str (newline +:+ msg +:+ newline)].

(** [if (s_arg_char_idx < MAX_ARG_LENGTH) s_current_arg_buf[s_arg_char_idx++] = c;
     else error], followed by [after] on the state. *)
Definition store_arg_checked (c : ascii) (after : console → console) (st : console)
  : outcome :=
  if (s_arg_char_idx st <? MAX_ARG_LENGTH)%nat then
    match store_arg_inc c st with
    | Some st => Continue (after st) []
    | None => Fault
    end
  else
    match parse_error "Error: Command argument is too long." st with
    | Continue st out => Continue (after st) out
    | o => o
    end.

(** The body of the loop of [console_task] for one character read. *)
Definition console_task (env : console_env) (rx_char : ascii) (st : console) : outcome :=
  match s_current_state st with
  | STATE_IDLE =>
      if isalpha rx_char then
        match store_cmd_inc rx_char st with
        | Some st => Continue (set_state STATE_READING_COMMAND_NAME st) []
        | None => Fault
        end
      else if negb (is_newline rx_char) then
        parse_error "Error: Invalid character to start command." st
      else Continue st []
  | STATE_READING_COMMAND_NAME =>
      if is_newline rx_char then
        match store_cmd zero st with
        | Some st => evaluate_and_reset env st
        | None => Fault
        end
      else if isblank rx_char then
        match store_cmd zero st with
        | Some st => Continue (set_state STATE_EXPECTING_ARG st) []
        | None => Fault
        end
      else if isalnum rx_char || Ascii.eqb rx_char "-"%char || Ascii.eqb rx_char "_"%char
      then
        if (s_cmd_char_idx st <? MAX_COMMAND_LENGTH)%nat then
          match store_cmd_inc rx_char st with
          | Some st => Continue st []
          | None => Fault
          end
        else parse_error "Error: Command name too long." st
      else parse_error "Error: Invalid character in command name." st
  | STATE_EXPECTING_ARG =>
      let st := set_arg_char_idx 0 st in
      if is_newline rx_char then
        Continue reset_console_state
          [usb_console_write_str (newline +:+ "Error: Malformed command." +:+ newline)]
      else if isblank rx_char then
        parse_error "Error: Too much spacing before command argument." st
      else if Ascii.eqb rx_char "034"%char then
        if (s_arg_count st <? MAX_ARG_COUNT)%nat then
          Continue (set_state STATE_READING_QUOTED_ARG (next_arg_buf st)) []
        else parse_error "Error: Too many arguments for a command." st
      else
        if (s_arg_count st <? MAX_ARG_COUNT)%nat then
          match store_arg_inc rx_char (next_arg_buf st) with
          | Some st => Continue (set_state STATE_READING_ARG st) []
          | None => Fault
          end
        else parse_error "Error: Too many arguments for a command." st
  | STATE_READING_ARG =>
      if is_newline rx_char then
        match store_arg_inc zero st with
        | Some st => evaluate_and_reset env st
        | None => Fault
        end
      else if isblank rx_char then
        match store_arg_inc zero st with
        | Some st => Continue (set_state STATE_EXPECTING_ARG st) []
        | None => Fault
        end
      else store_arg_checked rx_char (λ st, st) st
  | STATE_READING_QUOTED_ARG =>
      if Ascii.eqb rx_char "034"%char then
        if s_escape_next_char st then
          store_arg_checked rx_char (λ st, st) (set_escape false st)
        else Continue (set_state STATE_CLOSED_QUOTED_ARG st) []
      else if Ascii.eqb rx_char "\"%char then
        if s_escape_next_char st then
          store_arg_checked rx_char (λ st, st) (set_escape false st)
        else Continue (set_escape true st) []
      else store_arg_checked rx_char (set_escape false) st
  | STATE_CLOSED_QUOTED_ARG =>
      if is_newline rx_char then
        match store_arg_inc zero st with
        | Some st => evaluate_and_reset env st
        | None => Fault
        end
      else if isblank rx_char then
        match store_arg_inc zero st with
        | Some st => Continue (set_state STATE_EXPECTING_ARG st) []
        | None => Fault
        end
      else parse_error "Error: Malformed argument in command." st
  | STATE_ERROR =>
      if is_newline rx_char then Continue reset_console_state []
      else Continue st []
  end.

(** The characters of [input] read one after the other, until the console
    leaves for a restart or faults. *)
Fixpoint console_run (env : console_env) (input : list ascii) (st : console) : outcome :=
  match input with
  | [] => Continue st []
  | rx_char :: input =>
      match console_task env rx_char st with
      | Continue st out =>
          match console_run env input st with
          | Continue st' out' => Continue st' (out ++ out')
          | Halt out' => Halt (out ++ out')
          | Fault => Fault
          end
      | o => o
      end
  end.

(** The buffers have their declared sizes, the indices are within them,
    the idle parser is the reset one and, while an argument is being read,
    the argument pointer is set. *)
Definition console_ok (st : console) : Prop :=
  length (s_cmd_buffer st) = (MAX_COMMAND_LENGTH + 1)%nat ∧
  length (s_arg_buffer st) = MAX_ARG_COUNT ∧
  Forall (λ buf, length buf = (MAX_ARG_LENGTH + 1)%nat) (s_arg_buffer st) ∧
  (s_cmd_char_idx st ≤ MAX_COMMAND_LENGTH)%nat ∧
  match s_current_state st with
  | STATE_IDLE => st = reset_console_state
  | STATE_READING_ARG | STATE_READING_QUOTED_ARG | STATE_CLOSED_QUOTED_ARG =>
      (∃ k, s_current_arg_buf st = Some k ∧ (k < MAX_ARG_COUNT)%nat) ∧
      (s_arg_char_idx st ≤ MAX_ARG_LENGTH)%nat
  | _ => True
  end.

(** The credentials fit the station configuration of the Wi-Fi driver with
    their terminating zero. *)
Definition effect_fits (e : console_effect) : Prop :=
  match e with
  | esp32_rio_wifi_nv_params_save ssid password =>
      (1 ≤ String.length ssid < ESP32_RIO_SSID_MAX_LENGTH)%nat ∧
      (1 ≤ String.length password < ESP32_RIO_PASSWORD_MAX_LENGTH)%nat
  | _ => True
  end.

Definition outcome_effects (o : outcome) : list console_effect :=
  match o with
  | Continue _ out => out
  | Halt out => out
  | Fault => []
  end.

(** ** Command lines as they are typed *)

Definition name_char (c : ascii) : bool :=
  isalnum c || Ascii.eqb c "-"%char || Ascii.eqb c "_"%char.

(** A command name the parser takes: a letter, then letters, digits,
    hyphens and underscores, at most [MAX_COMMAND_LENGTH] characters. *)
Definition valid_name (name : list ascii) : Prop :=
  match name with
  | [] => False
  | c :: rest => isalpha c = true ∧ Forall (λ c, name_char c = true) rest
  end ∧ (length name ≤ MAX_COMMAND_LENGTH)%nat.

(** Inside quotes a quote and a backslash are written after a backslash. *)
Definition escape (a : list ascii) : list ascii :=
  flat_map (λ c, if Ascii.eqb c "034"%char || Ascii.eqb c "\"%char
                 then ["\"%char; c] else [c]) a.

Definition render_arg (quoted : bool) (a : list ascii) : list ascii :=
  if quoted then "034"%char :: escape a ++ ["034"%char] else a.

(** An argument the parser takes: at most [MAX_ARG_LENGTH] characters, none
    of them zero; written without quotes it is not empty, does not start
    with a quote and holds no blank and no line break. *)
Definition valid_arg (arg : bool * list ascii) : Prop :=
  (length (snd arg) ≤ MAX_ARG_LENGTH)%nat ∧
  Forall (λ c, c ≠ zero) (snd arg) ∧
  (fst arg = false →
   snd arg ≠ [] ∧ head (snd arg) ≠ Some "034"%char ∧
   Forall (λ c, is_newline c = false ∧ isblank c = false) (snd arg)).

(** The line for a command name and its arguments, each argument after
    the blank [sep], the line closed by [eol]. *)
Definition command_line (sep eol : ascii) (name : list ascii)
    (args : list (bool * list ascii)) : list ascii :=
  name ++ flat_map (λ arg, sep :: render_arg (fst arg) (snd arg)) args ++ [eol].

(** A buffer of [n] bytes holding [p] from its start, zero behind it. *)
Definition fill (n : nat) (p : list ascii) : list ascii :=
  p ++ replicate (n - length p) zero.

(** The argument buffers holding the arguments [done]. *)
Definition argbufs (done : list (list ascii)) : list (list ascii) :=
  [fill (MAX_ARG_LENGTH + 1) (nth 0 done []); fill (MAX_ARG_LENGTH + 1) (nth 1 done [])].

(** The parser with the name [name] and the arguments [done] in its
    buffers. *)
Definition holding (name : list ascii) (done : list (list ascii)) (ai : nat)
    (cur : option nat) (esc : bool) (s : console_cmd_parse_state_t) : console :=
  mk_console (fill (MAX_COMMAND_LENGTH + 1) name) (argbufs done) (length name) ai
    (length done) cur esc s.

(** The parser writing argument number [length done], of which it has
    stored [p]. *)
Definition writing (name : list ascii) (done : list (list ascii)) (p : list ascii)
    (esc : bool) (s : console_cmd_parse_state_t) : console :=
  mk_console (fill (MAX_COMMAND_LENGTH + 1) name) (argbufs (done ++ [p]))
    (length name) (length p) (S (length done)) (Some (length done)) esc s.

(** ** esp32_rio_modbus_tcp_slave.c: the register bridge

    The event bits tested by [mb_slave_run] belong to the Modbus stack
    ([mbcontroller.h]); they are kept abstract. *)

Section Firmware.

Variables MB_EVENT_DISCRETE_RD MB_EVENT_COILS_RD MB_EVENT_COILS_WR : Z.

(** One round of the loop of [mb_slave_run], for the event type found in
    [reg_info.type]. *)
Definition mb_slave_run (reg_info_type : Z) (st : board) : board :=
  if negb (Z.land reg_info_type MB_EVENT_DISCRETE_RD =? 0) then st
  else if negb (Z.land reg_info_type MB_EVENT_COILS_RD =? 0) then st
  else if negb (Z.land reg_info_type MB_EVENT_COILS_WR =? 0) then
    let oe_coil_on := MB_IS_COIL_ON (coil_reg_params st) OE_COIL_ADDR in
    if outputs_enabled st then
      if negb oe_coil_on then
        let st := on_gpio esp32_rio_disable_outputs st in
        let st := set_outputs_enabled false st in
        on_gpio esp32_rio_turn_status_led_off st
      else
        update_digital_outputs st
    else if oe_coil_on then
      let st := update_digital_outputs st in
      let st := set_outputs_enabled true st in
      on_gpio esp32_rio_turn_status_led_on st
    else st
  else st.

(** The round handles a coil write: neither read bit is set and the
    coil-write bit is. *)
Definition is_coils_write (reg_info_type : Z) : bool :=
  (Z.land reg_info_type MB_EVENT_DISCRETE_RD =? 0)
  && (Z.land reg_info_type MB_EVENT_COILS_RD =? 0)
  && negb (Z.land reg_info_type MB_EVENT_COILS_WR =? 0).

(** What happens to the board: the debounced button, the Modbus stack
    storing a master's write into the coil area it was given by
    [mbc_slave_set_descriptor], and a round of [mb_slave_run]. *)
Inductive event :=
  | LocalToggle
  | MasterWrite (bank0 bank1 : Z)
  | BridgeRound (reg_info_type : Z).

Definition step (st : board) (e : event) : board :=
  match e with
  | LocalToggle => on_oe_button_toggle st
  | MasterWrite bank0 bank1 =>
      set_coil_reg_params (mk_coil_reg_params (to_uint16 bank0) (to_uint16 bank1)) st
  | BridgeRound reg_info_type => mb_slave_run reg_info_type st
  end.

Definition run (es : list event) (st : board) : board := foldl step st es.

Definition reachable (st : board) : Prop :=
  ∃ latch pins es, st = run es (initial_board latch pins).

(** ** Reading the state *)

(** Bit [k] of a bank word. *)
Definition coil_bit (w : Z) (k : nat) : bool := Z.testbit w (Z.of_nat k).

(** The level driven on line [k] of a bank. *)
Definition output_level (tbl : list Z) (st : board) (k : nat) : bool :=
  match tbl !! k with
  | Some pin => gpio_level (gpio_out st) pin
  | None => false
  end.

Definition outputs_all_off (st : board) : Prop :=
  ∀ k, (k < ESP32_RIO_NUM_IO_CHANNELS)%nat →
       output_level DQ0 st k = false ∧ output_level DQ1 st k = false.

Definition mirror_bit (st : board) : bool :=
  MB_IS_COIL_ON (coil_reg_params st) OE_COIL_ADDR.

Definition status_led (st : board) : bool := gpio_level (gpio_out st) STATUS_LED.

(** ** The walk over the output lines

    Both [esp32_rio_disable_outputs] and [update_digital_outputs] walk the
    channels and drive line [i] of bank 0, then line [i] of bank 1. *)

Definition drive_lines (lv0 lv1 : nat → bool) (g : gmap Z bool) : gmap Z bool :=
  for_loop ESP32_RIO_NUM_IO_CHANNELS
    (λ i g, gpio_set_level_at DQ1 i (lv1 i) (gpio_set_level_at DQ0 i (lv0 i) g)) g.

Definition output_pins : list Z := DQ0 ++ DQ1.

(** Both bank words are values of a [uint16_t]. *)
Definition coils_in_range (c : coil_reg_params_t) : Prop :=
  0 <= coils_bank0 c < 65536 ∧ 0 <= coils_bank1 c < 65536.

(** The partition of the coil addresses in the words of the specification,
    for a bank size [N]: addresses [0, N) are the bits of bank 0 at index
    [address], addresses [N, 2N) the bits of bank 1 at index [address - N]. *)
Definition spec_coil_partition (N : Z) : Prop :=
  (∀ c a, 0 <= a < N → MB_IS_COIL_ON c a = Z.testbit (coils_bank0 c) a) ∧
  (∀ c a, N <= a < 2 * N → MB_IS_COIL_ON c a = Z.testbit (coils_bank1 c) (a - N)).

(** The button edges among the events of a schedule. *)
Definition is_button_edge (e : io_event) : bool :=
  match e with
  | Edge gpio_num => gpio_num =? OE_TOGGLE_BTN
  | Tick => false
  end.

Definition button_edges (es : list io_event) : nat :=
  length (List.filter is_button_edge es).

(** ** The board with its inputs

    Besides the events of the interlock, the board sees the io task hand an
    identifier taken from the queue to [on_di_level_change], as registered
    by [init_services], and the field wiring change the levels at the
    pins. *)
Inductive sys_event :=
  | BoardEvent (e : event)
  | InputEvent (io_num : Z)
  | FieldChange (pins : Z → bool)
  | MorseWrite (level : bool).

(** [MorseWrite level] is a [gpio_set_level(STATUS_LED, level)] of
    [morse_blinker_task], the task that [on_connection_lost] and the
    branch of [app_main] without a Wi-Fi connection start; it runs beside
    the observers and the bridge. *)
Definition sys_step (st : board) (e : sys_event) : board :=
  match e with
  | BoardEvent e => step st e
  | InputEvent io_num => io_task_scan (Some on_di_level_change) io_num DI 0 st
  | FieldChange pins =>
      mk_board (coil_reg_params st) (discrete_reg_params st) (outputs_enabled st)
        (gpio_out st) pins
  | MorseWrite level => on_gpio (gpio_set_level STATUS_LED level) st
  end.

Definition is_morse_write (e : sys_event) : bool :=
  match e with
  | MorseWrite _ => true
  | _ => false
  end.

Definition sys_run (es : list sys_event) (st : board) : board := foldl sys_step st es.

(** What start-up establishes and every event of the board keeps, for the
    latch found at power-on. *)
Definition board_invariant (latch : gmap Z bool) (st : board) : Prop :=
  (outputs_enabled st = false → outputs_all_off st) ∧
  (∀ pin, pin ∉ output_pins → pin ≠ STATUS_LED → gpio_out st !! pin = latch !! pin) ∧
  coils_in_range (coil_reg_params st) ∧
  0 <= discrete_inputs (discrete_reg_params st) < 1024.

(** [app_main] up to the entry of [mb_slave_run], with the events [early]
    that come while it waits for the Wi-Fi connection: [init_services] has
    registered both observers before [esp32_rio_connect] is called, and
    [mb_slave_init] runs [setup_reg_data] only after it.  Where [app_main]
    does not get as far as [setup_reg_data], the board stays in a state
    [sys_run early] of the configured board. *)
Definition app_main_start (latch : gmap Z bool) (pins : Z → bool)
    (early : list sys_event) : board :=
  setup_reg_data
    (sys_run early (on_gpio esp32_rio_configure_gpio (power_on latch pins))).

(** ** The component with its task

    Besides edges and ticks, the io task takes a round of its loop when it
    is scheduled; on the empty queue it stays blocked. *)
Inductive rio_event :=
  | IoEvent (e : io_event)
  | IoTaskRound.

Definition rio_step {A : Type} (s : remote_io A * A) (e : rio_event) : remote_io A * A :=
  match e with
  | IoEvent e => io_step s e
  | IoTaskRound =>
      match io_task s with
      | Some s' => s'
      | None => s
      end
  end.

Definition rio_run {A : Type} (es : list rio_event) (s : remote_io A * A)
  : remote_io A * A :=
  foldl rio_step s es.

(** Button presses one after the other: each a burst of edges with its
    gaps, followed by the debounce period and [extra] more ticks. *)
Definition presses (period : nat) (bs : list (list nat * nat)) : list io_event :=
  flat_map (λ b, burst (fst b) ++ repeat Tick (period + snd b)) bs.

(** * Properties *)

(** ** Bits of the register words *)

Lemma to_uint16_testbit x j :
  0 <= j < 16 → Z.testbit (to_uint16 x) j = Z.testbit x j.
Proof. intros Hj. unfold to_uint16. apply Z.mod_pow2_bits_low. lia. Qed.

Lemma to_uint16_small x : 0 <= x < 65536 → to_uint16 x = x.
Proof. intros Hx. unfold to_uint16. apply Z.mod_small. lia. Qed.

Lemma bit32_pow2 n : 0 <= n < 32 → bit32 n = 2 ^ n.
Proof.
  intros Hn. unfold bit32, to_uint32. rewrite Z.shiftl_1_l.
  apply Z.mod_small. split; [lia |]. apply Z.pow_lt_mono_r; lia.
Qed.

Lemma bit64_pow2 n : 0 <= n < 64 → bit64 n = 2 ^ n.
Proof.
  intros Hn. unfold bit64, to_uint64. rewrite Z.shiftl_1_l.
  apply Z.mod_small. split; [lia |]. apply Z.pow_lt_mono_r; lia.
Qed.

(** Masking with a single bit tests that bit. *)
Lemma land_pow2_test w n :
  0 <= n → negb (Z.land w (2 ^ n) =? 0) = Z.testbit w n.
Proof.
  intros Hn. destruct (Z.testbit w n) eqn:Hb.
  - apply negb_true_iff, Z.eqb_neq. intros H0.
    assert (Ht : Z.testbit (Z.land w (2 ^ n)) n = true).
    { rewrite Z.land_spec, Hb, Z.pow2_bits_true; auto. }
    rewrite H0, Z.bits_0 in Ht. discriminate.
  - apply negb_false_iff, Z.eqb_eq. apply Z.bits_inj'. intros m Hm.
    rewrite Z.land_spec, Z.bits_0.
    destruct (Z.eq_dec n m) as [->|Hne].
    + rewrite Hb. reflexivity.
    + rewrite Z.pow2_bits_false by lia. apply andb_false_r.
Qed.

Lemma testbit_set w n j :
  0 <= n → 0 <= j →
  Z.testbit (Z.lor w (2 ^ n)) j = Z.testbit w j || (n =? j).
Proof. intros Hn Hj. rewrite Z.lor_spec, Z.pow2_bits_eqb by lia. reflexivity. Qed.

Lemma testbit_clear32 w n j :
  0 <= n → 0 <= j < 32 →
  Z.testbit (Z.land w (not32 (2 ^ n))) j = Z.testbit w j && negb (n =? j).
Proof.
  intros Hn Hj. unfold not32.
  rewrite Z.land_spec, Z.lxor_spec, Z.pow2_bits_eqb, Z.ones_spec_low by lia.
  rewrite xorb_true_r. reflexivity.
Qed.

Lemma testbit_clear64 w n j :
  0 <= n → 0 <= j < 64 →
  Z.testbit (Z.land w (not64 (2 ^ n))) j = Z.testbit w j && negb (n =? j).
Proof.
  intros Hn Hj. unfold not64.
  rewrite Z.land_spec, Z.lxor_spec, Z.pow2_bits_eqb, Z.ones_spec_low by lia.
  rewrite xorb_true_r. reflexivity.
Qed.

(** Two 16-bit words with the same sixteen bits are equal. *)
Lemma to_uint16_ext x y :
  (∀ j, 0 <= j < 16 → Z.testbit x j = Z.testbit y j) → to_uint16 x = to_uint16 y.
Proof.
  intros H. apply Z.bits_inj'. intros j Hj. unfold to_uint16.
  destruct (Z_lt_dec j 16).
  - rewrite !Z.mod_pow2_bits_low by lia. apply H. lia.
  - rewrite !Z.mod_pow2_bits_high by lia. reflexivity.
Qed.

(** ** The coil macros *)

Lemma MB_IS_COIL_ON_bank0 c a :
  0 <= a < 16 → MB_IS_COIL_ON c a = Z.testbit (coils_bank0 c) a.
Proof.
  intros Ha. unfold MB_IS_COIL_ON. rewrite to_uint16_small by lia.
  destruct (Z.ltb_spec a 16); [| lia].
  rewrite bit32_pow2 by lia. apply land_pow2_test. lia.
Qed.

Lemma MB_IS_COIL_ON_bank1 c a :
  16 <= a < 32 → MB_IS_COIL_ON c a = Z.testbit (coils_bank1 c) (a - 16).
Proof.
  intros Ha. unfold MB_IS_COIL_ON. rewrite to_uint16_small by lia.
  destruct (Z.ltb_spec a 16); [lia |].
  destruct (Z.leb_spec 16 a); [| lia].
  destruct (Z.ltb_spec a 32); [| lia]. cbn [andb].
  rewrite bit32_pow2 by lia. apply land_pow2_test. lia.
Qed.

Lemma mirror_after_on c : MB_IS_COIL_ON (MB_TURN_COIL_ON OE_COIL_ADDR c) OE_COIL_ADDR = true.
Proof.
  rewrite MB_IS_COIL_ON_bank1 by (unfold OE_COIL_ADDR; lia).
  change (MB_TURN_COIL_ON OE_COIL_ADDR c)
    with (mk_coil_reg_params (coils_bank0 c)
            (to_uint16 (Z.lor (coils_bank1 c) (bit32 15)))).
  cbn [coils_bank1]. change (OE_COIL_ADDR - 16) with 15.
  rewrite to_uint16_testbit, bit32_pow2, testbit_set by lia.
  apply orb_true_r.
Qed.

Lemma mirror_after_off c : MB_IS_COIL_ON (MB_TURN_COIL_OFF OE_COIL_ADDR c) OE_COIL_ADDR = false.
Proof.
  rewrite MB_IS_COIL_ON_bank1 by (unfold OE_COIL_ADDR; lia).
  change (MB_TURN_COIL_OFF OE_COIL_ADDR c)
    with (mk_coil_reg_params (coils_bank0 c)
            (to_uint16 (Z.land (coils_bank1 c) (not64 (bit64 15))))).
  cbn [coils_bank1]. change (OE_COIL_ADDR - 16) with 15.
  rewrite to_uint16_testbit, bit64_pow2, testbit_clear64 by lia.
  apply andb_false_r.
Qed.

(** ** The output lines *)

Lemma drive_lines_unfold lv0 lv1 g :
  drive_lines lv0 lv1 g =
  <[38:=lv1 9%nat]> (<[1:=lv0 9%nat]> (<[37:=lv1 8%nat]> (<[2:=lv0 8%nat]>
  (<[36:=lv1 7%nat]> (<[42:=lv0 7%nat]> (<[35:=lv1 6%nat]> (<[41:=lv0 6%nat]>
  (<[45:=lv1 5%nat]> (<[40:=lv0 5%nat]> (<[48:=lv1 4%nat]> (<[39:=lv0 4%nat]>
  (<[21:=lv1 3%nat]> (<[47:=lv0 3%nat]> (<[13:=lv1 2%nat]> (<[14:=lv0 2%nat]>
  (<[11:=lv1 1%nat]> (<[12:=lv0 1%nat]> (<[46:=lv1 0%nat]> (<[10:=lv0 0%nat]> g
  ))))))))))))))))))).
Proof. reflexivity. Qed.

Ltac pin_lookup :=
  repeat (rewrite lookup_insert_ne by (intros ?; discriminate));
  try rewrite lookup_insert_eq.

Lemma drive_lines_DQ0 lv0 lv1 g k pin :
  DQ0 !! k = Some pin → drive_lines lv0 lv1 g !! pin = Some (lv0 k).
Proof.
  intros Hk. rewrite drive_lines_unfold.
  do 10 (destruct k as [|k]; [injection Hk as <-; pin_lookup; reflexivity |]).
  discriminate.
Qed.

Lemma drive_lines_DQ1 lv0 lv1 g k pin :
  DQ1 !! k = Some pin → drive_lines lv0 lv1 g !! pin = Some (lv1 k).
Proof.
  intros Hk. rewrite drive_lines_unfold.
  do 10 (destruct k as [|k]; [injection Hk as <-; pin_lookup; reflexivity |]).
  discriminate.
Qed.

Lemma drive_lines_other lv0 lv1 g pin :
  pin ∉ output_pins → drive_lines lv0 lv1 g !! pin = g !! pin.
Proof.
  intros Hp. rewrite drive_lines_unfold.
  repeat (rewrite lookup_insert_ne;
          [| intros <-; apply Hp; unfold output_pins, DQ0, DQ1; set_solver]).
  reflexivity.
Qed.

Lemma STATUS_LED_not_output : STATUS_LED ∉ output_pins.
Proof.
  unfold output_pins, DQ0, DQ1, STATUS_LED. rewrite list_elem_of_In. cbn.
  intros H. repeat (destruct H as [H|H]; [discriminate H |]). exact H.
Qed.

(** [update_digital_outputs] only touches the latch, and drives line [i] of
    bank 0 from coil [i] and line [i] of bank 1 from coil [i + 16]. *)
Lemma update_digital_outputs_lines st :
  update_digital_outputs st =
  on_gpio (drive_lines
             (λ i, MB_IS_COIL_ON (coil_reg_params st) (Z.of_nat i))
             (λ i, MB_IS_COIL_ON (coil_reg_params st) (Z.of_nat i + 16))) st.
Proof.
  unfold update_digital_outputs, drive_lines, for_loop.
  generalize (seq 0 ESP32_RIO_NUM_IO_CHANNELS) as l.
  set (c := coil_reg_params st).
  assert (Hc : coil_reg_params st = c) by reflexivity. clearbody c.
  intros l. revert st Hc. induction l as [|i l IH]; intros st Hc.
  - destruct st; reflexivity.
  - cbn [foldl]. rewrite IH.
    + destruct (MB_IS_COIL_ON (coil_reg_params st) (Z.of_nat i)) eqn:E0;
        cbn [on_gpio coil_reg_params];
        destruct (MB_IS_COIL_ON (coil_reg_params st) (Z.of_nat i + 16)) eqn:E1;
        rewrite <- Hc, E0, E1; reflexivity.
    + destruct (MB_IS_COIL_ON (coil_reg_params st) (Z.of_nat i));
        cbn [on_gpio coil_reg_params];
        destruct (MB_IS_COIL_ON (coil_reg_params st) (Z.of_nat i + 16));
        exact Hc.
Qed.

Lemma coil_of_channel_bank0 c k :
  (k < 16)%nat → MB_IS_COIL_ON c (Z.of_nat k) = coil_bit (coils_bank0 c) k.
Proof. intros Hk. unfold coil_bit. apply MB_IS_COIL_ON_bank0. lia. Qed.

Lemma coil_of_channel_bank1 c k :
  (k < 16)%nat → MB_IS_COIL_ON c (Z.of_nat k + 16) = coil_bit (coils_bank1 c) k.
Proof.
  intros Hk. unfold coil_bit. rewrite MB_IS_COIL_ON_bank1 by lia.
  f_equal. lia.
Qed.

Lemma channel_has_pin (tbl : list Z) k :
  length tbl = ESP32_RIO_NUM_IO_CHANNELS →
  (k < ESP32_RIO_NUM_IO_CHANNELS)%nat → ∃ pin, tbl !! k = Some pin.
Proof.
  intros Hl Hk. destruct (lookup_lt_is_Some_2 tbl k) as [pin Hp]; [lia | eauto].
Qed.

Lemma output_level_drive_DQ0 lv0 lv1 st k :
  (k < ESP32_RIO_NUM_IO_CHANNELS)%nat →
  output_level DQ0 (on_gpio (drive_lines lv0 lv1) st) k = lv0 k.
Proof.
  intros Hk. destruct (channel_has_pin DQ0 k eq_refl Hk) as [pin Hp].
  unfold output_level, gpio_level. rewrite Hp. cbn [on_gpio gpio_out].
  rewrite (drive_lines_DQ0 _ _ _ k) by exact Hp. reflexivity.
Qed.

Lemma output_level_drive_DQ1 lv0 lv1 st k :
  (k < ESP32_RIO_NUM_IO_CHANNELS)%nat →
  output_level DQ1 (on_gpio (drive_lines lv0 lv1) st) k = lv1 k.
Proof.
  intros Hk. destruct (channel_has_pin DQ1 k eq_refl Hk) as [pin Hp].
  unfold output_level, gpio_level. rewrite Hp. cbn [on_gpio gpio_out].
  rewrite (drive_lines_DQ1 _ _ _ k) by exact Hp. reflexivity.
Qed.

(** Driving the status LED leaves the output lines as they are. *)
Lemma output_level_led tbl lvl st k :
  tbl ⊆ output_pins →
  output_level tbl (on_gpio (gpio_set_level STATUS_LED lvl) st) k
  = output_level tbl st k.
Proof.
  intros Htbl. unfold output_level. destruct (tbl !! k) as [pin|] eqn:Hp; [| reflexivity].
  unfold gpio_level, gpio_set_level. cbn [on_gpio gpio_out].
  rewrite lookup_insert_ne; [reflexivity |].
  intros <-. apply STATUS_LED_not_output, Htbl. eapply list_elem_of_lookup_2, Hp.
Qed.

Lemma DQ0_outputs : DQ0 ⊆ output_pins.
Proof. intros pin Hp. apply elem_of_app. left. exact Hp. Qed.

Lemma DQ1_outputs : DQ1 ⊆ output_pins.
Proof. intros pin Hp. apply elem_of_app. right. exact Hp. Qed.

Lemma output_level_enabled tbl b st k :
  output_level tbl (set_outputs_enabled b st) k = output_level tbl st k.
Proof. reflexivity. Qed.

Lemma output_level_coils tbl c st k :
  output_level tbl (set_coil_reg_params c st) k = output_level tbl st k.
Proof. reflexivity. Qed.

(** After [update_digital_outputs] every line shows its coil. *)
Lemma update_digital_outputs_levels st k :
  (k < ESP32_RIO_NUM_IO_CHANNELS)%nat →
  output_level DQ0 (update_digital_outputs st) k
    = coil_bit (coils_bank0 (coil_reg_params st)) k ∧
  output_level DQ1 (update_digital_outputs st) k
    = coil_bit (coils_bank1 (coil_reg_params st)) k.
Proof.
  intros Hk. rewrite update_digital_outputs_lines.
  rewrite output_level_drive_DQ0, output_level_drive_DQ1 by exact Hk.
  unfold ESP32_RIO_NUM_IO_CHANNELS in Hk.
  rewrite coil_of_channel_bank0, coil_of_channel_bank1 by lia. auto.
Qed.

Lemma update_digital_outputs_frame st :
  coil_reg_params (update_digital_outputs st) = coil_reg_params st ∧
  discrete_reg_params (update_digital_outputs st) = discrete_reg_params st ∧
  outputs_enabled (update_digital_outputs st) = outputs_enabled st ∧
  gpio_in (update_digital_outputs st) = gpio_in st.
Proof. rewrite update_digital_outputs_lines. auto. Qed.

(** After [esp32_rio_disable_outputs] every line is off. *)
Lemma disable_outputs_all_off st :
  outputs_all_off (on_gpio esp32_rio_disable_outputs st).
Proof.
  intros k Hk.
  change esp32_rio_disable_outputs with (drive_lines (λ _, false) (λ _, false)).
  rewrite output_level_drive_DQ0, output_level_drive_DQ1 by exact Hk. auto.
Qed.

Lemma outputs_all_off_led lvl st :
  outputs_all_off st → outputs_all_off (on_gpio (gpio_set_level STATUS_LED lvl) st).
Proof.
  intros H k Hk.
  rewrite (output_level_led DQ0) by apply DQ0_outputs.
  rewrite (output_level_led DQ1) by apply DQ1_outputs. auto.
Qed.

Lemma setup_reg_data_frame st :
  outputs_enabled (setup_reg_data st) = outputs_enabled st ∧
  gpio_out (setup_reg_data st) = gpio_out st ∧
  coil_reg_params (setup_reg_data st) = mk_coil_reg_params 0 0.
Proof.
  unfold setup_reg_data, for_loop.
  generalize (seq 0 ESP32_RIO_NUM_IO_CHANNELS) as l.
  set (s0 := set_coil_reg_params _ st).
  assert (H0 : outputs_enabled s0 = outputs_enabled st ∧ gpio_out s0 = gpio_out st
               ∧ coil_reg_params s0 = mk_coil_reg_params 0 0) by auto.
  clearbody s0. intros l. revert s0 H0.
  induction l as [|i l IH]; intros s0 H0; [exact H0 |].
  cbn [foldl]. apply IH.
  destruct (esp32_rio_is_input_on (gpio_in s0) i); exact H0.
Qed.

Lemma initial_board_off latch pins :
  outputs_enabled (initial_board latch pins) = false ∧
  outputs_all_off (initial_board latch pins) ∧
  coil_reg_params (initial_board latch pins) = mk_coil_reg_params 0 0.
Proof.
  unfold initial_board.
  destruct (setup_reg_data_frame
              (on_gpio esp32_rio_configure_gpio (power_on latch pins)))
    as (He & Hg & Hc).
  split; [rewrite He; reflexivity |]. split; [| exact Hc].
  intros k Hk. unfold output_level. rewrite Hg.
  exact (disable_outputs_all_off
           (on_gpio (gpio_set_level STATUS_LED false) (power_on latch pins)) k Hk).
Qed.

(** ** The interlock controller *)

(** Reading a field after one of the updates of the board. *)
Lemma coils_on_gpio f st : coil_reg_params (on_gpio f st) = coil_reg_params st.
Proof. reflexivity. Qed.
Lemma enabled_on_gpio f st : outputs_enabled (on_gpio f st) = outputs_enabled st.
Proof. reflexivity. Qed.
Lemma latch_on_gpio f st : gpio_out (on_gpio f st) = f (gpio_out st).
Proof. reflexivity. Qed.
Lemma coils_set_enabled b st :
  coil_reg_params (set_outputs_enabled b st) = coil_reg_params st.
Proof. reflexivity. Qed.
Lemma enabled_set_enabled b st : outputs_enabled (set_outputs_enabled b st) = b.
Proof. reflexivity. Qed.
Lemma latch_set_enabled b st : gpio_out (set_outputs_enabled b st) = gpio_out st.
Proof. reflexivity. Qed.
Lemma coils_set_coils c st : coil_reg_params (set_coil_reg_params c st) = c.
Proof. reflexivity. Qed.
Lemma enabled_set_coils c st :
  outputs_enabled (set_coil_reg_params c st) = outputs_enabled st.
Proof. reflexivity. Qed.
Lemma latch_set_coils c st : gpio_out (set_coil_reg_params c st) = gpio_out st.
Proof. reflexivity. Qed.

Lemma mirror_bit_eq st :
  mirror_bit st = MB_IS_COIL_ON (coil_reg_params st) OE_COIL_ADDR.
Proof. reflexivity. Qed.

Lemma status_led_eq st : status_led st = gpio_level (gpio_out st) STATUS_LED.
Proof. reflexivity. Qed.

Ltac board_fields :=
  repeat first
    [ rewrite coils_on_gpio | rewrite enabled_on_gpio | rewrite latch_on_gpio
    | rewrite coils_set_enabled | rewrite enabled_set_enabled
    | rewrite latch_set_enabled | rewrite coils_set_coils
    | rewrite enabled_set_coils | rewrite latch_set_coils ].

(** What a round of [mb_slave_run] does when it handles a coil write. *)
Lemma mb_slave_run_coils_write ty st :
  is_coils_write ty = true →
  mb_slave_run ty st =
    if outputs_enabled st then
      if mirror_bit st then update_digital_outputs st
      else on_gpio esp32_rio_turn_status_led_off
             (set_outputs_enabled false (on_gpio esp32_rio_disable_outputs st))
    else if mirror_bit st then
      on_gpio esp32_rio_turn_status_led_on
        (set_outputs_enabled true (update_digital_outputs st))
    else st.
Proof.
  unfold is_coils_write, mb_slave_run, mirror_bit. intros H.
  apply andb_true_iff in H as [H Hw]. apply andb_true_iff in H as [Hd Hr].
  rewrite Hd, Hr, Hw. cbn [negb].
  destruct (outputs_enabled st), (MB_IS_COIL_ON (coil_reg_params st) OE_COIL_ADDR);
    reflexivity.
Qed.

(** Any other round leaves the board as it is. *)
Lemma mb_slave_run_other ty st :
  is_coils_write ty = false → mb_slave_run ty st = st.
Proof.
  unfold is_coils_write, mb_slave_run. intros H.
  destruct (Z.land ty MB_EVENT_DISCRETE_RD =? 0); [| reflexivity].
  destruct (Z.land ty MB_EVENT_COILS_RD =? 0); [| reflexivity].
  destruct (Z.land ty MB_EVENT_COILS_WR =? 0); [reflexivity | discriminate].
Qed.

Lemma oe_toggle_disable_off st :
  outputs_enabled (oe_toggle_disable st) = false ∧
  outputs_all_off (oe_toggle_disable st) ∧
  mirror_bit (oe_toggle_disable st) = false ∧
  status_led (oe_toggle_disable st) = false.
Proof.
  split; [reflexivity |]. split; [| split].
  - apply outputs_all_off_led, disable_outputs_all_off.
  - apply mirror_after_off.
  - unfold status_led, gpio_level, oe_toggle_disable, esp32_rio_turn_status_led_off,
      gpio_set_level. board_fields. rewrite lookup_insert_eq. reflexivity.
Qed.

Lemma oe_toggle_enable_on st :
  outputs_enabled (oe_toggle_enable st) = true ∧
  mirror_bit (oe_toggle_enable st) = true ∧
  status_led (oe_toggle_enable st) = true.
Proof.
  unfold oe_toggle_enable, mirror_bit, status_led. board_fields.
  split; [reflexivity |]. split; [apply mirror_after_on |].
  unfold esp32_rio_turn_status_led_on, gpio_set_level, gpio_level.
  rewrite lookup_insert_eq. reflexivity.
Qed.

Lemma toggle_when_enabled st :
  outputs_enabled st = true → on_oe_button_toggle st = oe_toggle_disable st.
Proof. intros H. unfold on_oe_button_toggle. rewrite H. reflexivity. Qed.

Lemma toggle_when_disabled st :
  outputs_enabled st = false → on_oe_button_toggle st = oe_toggle_enable st.
Proof. intros H. unfold on_oe_button_toggle. rewrite H. reflexivity. Qed.

Lemma step_keeps_interlock st e :
  (outputs_enabled st = false → outputs_all_off st) →
  outputs_enabled (step st e) = false → outputs_all_off (step st e).
Proof.
  intros Hinv. destruct e as [|b0 b1|ty]; cbn [step].
  - unfold on_oe_button_toggle. destruct (outputs_enabled st) eqn:He.
    + intros _. apply oe_toggle_disable_off.
    + destruct (oe_toggle_enable_on st) as (-> & _). discriminate.
  - exact Hinv.
  - destruct (is_coils_write ty) eqn:Hty.
    + rewrite mb_slave_run_coils_write by exact Hty.
      destruct (outputs_enabled st) eqn:He, (mirror_bit st) eqn:Hm.
      * destruct (update_digital_outputs_frame st) as (_ & _ & -> & _).
        rewrite He. discriminate.
      * intros _. apply outputs_all_off_led.
        exact (disable_outputs_all_off st).
      * board_fields. discriminate.
      * rewrite He. exact Hinv.
    + rewrite mb_slave_run_other by exact Hty. exact Hinv.
Qed.

Lemma run_keeps_interlock es st :
  (outputs_enabled st = false → outputs_all_off st) →
  outputs_enabled (run es st) = false → outputs_all_off (run es st).
Proof.
  revert st. induction es as [|e es IH]; intros st Hinv; [exact Hinv |].
  cbn [run foldl]. apply IH. apply step_keeps_interlock, Hinv.
Qed.

(** C1.  Interlock safety: in every state reached from start-up by local
    toggles, writes of a master into the coil words (any values) and rounds
    of the bridge, the outputs are all off whenever the interlock is
    Disabled; and a round that handles a coil write while Disabled with the
    mirror bit clear leaves every driven level (and the state Disabled) as
    it was. *)
Theorem interlock_safety :
  (∀ st, reachable st → outputs_enabled st = false → outputs_all_off st) ∧
  (∀ st ty, is_coils_write ty = true →
     outputs_enabled st = false → mirror_bit st = false →
     gpio_out (mb_slave_run ty st) = gpio_out st ∧
     outputs_enabled (mb_slave_run ty st) = false).
Proof.
  split.
  - intros st (latch & pins & es & ->).
    apply run_keeps_interlock. intros _. apply initial_board_off.
  - intros st ty Hty He Hm. rewrite mb_slave_run_coils_write by exact Hty.
    rewrite He, Hm. auto.
Qed.

(** C2.  Mirroring while Enabled: a round that handles a coil write while
    the interlock is Enabled and the mirror bit is set leaves every line of
    bank 0 at coil bit [k] of [coils_bank0] and every line of bank 1 at coil
    bit [k] of [coils_bank1], which is coil address [16 + k]; the coil words
    are not touched and the interlock stays Enabled. *)
Theorem mirroring_while_enabled st ty :
  is_coils_write ty = true →
  outputs_enabled st = true → mirror_bit st = true →
  (∀ k, (k < ESP32_RIO_NUM_IO_CHANNELS)%nat →
     output_level DQ0 (mb_slave_run ty st) k
       = coil_bit (coils_bank0 (coil_reg_params (mb_slave_run ty st))) k ∧
     output_level DQ1 (mb_slave_run ty st) k
       = coil_bit (coils_bank1 (coil_reg_params (mb_slave_run ty st))) k ∧
     output_level DQ0 (mb_slave_run ty st) k
       = MB_IS_COIL_ON (coil_reg_params (mb_slave_run ty st)) (Z.of_nat k) ∧
     output_level DQ1 (mb_slave_run ty st) k
       = MB_IS_COIL_ON (coil_reg_params (mb_slave_run ty st)) (16 + Z.of_nat k)) ∧
  coil_reg_params (mb_slave_run ty st) = coil_reg_params st ∧
  outputs_enabled (mb_slave_run ty st) = true.
Proof.
  intros Hty He Hm. rewrite mb_slave_run_coils_write by exact Hty.
  rewrite He, Hm.
  destruct (update_digital_outputs_frame st) as (Hc & _ & Hen & _).
  split; [| split; [exact Hc | rewrite Hen; exact He]].
  intros k Hk. rewrite Hc.
  destruct (update_digital_outputs_levels st k Hk) as [H0 H1].
  unfold ESP32_RIO_NUM_IO_CHANNELS in Hk.
  rewrite H0, H1, (Z.add_comm 16), coil_of_channel_bank0, coil_of_channel_bank1 by lia.
  auto.
Qed.

(** Both handlers leave the mirror bit (coil 31, bit 15 of [coils_bank1])
    equal to [outputs_enabled]: a local toggle flips the state and writes
    it to the bit; a handled coil write copies the bit into the state. *)
Lemma handlers_synchronise_mirror_bit :
  (∀ st,
     outputs_enabled (on_oe_button_toggle st) = negb (outputs_enabled st) ∧
     mirror_bit (on_oe_button_toggle st) = outputs_enabled (on_oe_button_toggle st)) ∧
  (∀ st ty, is_coils_write ty = true →
     outputs_enabled (mb_slave_run ty st) = mirror_bit st ∧
     mirror_bit (mb_slave_run ty st) = outputs_enabled (mb_slave_run ty st)) ∧
  (∀ st, mirror_bit st = Z.testbit (coils_bank1 (coil_reg_params st)) 15).
Proof.
  split; [| split].
  - intros st. unfold on_oe_button_toggle.
    destruct (outputs_enabled st) eqn:He.
    + destruct (oe_toggle_disable_off st) as (-> & _ & -> & _). auto.
    + destruct (oe_toggle_enable_on st) as (-> & -> & _). auto.
  - intros st ty Hty. rewrite mb_slave_run_coils_write by exact Hty.
    destruct (update_digital_outputs_frame st) as (Hc & _ & Hen & _).
    destruct (outputs_enabled st) eqn:He, (mirror_bit st) eqn:Hm;
      unfold mirror_bit in *; board_fields; rewrite ?Hc, ?Hen, ?Hm, ?He; auto.
  - intros st. unfold mirror_bit.
    apply (MB_IS_COIL_ON_bank1 (coil_reg_params st) OE_COIL_ADDR).
    unfold OE_COIL_ADDR. lia.
Qed.

Lemma oe_toggle_enable_levels st k :
  (k < ESP32_RIO_NUM_IO_CHANNELS)%nat →
  output_level DQ0 (oe_toggle_enable st) k
    = coil_bit (coils_bank0 (coil_reg_params st)) k ∧
  output_level DQ1 (oe_toggle_enable st) k
    = coil_bit (coils_bank1 (coil_reg_params st)) k.
Proof.
  intros Hk. unfold oe_toggle_enable, esp32_rio_turn_status_led_on.
  rewrite (output_level_led DQ0) by apply DQ0_outputs.
  rewrite (output_level_led DQ1) by apply DQ1_outputs.
  rewrite !output_level_coils, !output_level_enabled.
  apply update_digital_outputs_levels, Hk.
Qed.

(** C4.  Scenario A: from Disabled with [coils_bank0 = 0b101], one local
    toggle gives Enabled, lines 0 and 2 of bank 0 on and line 1 off, the
    mirror bit at coil address 31 set and the status LED on. *)
Theorem scenario_A_local_enable st :
  outputs_enabled st = false →
  coils_bank0 (coil_reg_params st) = 5 →
  outputs_enabled (on_oe_button_toggle st) = true ∧
  output_level DQ0 (on_oe_button_toggle st) 0 = true ∧
  output_level DQ0 (on_oe_button_toggle st) 2 = true ∧
  output_level DQ0 (on_oe_button_toggle st) 1 = false ∧
  MB_IS_COIL_ON (coil_reg_params (on_oe_button_toggle st)) 31 = true ∧
  status_led (on_oe_button_toggle st) = true.
Proof.
  intros He Hb. rewrite (toggle_when_disabled st He).
  destruct (oe_toggle_enable_on st) as (Hen & Hm & Hled).
  rewrite mirror_bit_eq in Hm.
  assert (Hlv : ∀ k, (k < ESP32_RIO_NUM_IO_CHANNELS)%nat →
            output_level DQ0 (oe_toggle_enable st) k = coil_bit 5 k).
  { intros k Hk. rewrite <- Hb. apply oe_toggle_enable_levels, Hk. }
  unfold ESP32_RIO_NUM_IO_CHANNELS in Hlv.
  rewrite (Hlv 0%nat), (Hlv 1%nat), (Hlv 2%nat) by lia.
  split; [exact Hen |].
  split; [reflexivity |]. split; [reflexivity |]. split; [reflexivity |].
  split; [exact Hm | exact Hled].
Qed.

(** ** Coil addressing *)

Lemma drive_lines_ext lv0 lv1 lv0' lv1' g :
  (∀ i, (i < ESP32_RIO_NUM_IO_CHANNELS)%nat → lv0 i = lv0' i ∧ lv1 i = lv1' i) →
  drive_lines lv0 lv1 g = drive_lines lv0' lv1' g.
Proof.
  intros H. rewrite !drive_lines_unfold. unfold ESP32_RIO_NUM_IO_CHANNELS in H.
  destruct (H 0%nat ltac:(lia)) as [-> ->]. destruct (H 1%nat ltac:(lia)) as [-> ->].
  destruct (H 2%nat ltac:(lia)) as [-> ->]. destruct (H 3%nat ltac:(lia)) as [-> ->].
  destruct (H 4%nat ltac:(lia)) as [-> ->]. destruct (H 5%nat ltac:(lia)) as [-> ->].
  destruct (H 6%nat ltac:(lia)) as [-> ->]. destruct (H 7%nat ltac:(lia)) as [-> ->].
  destruct (H 8%nat ltac:(lia)) as [-> ->]. destruct (H 9%nat ltac:(lia)) as [-> ->].
  reflexivity.
Qed.

(** Writing the mirror coil changes bit 15 of [coils_bank1] only. *)
Lemma mirror_write_other_coils (b : bool) c a :
  0 <= a < 31 →
  MB_IS_COIL_ON
    (if b then MB_TURN_COIL_ON OE_COIL_ADDR c else MB_TURN_COIL_OFF OE_COIL_ADDR c) a
  = MB_IS_COIL_ON c a.
Proof.
  intros Ha. destruct (Z_lt_dec a 16) as [Hlo|Hhi].
  - rewrite !MB_IS_COIL_ON_bank0 by lia. destruct b; reflexivity.
  - rewrite !MB_IS_COIL_ON_bank1 by lia. destruct b.
    + change (coils_bank1 (MB_TURN_COIL_ON OE_COIL_ADDR c))
        with (to_uint16 (Z.lor (coils_bank1 c) (bit32 15))).
      rewrite to_uint16_testbit, bit32_pow2, testbit_set by lia.
      destruct (Z.eqb_spec 15 (a - 16)); [lia | apply orb_false_r].
    + change (coils_bank1 (MB_TURN_COIL_OFF OE_COIL_ADDR c))
        with (to_uint16 (Z.land (coils_bank1 c) (not64 (bit64 15)))).
      rewrite to_uint16_testbit, bit64_pow2, testbit_clear64 by lia.
      destruct (Z.eqb_spec 15 (a - 16)); [lia | apply andb_true_r].
Qed.

(** C5, as the code has it.  The coil address space splits at the bank
    width 16: addresses 0..15 are the bits of [coils_bank0] and addresses
    16..31 the bits of [coils_bank1].  [update_digital_outputs] drives line
    [k] of bank 0 from address [k] and line [k] of bank 1 from address
    [16 + k], for [k < 10].  The mirror bit is address 31, the top bit of
    [coils_bank1], and writing it either way changes no level that
    [update_digital_outputs] drives. *)
Theorem coil_addressing :
  (∀ c a, 0 <= a < 16 → MB_IS_COIL_ON c a = Z.testbit (coils_bank0 c) a) ∧
  (∀ c a, 16 <= a < 32 → MB_IS_COIL_ON c a = Z.testbit (coils_bank1 c) (a - 16)) ∧
  (∀ st k, (k < ESP32_RIO_NUM_IO_CHANNELS)%nat →
     output_level DQ0 (update_digital_outputs st) k
       = MB_IS_COIL_ON (coil_reg_params st) (Z.of_nat k) ∧
     output_level DQ1 (update_digital_outputs st) k
       = MB_IS_COIL_ON (coil_reg_params st) (16 + Z.of_nat k) ∧
     MB_IS_COIL_ON (coil_reg_params st) (16 + Z.of_nat k)
       = coil_bit (coils_bank1 (coil_reg_params st)) k) ∧
  OE_COIL_ADDR = 31 ∧
  (∀ st (b : bool),
     gpio_out (update_digital_outputs
                 (set_coil_reg_params
                    (if b then MB_TURN_COIL_ON OE_COIL_ADDR (coil_reg_params st)
                     else MB_TURN_COIL_OFF OE_COIL_ADDR (coil_reg_params st)) st))
     = gpio_out (update_digital_outputs st)).
Proof.
  split; [exact MB_IS_COIL_ON_bank0 |]. split; [exact MB_IS_COIL_ON_bank1 |].
  split; [| split; [reflexivity |]].
  - intros st k Hk. destruct (update_digital_outputs_levels st k Hk) as [-> ->].
    unfold ESP32_RIO_NUM_IO_CHANNELS in Hk.
    rewrite (Z.add_comm 16), coil_of_channel_bank0, coil_of_channel_bank1 by lia.
    auto.
  - intros st b. rewrite !update_digital_outputs_lines.
    cbn [on_gpio set_coil_reg_params coil_reg_params gpio_out].
    apply drive_lines_ext. intros i Hi. unfold ESP32_RIO_NUM_IO_CHANNELS in Hi.
    rewrite !mirror_write_other_coils by lia. auto.
Qed.

(** ** Out-of-range coil addresses *)

(** C10, as the code has it.  For an address from 32 up to 65535, the
    largest value of the [uint16_t] the macros keep it in,
    [MB_IS_COIL_ON] is false and [MB_TURN_COIL_ON], [MB_TURN_COIL_OFF] leave
    both bank words as they are; and for any address at all the two writes
    keep 16-bit bank words within 16 bits. *)
Theorem out_of_range_coil_noop :
  (∀ c a, 32 <= a < 65536 →
     MB_IS_COIL_ON c a = false ∧
     MB_TURN_COIL_ON a c = c ∧
     MB_TURN_COIL_OFF a c = c) ∧
  (∀ c a, coils_in_range c →
     coils_in_range (MB_TURN_COIL_ON a c) ∧ coils_in_range (MB_TURN_COIL_OFF a c)).
Proof.
  split.
  - intros c a Ha. unfold MB_IS_COIL_ON, MB_TURN_COIL_ON, MB_TURN_COIL_OFF.
    rewrite to_uint16_small by lia.
    destruct (Z.ltb_spec a 16); [lia |].
    destruct (Z.ltb_spec a 32); [lia |].
    rewrite andb_false_r. auto.
  - intros c a [H0 H1].
    assert (Hm : ∀ x, 0 <= to_uint16 x < 65536)
      by (intros x; unfold to_uint16; apply Z.mod_pos_bound; lia).
    unfold MB_TURN_COIL_ON, MB_TURN_COIL_OFF, coils_in_range.
    destruct (to_uint16 a <? 16); [cbn; auto |].
    destruct ((16 <=? to_uint16 a) && (to_uint16 a <? 32)); cbn; auto.
Qed.

(** ** The input mirror *)

(** C8.  [on_di_level_change i], for a channel [i < 10], makes bit [i] of
    [discrete_inputs] the level sampled at input [i] (the level present at
    pin [DI[i]]), keeps the other fifteen bits, keeps the word within 16
    bits, and changes neither the coil words nor anything else on the
    board. *)
Theorem input_mirror_frame st i :
  (i < ESP32_RIO_NUM_IO_CHANNELS)%nat →
  Z.testbit (discrete_inputs (discrete_reg_params (on_di_level_change i st)))
            (Z.of_nat i)
    = esp32_rio_is_input_on (gpio_in st) i ∧
  (∀ pin, DI !! i = Some pin → esp32_rio_is_input_on (gpio_in st) i = gpio_in st pin) ∧
  (∀ j, 0 <= j < 16 → j ≠ Z.of_nat i →
     Z.testbit (discrete_inputs (discrete_reg_params (on_di_level_change i st))) j
     = Z.testbit (discrete_inputs (discrete_reg_params st)) j) ∧
  0 <= discrete_inputs (discrete_reg_params (on_di_level_change i st)) < 65536 ∧
  coil_reg_params (on_di_level_change i st) = coil_reg_params st ∧
  outputs_enabled (on_di_level_change i st) = outputs_enabled st ∧
  gpio_out (on_di_level_change i st) = gpio_out st ∧
  gpio_in (on_di_level_change i st) = gpio_in st.
Proof.
  intros Hi. unfold ESP32_RIO_NUM_IO_CHANNELS in Hi.
  assert (Hpin : ∀ pin, DI !! i = Some pin →
            esp32_rio_is_input_on (gpio_in st) i = gpio_in st pin).
  { intros pin Hp. unfold esp32_rio_is_input_on. rewrite Hp. reflexivity. }
  unfold on_di_level_change. rewrite bit32_pow2 by lia.
  destruct (esp32_rio_is_input_on (gpio_in st) i);
    cbn [set_discrete_inputs discrete_reg_params discrete_inputs coil_reg_params
         outputs_enabled gpio_out gpio_in].
  - split; [| split; [exact Hpin | split; [| split; [| auto]]]].
    + rewrite to_uint16_testbit, testbit_set, Z.eqb_refl by lia. apply orb_true_r.
    + intros j Hj Hne. rewrite to_uint16_testbit, testbit_set by lia.
      destruct (Z.eqb_spec (Z.of_nat i) j); [congruence | apply orb_false_r].
    + unfold to_uint16. apply Z.mod_pos_bound. lia.
  - split; [| split; [exact Hpin | split; [| split; [| auto]]]].
    + rewrite to_uint16_testbit, testbit_clear32, Z.eqb_refl by lia.
      apply andb_false_r.
    + intros j Hj Hne. rewrite to_uint16_testbit, testbit_clear32 by lia.
      destruct (Z.eqb_spec (Z.of_nat i) j); [congruence | apply andb_true_r].
    + unfold to_uint16. apply Z.mod_pos_bound. lia.
Qed.

(** ** Disabling, and toggling again *)

Lemma drive_lines_off_lookup g pin :
  pin ∈ output_pins → drive_lines (λ _, false) (λ _, false) g !! pin = Some false.
Proof.
  intros Hp. rewrite drive_lines_unfold.
  apply list_elem_of_In in Hp. cbn in Hp.
  repeat (destruct Hp as [<-|Hp]; [pin_lookup; reflexivity |]).
  destruct Hp.
Qed.

(** Forcing the lines off and the LED off, over a latch where some function
    [f] kept the pins that are neither an output line nor the LED. *)
Lemma force_off_absorbs (f : gmap Z bool → gmap Z bool) g :
  (∀ pin, pin ∉ output_pins → pin ≠ STATUS_LED → f g !! pin = g !! pin) →
  esp32_rio_turn_status_led_off (esp32_rio_disable_outputs (f g))
  = esp32_rio_turn_status_led_off (esp32_rio_disable_outputs g).
Proof.
  intros Hf. apply map_eq. intros pin.
  unfold esp32_rio_turn_status_led_off, gpio_set_level.
  change esp32_rio_disable_outputs with (drive_lines (λ _, false) (λ _, false)).
  destruct (decide (STATUS_LED = pin)) as [<-|Hled].
  - rewrite !lookup_insert_eq. reflexivity.
  - rewrite !lookup_insert_ne by exact Hled.
    destruct (decide (pin ∈ output_pins)) as [Hin|Hout].
    + rewrite !drive_lines_off_lookup by exact Hin. reflexivity.
    + rewrite !drive_lines_other by exact Hout. apply Hf; [exact Hout | congruence].
Qed.

Lemma forced_off_fixed g :
  esp32_rio_turn_status_led_off
    (esp32_rio_disable_outputs
       (esp32_rio_turn_status_led_off (esp32_rio_disable_outputs g)))
  = esp32_rio_turn_status_led_off (esp32_rio_disable_outputs g).
Proof.
  apply (force_off_absorbs
           (λ g, esp32_rio_turn_status_led_off (esp32_rio_disable_outputs g))).
  intros pin Hout Hled.
  unfold esp32_rio_turn_status_led_off, gpio_set_level.
  change esp32_rio_disable_outputs with (drive_lines (λ _, false) (λ _, false)).
  rewrite lookup_insert_ne by congruence. apply drive_lines_other, Hout.
Qed.

Lemma mirror_off_off c :
  MB_TURN_COIL_OFF OE_COIL_ADDR (MB_TURN_COIL_OFF OE_COIL_ADDR c)
  = MB_TURN_COIL_OFF OE_COIL_ADDR c.
Proof.
  change (MB_TURN_COIL_OFF OE_COIL_ADDR (MB_TURN_COIL_OFF OE_COIL_ADDR c))
    with (mk_coil_reg_params (coils_bank0 c)
            (to_uint16 (Z.land (to_uint16 (Z.land (coils_bank1 c) (not64 (bit64 15))))
                               (not64 (bit64 15))))).
  change (MB_TURN_COIL_OFF OE_COIL_ADDR c)
    with (mk_coil_reg_params (coils_bank0 c)
            (to_uint16 (Z.land (coils_bank1 c) (not64 (bit64 15))))).
  f_equal. apply to_uint16_ext. intros j Hj.
  rewrite bit64_pow2 by lia.
  rewrite testbit_clear64, to_uint16_testbit, testbit_clear64 by lia.
  destruct (Z.testbit (coils_bank1 c) j), (15 =? j); reflexivity.
Qed.

Lemma mirror_on_off c :
  MB_TURN_COIL_OFF OE_COIL_ADDR
    (MB_TURN_COIL_ON OE_COIL_ADDR (MB_TURN_COIL_OFF OE_COIL_ADDR c))
  = MB_TURN_COIL_OFF OE_COIL_ADDR c.
Proof.
  change (MB_TURN_COIL_OFF OE_COIL_ADDR
            (MB_TURN_COIL_ON OE_COIL_ADDR (MB_TURN_COIL_OFF OE_COIL_ADDR c)))
    with (mk_coil_reg_params (coils_bank0 c)
            (to_uint16
               (Z.land
                  (to_uint16
                     (Z.lor (to_uint16 (Z.land (coils_bank1 c) (not64 (bit64 15))))
                            (bit32 15)))
                  (not64 (bit64 15))))).
  change (MB_TURN_COIL_OFF OE_COIL_ADDR c)
    with (mk_coil_reg_params (coils_bank0 c)
            (to_uint16 (Z.land (coils_bank1 c) (not64 (bit64 15))))).
  f_equal. apply to_uint16_ext. intros j Hj.
  rewrite bit64_pow2, bit32_pow2 by lia.
  rewrite testbit_clear64, to_uint16_testbit, testbit_set, to_uint16_testbit,
    testbit_clear64 by lia.
  destruct (Z.testbit (coils_bank1 c) j), (15 =? j); reflexivity.
Qed.

Lemma oe_toggle_disable_eq st :
  oe_toggle_disable st =
  mk_board (MB_TURN_COIL_OFF OE_COIL_ADDR (coil_reg_params st))
    (discrete_reg_params st) false
    (esp32_rio_turn_status_led_off (esp32_rio_disable_outputs (gpio_out st)))
    (gpio_in st).
Proof. reflexivity. Qed.

Lemma oe_toggle_enable_eq st :
  oe_toggle_enable st =
  mk_board (MB_TURN_COIL_ON OE_COIL_ADDR (coil_reg_params st))
    (discrete_reg_params st) true
    (esp32_rio_turn_status_led_on
       (drive_lines
          (λ i, MB_IS_COIL_ON (coil_reg_params st) (Z.of_nat i))
          (λ i, MB_IS_COIL_ON (coil_reg_params st) (Z.of_nat i + 16))
          (gpio_out st)))
    (gpio_in st).
Proof.
  unfold oe_toggle_enable. rewrite update_digital_outputs_lines. reflexivity.
Qed.

(** The disabling actions do nothing to a board they have just been
    applied to. *)
Lemma oe_toggle_disable_twice st :
  oe_toggle_disable (oe_toggle_disable st) = oe_toggle_disable st.
Proof.
  rewrite (oe_toggle_disable_eq (oe_toggle_disable st)).
  rewrite (oe_toggle_disable_eq st).
  cbn [coil_reg_params discrete_reg_params gpio_out gpio_in].
  rewrite mirror_off_off, forced_off_fixed. reflexivity.
Qed.

(** Enabling and disabling again comes back to the disabled board. *)
Lemma oe_toggle_disable_enable_disable st :
  oe_toggle_disable (oe_toggle_enable (oe_toggle_disable st)) = oe_toggle_disable st.
Proof.
  rewrite (oe_toggle_disable_eq (oe_toggle_enable (oe_toggle_disable st))).
  rewrite (oe_toggle_enable_eq (oe_toggle_disable st)).
  rewrite (oe_toggle_disable_eq st).
  cbn [coil_reg_params discrete_reg_params gpio_out gpio_in].
  rewrite mirror_on_off. f_equal.
  match goal with
  | |- esp32_rio_turn_status_led_off
         (esp32_rio_disable_outputs
            (esp32_rio_turn_status_led_on (drive_lines ?l0 ?l1 ?g0))) = _ =>
      rewrite (force_off_absorbs
                 (λ x, esp32_rio_turn_status_led_on (drive_lines l0 l1 x)) g0)
  end.
  - apply forced_off_fixed.
  - intros pin Hout Hled. unfold esp32_rio_turn_status_led_on, gpio_set_level.
    rewrite lookup_insert_ne by congruence. apply drive_lines_other, Hout.
Qed.

(** C7, as the code has it.  A local toggle taken while Enabled reaches
    Disabled with the mirror bit clear, every output off and the LED off.
    Applying the disabling actions once more to that state changes nothing.
    The toggle itself does not disable a second time: the next local toggle
    enables, and the one after it comes back to the very state the first
    one reached. *)
Theorem disable_idempotent st :
  outputs_enabled st = true →
  outputs_enabled (on_oe_button_toggle st) = false ∧
  mirror_bit (on_oe_button_toggle st) = false ∧
  outputs_all_off (on_oe_button_toggle st) ∧
  status_led (on_oe_button_toggle st) = false ∧
  oe_toggle_disable (on_oe_button_toggle st) = on_oe_button_toggle st ∧
  outputs_enabled (on_oe_button_toggle (on_oe_button_toggle st)) = true ∧
  on_oe_button_toggle (on_oe_button_toggle (on_oe_button_toggle st))
    = on_oe_button_toggle st.
Proof.
  intros He. rewrite (toggle_when_enabled st He).
  destruct (oe_toggle_disable_off st) as (Hen & Hoff & Hm & Hled).
  rewrite (toggle_when_disabled (oe_toggle_disable st) Hen).
  destruct (oe_toggle_enable_on (oe_toggle_disable st)) as (Hen' & _ & _).
  rewrite (toggle_when_enabled (oe_toggle_enable (oe_toggle_disable st)) Hen').
  do 4 (split; [assumption |]).
  split; [apply oe_toggle_disable_twice |].
  split; [exact Hen' | apply oe_toggle_disable_enable_disable].
Qed.
(** C7, as worded, fails: the local toggle cannot disable twice in a row.
    From an Enabled board with coil 0 on, the first toggle disables; the
    second one is no no-op, it sets the state Enabled, the mirror bit, line 0
    of bank 0 and the LED again. *)
Lemma second_local_toggle_enables :
  let st := mk_board (mk_coil_reg_params 1 32768) (mk_discrete_reg_params 0)
              true ∅ (λ _, false) in
  outputs_enabled (on_oe_button_toggle st) = false ∧
  on_oe_button_toggle (on_oe_button_toggle st) ≠ on_oe_button_toggle st ∧
  outputs_enabled (on_oe_button_toggle (on_oe_button_toggle st)) = true ∧
  mirror_bit (on_oe_button_toggle (on_oe_button_toggle st)) = true ∧
  output_level DQ0 (on_oe_button_toggle (on_oe_button_toggle st)) 0 = true ∧
  status_led (on_oe_button_toggle (on_oe_button_toggle st)) = true.
Proof.
  cbv zeta. split; [reflexivity |]. split.
  - intros H. apply (f_equal outputs_enabled) in H. vm_compute in H. discriminate.
  - repeat split; vm_compute; reflexivity.
Qed.

(** C5, as worded, fails.  With [N] the number of channels, address [N]
    is bit [N] of bank 0, not index 0 of bank 1; the partition holds for no
    positive [N] but the bank width 16; and then the mirror bit, address 31,
    lies inside [N, 2N), five reserved addresses above the last output
    address 25: it is neither 26 nor 32. *)
Lemma spec_coil_partition_fails :
  ¬ spec_coil_partition (Z.of_nat ESP32_RIO_NUM_IO_CHANNELS) ∧
  (∀ N, 0 < N → spec_coil_partition N → N = 16) ∧
  OE_COIL_ADDR ≠ 16 + Z.of_nat (ESP32_RIO_NUM_IO_CHANNELS - 1) + 1 ∧
  OE_COIL_ADDR ≠ 2 * 16.
Proof.
  assert (Hfix : ∀ N, 0 < N → spec_coil_partition N → N = 16).
  { intros N HN [H0 H1].
    destruct (Z_lt_dec N 16) as [Hlo|Hhi].
    - specialize (H1 (mk_coil_reg_params 0 1) N ltac:(lia)).
      rewrite MB_IS_COIL_ON_bank0 in H1 by lia.
      cbn [coils_bank0 coils_bank1] in H1.
      rewrite Z.bits_0, Z.sub_diag in H1. discriminate H1.
    - destruct (Z.eq_dec N 16) as [|Hne]; [assumption |].
      specialize (H0 (mk_coil_reg_params 0 1) 16 ltac:(lia)).
      rewrite MB_IS_COIL_ON_bank1 in H0 by lia.
      cbn [coils_bank0 coils_bank1] in H0.
      rewrite Z.bits_0 in H0. discriminate H0. }
  split; [| split; [exact Hfix | split; [discriminate | discriminate]]].
  intros H. apply Hfix in H; [discriminate H | reflexivity].
Qed.

(** C10, as worded, fails above the [uint16_t] range: 65536 is stored as
    0, so the test reads coil 0 and the writes change bit 0 of
    [coils_bank0]. *)
Lemma address_65536_wraps :
  32 <= 65536 ∧
  MB_IS_COIL_ON (mk_coil_reg_params 1 0) 65536 = true ∧
  MB_TURN_COIL_ON 65536 (mk_coil_reg_params 0 0) = mk_coil_reg_params 1 0 ∧
  MB_TURN_COIL_OFF 65536 (mk_coil_reg_params 1 0) = mk_coil_reg_params 0 0.
Proof. split; [lia |]. repeat split; vm_compute; reflexivity. Qed.

(** ** The event consumer *)

Lemma io_task_scan_no_match {A : Type} (callback : option (nat → A → A))
    io_num (tbl : list Z) i (a : A) :
  io_num ∉ tbl → io_task_scan callback io_num tbl i a = a.
Proof.
  revert i. induction tbl as [|pin tbl IH]; intros i Hn; [reflexivity |].
  cbn [io_task_scan]. destruct (Z.eqb_spec io_num pin) as [->|Hne].
  - exfalso. apply Hn. left.
  - apply IH. intros Hin. apply Hn. right. exact Hin.
Qed.

(** An identifier of the table reaches the observer with its index. *)
Lemma io_task_scan_match {A : Type} (callback : nat → A → A) i pin (a : A) :
  DI !! i = Some pin → io_task_scan (Some callback) pin DI 0 a = callback i a.
Proof.
  intros Hi.
  do 10 (destruct i as [|i]; [injection Hi as <-; reflexivity |]).
  discriminate.
Qed.

(** C9.  An identifier taken from the queue that is the pin of no input
    channel calls no observer: whatever the registered observers and their
    owner's state [a] (the board, or a counter of calls), the round leaves
    [a] as it is and changes the component only by removing the entry. *)
Theorem spurious_identifier_ignored {A : Type} (r : remote_io A) (a : A)
    (io_num : Z) (q : list Z) :
  io_num ∉ DI →
  s_io_event_queue r = io_num :: q →
  io_task (r, a)
  = Some (mk_remote_io (s_debounce_timer r) (s_button_pressed r)
            (s_oe_button_toggle_callback r) (s_di_level_change_callback r) q,
          a).
Proof.
  intros Hn Hq. unfold io_task. rewrite Hq.
  rewrite io_task_scan_no_match by exact Hn. reflexivity.
Qed.

(** ** The debounce guard *)

Lemma io_run_app {A : Type} es1 es2 (s : remote_io A * A) :
  io_run (es1 ++ es2) s = io_run es2 (io_run es1 s).
Proof. apply foldl_app. Qed.

(** The interrupt handler never calls an observer. *)
Lemma edge_keeps_owner {A : Type} (s : remote_io A * A) gpio_num :
  snd (io_step s (Edge gpio_num)) = snd s.
Proof. reflexivity. Qed.

(** While more ticks are left than pass, the timer only counts down. *)
Lemma ticks_count_down {A : Type} m : ∀ p n b cb1 cb2 q (a : A),
  (m < n)%nat →
  io_run (repeat Tick m) (mk_remote_io (mk_timer p (Some n)) b cb1 cb2 q, a)
  = (mk_remote_io (mk_timer p (Some (n - m)%nat)) b cb1 cb2 q, a).
Proof.
  induction m as [|m IH]; intros p n b cb1 cb2 q a Hm.
  - rewrite Nat.sub_0_r. reflexivity.
  - cbn [repeat io_run foldl io_step timer_tick s_debounce_timer tm_left tm_period
         s_button_pressed s_oe_button_toggle_callback s_di_level_change_callback
         s_io_event_queue].
    destruct (Nat.leb_spec n 1); [lia |].
    change (foldl io_step ?s ?es) with (io_run es s).
    rewrite IH by lia. do 4 f_equal. lia.
Qed.

(** A dormant timer stays dormant. *)
Lemma ticks_dormant {A : Type} m : ∀ p b cb1 cb2 q (a : A),
  io_run (repeat Tick m) (mk_remote_io (mk_timer p None) b cb1 cb2 q, a)
  = (mk_remote_io (mk_timer p None) b cb1 cb2 q, a).
Proof.
  induction m as [|m IH]; intros; [reflexivity |].
  cbn [repeat io_run foldl]. apply IH.
Qed.

(** After a burst the flag is set and the timer has its whole period left. *)
Lemma burst_arms {A : Type} gaps : ∀ p l b cb1 cb2 q (a : A),
  Forall (λ g, (g < p)%nat) gaps →
  io_run (burst gaps) (mk_remote_io (mk_timer p l) b cb1 cb2 q, a)
  = (mk_remote_io (mk_timer p (Some p)) true cb1 cb2 q, a).
Proof.
  intros p l b cb1 cb2 q a Hg. unfold burst. cbn [io_run foldl].
  change (foldl io_step ?s ?es) with (io_run es s).
  change (io_step _ (Edge OE_TOGGLE_BTN))
    with (mk_remote_io (mk_timer p (Some p)) true cb1 cb2 q, a).
  induction Hg as [|g gaps Hlt Hg IH]; [reflexivity |].
  cbn [flat_map]. rewrite !io_run_app, ticks_count_down by exact Hlt.
  exact IH.
Qed.

(** With the flag set and an observer registered, the timer expires at the
    last tick of its period and calls the observer once. *)
Lemma armed_expires {A : Type} p cb cb2 q (a : A) :
  (0 < p)%nat →
  io_run (repeat Tick p) (mk_remote_io (mk_timer p (Some p)) true (Some cb) cb2 q, a)
  = (mk_remote_io (mk_timer p None) false (Some cb) cb2 q, cb a).
Proof.
  intros Hp. destruct p as [|p]; [lia |].
  rewrite <- Nat.add_1_r, repeat_app, io_run_app, ticks_count_down by lia.
  replace (p + 1 - p)%nat with 1%nat by lia. reflexivity.
Qed.

Lemma button_edges_burst gaps : button_edges (burst gaps) = S (length gaps).
Proof.
  unfold button_edges, burst. cbn [List.filter is_button_edge].
  change (OE_TOGGLE_BTN =? OE_TOGGLE_BTN) with true. cbn [length]. f_equal.
  induction gaps as [|g gaps IH]; [reflexivity |].
  cbn [flat_map]. rewrite !List.filter_app, !length_app, IH.
  replace (List.filter is_button_edge (repeat Tick g)) with (@nil io_event).
  - reflexivity.
  - induction g as [|g IHg]; [reflexivity | exact IHg].
Qed.

(** C6.  [K ≥ 1] button edges, each arriving before the timer restarted by
    its predecessor expires, call the registered observer exactly once: no
    interrupt calls it, the owner's state [a] is untouched after the burst
    and for every number of ticks short of the period, it is [callback a]
    at the tick that completes the period after the last edge, and it stays
    so however many ticks follow.  ([a] may be a counter and [callback] its
    increment.) *)
Theorem debounce_one_toggle {A : Type} (K : nat) (gaps : list nat)
    (r : remote_io A) (callback : A → A) (a : A) :
  (1 ≤ K)%nat →
  length gaps = (K - 1)%nat →
  (0 < tm_period (s_debounce_timer r))%nat →
  Forall (λ g, (g < tm_period (s_debounce_timer r))%nat) gaps →
  s_oe_button_toggle_callback r = Some callback →
  button_edges (burst gaps) = K ∧
  (∀ (s : remote_io A * A) gpio_num, snd (io_step s (Edge gpio_num)) = snd s) ∧
  snd (io_run (burst gaps) (r, a)) = a ∧
  (∀ m, (m < tm_period (s_debounce_timer r))%nat →
     snd (io_run (burst gaps ++ repeat Tick m) (r, a)) = a) ∧
  snd (io_run (burst gaps ++ repeat Tick (tm_period (s_debounce_timer r))) (r, a))
    = callback a ∧
  (∀ m, snd (io_run (burst gaps
                       ++ repeat Tick (tm_period (s_debounce_timer r) + m)) (r, a))
        = callback a).
Proof.
  intros HK Hlen Hp Hgaps Hcb.
  destruct r as [[p l] b cb1 cb2 q].
  cbn [s_debounce_timer tm_period s_oe_button_toggle_callback] in *. subst cb1.
  split; [rewrite button_edges_burst; lia |].
  split; [intros; reflexivity |].
  split; [rewrite burst_arms by exact Hgaps; reflexivity |].
  split; [| split].
  - intros m Hm. rewrite io_run_app, burst_arms, ticks_count_down by assumption.
    reflexivity.
  - rewrite io_run_app, burst_arms, armed_expires by assumption. reflexivity.
  - intros m. rewrite repeat_app, !io_run_app, burst_arms, armed_expires,
      ticks_dormant by assumption.
    reflexivity.
Qed.

(** * Further properties of the register store *)

Lemma to_uint16_idem x : to_uint16 (to_uint16 x) = to_uint16 x.
Proof. unfold to_uint16. apply Z.mod_mod. lia. Qed.

Lemma to_uint16_in_range x : 0 <= to_uint16 x < 65536.
Proof. unfold to_uint16. apply Z.mod_pos_bound. lia. Qed.

Lemma coils_bank0_turn_on a c :
  0 <= a < 16 →
  MB_TURN_COIL_ON a c
  = mk_coil_reg_params (to_uint16 (Z.lor (coils_bank0 c) (2 ^ a))) (coils_bank1 c).
Proof.
  intros Ha. unfold MB_TURN_COIL_ON. rewrite to_uint16_small by lia.
  destruct (Z.ltb_spec a 16); [| lia]. rewrite bit32_pow2 by lia. reflexivity.
Qed.

Lemma coils_bank1_turn_on a c :
  16 <= a < 32 →
  MB_TURN_COIL_ON a c
  = mk_coil_reg_params (coils_bank0 c)
      (to_uint16 (Z.lor (coils_bank1 c) (2 ^ (a - 16)))).
Proof.
  intros Ha. unfold MB_TURN_COIL_ON. rewrite to_uint16_small by lia.
  destruct (Z.ltb_spec a 16); [lia |].
  destruct (Z.leb_spec 16 a); [| lia]. destruct (Z.ltb_spec a 32); [| lia].
  cbn [andb]. rewrite bit32_pow2 by lia. reflexivity.
Qed.

Lemma coils_bank0_turn_off a c :
  0 <= a < 16 →
  MB_TURN_COIL_OFF a c
  = mk_coil_reg_params (to_uint16 (Z.land (coils_bank0 c) (not64 (2 ^ a))))
      (coils_bank1 c).
Proof.
  intros Ha. unfold MB_TURN_COIL_OFF. rewrite to_uint16_small by lia.
  destruct (Z.ltb_spec a 16); [| lia]. rewrite bit64_pow2 by lia. reflexivity.
Qed.

Lemma coils_bank1_turn_off a c :
  16 <= a < 32 →
  MB_TURN_COIL_OFF a c
  = mk_coil_reg_params (coils_bank0 c)
      (to_uint16 (Z.land (coils_bank1 c) (not64 (2 ^ (a - 16))))).
Proof.
  intros Ha. unfold MB_TURN_COIL_OFF. rewrite to_uint16_small by lia.
  destruct (Z.ltb_spec a 16); [lia |].
  destruct (Z.leb_spec 16 a); [| lia]. destruct (Z.ltb_spec a 32); [| lia].
  cbn [andb]. rewrite bit64_pow2 by lia. reflexivity.
Qed.

(** X1.  Reading a coil after a write: for addresses [a], [b] below 32,
    coil [b] is on after [MB_TURN_COIL_ON(a)] exactly when it was on before
    or [b] is [a], and on after [MB_TURN_COIL_OFF(a)] exactly when it was on
    before and [b] is not [a]. *)
Theorem coil_read_after_write c a b :
  0 <= a < 32 → 0 <= b < 32 →
  MB_IS_COIL_ON (MB_TURN_COIL_ON a c) b = MB_IS_COIL_ON c b || (a =? b) ∧
  MB_IS_COIL_ON (MB_TURN_COIL_OFF a c) b = MB_IS_COIL_ON c b && negb (a =? b).
Proof.
  intros Ha Hb.
  destruct (Z_lt_dec a 16) as [Ha0|Ha1], (Z_lt_dec b 16) as [Hb0|Hb1].
  - rewrite coils_bank0_turn_on, coils_bank0_turn_off by lia.
    rewrite !MB_IS_COIL_ON_bank0 by lia. cbn [coils_bank0].
    rewrite !to_uint16_testbit, testbit_set, testbit_clear64 by lia. auto.
  - rewrite coils_bank0_turn_on, coils_bank0_turn_off by lia.
    rewrite !MB_IS_COIL_ON_bank1 by lia. cbn [coils_bank1].
    destruct (Z.eqb_spec a b); [lia |].
    rewrite orb_false_r, andb_true_r. auto.
  - rewrite coils_bank1_turn_on, coils_bank1_turn_off by lia.
    rewrite !MB_IS_COIL_ON_bank0 by lia. cbn [coils_bank0].
    destruct (Z.eqb_spec a b); [lia |].
    rewrite orb_false_r, andb_true_r. auto.
  - rewrite coils_bank1_turn_on, coils_bank1_turn_off by lia.
    rewrite !MB_IS_COIL_ON_bank1 by lia. cbn [coils_bank1].
    rewrite !to_uint16_testbit, testbit_set, testbit_clear64 by lia.
    replace (a - 16 =? b - 16) with (a =? b); [auto |].
    destruct (Z.eqb_spec a b), (Z.eqb_spec (a - 16) (b - 16)); lia || reflexivity.
Qed.

(** Two 16-bit words with the same sixteen bits are equal. *)
Lemma uint16_ext x y :
  0 <= x < 65536 → 0 <= y < 65536 →
  (∀ j, 0 <= j < 16 → Z.testbit x j = Z.testbit y j) → x = y.
Proof.
  intros Hx Hy H. rewrite <- (to_uint16_small x), <- (to_uint16_small y) by lia.
  apply to_uint16_ext, H.
Qed.

(** X2.  On 16-bit bank words, writing a coil the value it has already
    changes nothing, and a write makes the opposite write before it
    irrelevant. *)
Theorem coil_write_absorbs c a :
  coils_in_range c → 0 <= a < 32 →
  (MB_IS_COIL_ON c a = true → MB_TURN_COIL_ON a c = c) ∧
  (MB_IS_COIL_ON c a = false → MB_TURN_COIL_OFF a c = c) ∧
  MB_TURN_COIL_ON a (MB_TURN_COIL_OFF a c) = MB_TURN_COIL_ON a c ∧
  MB_TURN_COIL_OFF a (MB_TURN_COIL_ON a c) = MB_TURN_COIL_OFF a c.
Proof.
  intros [H0 H1] Ha. destruct c as [w0 w1]. cbn [coils_bank0 coils_bank1] in *.
  destruct (Z_lt_dec a 16) as [Hlo|Hhi].
  - rewrite MB_IS_COIL_ON_bank0 by lia.
    rewrite !coils_bank0_turn_on, !coils_bank0_turn_off by lia.
    cbn [coils_bank0 coils_bank1].
    split; [| split; [| split]].
    + intros Hb. f_equal. rewrite <- (to_uint16_small w0) at 2 by lia.
      apply to_uint16_ext. intros j Hj. rewrite testbit_set by lia.
      destruct (Z.eqb_spec a j) as [<-|]; [rewrite Hb; reflexivity | apply orb_false_r].
    + intros Hb. f_equal. rewrite <- (to_uint16_small w0) at 2 by lia.
      apply to_uint16_ext. intros j Hj. rewrite testbit_clear64 by lia.
      destruct (Z.eqb_spec a j) as [<-|]; [rewrite Hb; reflexivity | apply andb_true_r].
    + f_equal. apply to_uint16_ext. intros j Hj.
      rewrite !testbit_set, to_uint16_testbit, testbit_clear64 by lia.
      destruct (Z.testbit w0 j), (a =? j); reflexivity.
    + f_equal. apply to_uint16_ext. intros j Hj.
      rewrite !testbit_clear64, to_uint16_testbit, testbit_set by lia.
      destruct (Z.testbit w0 j), (a =? j); reflexivity.
  - rewrite MB_IS_COIL_ON_bank1 by lia.
    rewrite !coils_bank1_turn_on, !coils_bank1_turn_off by lia.
    cbn [coils_bank0 coils_bank1].
    split; [| split; [| split]].
    + intros Hb. f_equal. rewrite <- (to_uint16_small w1) at 2 by lia.
      apply to_uint16_ext. intros j Hj. rewrite testbit_set by lia.
      destruct (Z.eqb_spec (a - 16) j) as [<-|];
        [rewrite Hb; reflexivity | apply orb_false_r].
    + intros Hb. f_equal. rewrite <- (to_uint16_small w1) at 2 by lia.
      apply to_uint16_ext. intros j Hj. rewrite testbit_clear64 by lia.
      destruct (Z.eqb_spec (a - 16) j) as [<-|];
        [rewrite Hb; reflexivity | apply andb_true_r].
    + f_equal. apply to_uint16_ext. intros j Hj.
      rewrite !testbit_set, to_uint16_testbit, testbit_clear64 by lia.
      destruct (Z.testbit w1 j), (a - 16 =? j); reflexivity.
    + f_equal. apply to_uint16_ext. intros j Hj.
      rewrite !testbit_clear64, to_uint16_testbit, testbit_set by lia.
      destruct (Z.testbit w1 j), (a - 16 =? j); reflexivity.
Qed.

(** * Further properties of the interlock controller and the bridge *)

Lemma for_loop_S {St : Type} n (body : nat → St → St) s :
  for_loop (S n) body s = body n (for_loop n body s).
Proof. unfold for_loop. rewrite seq_S, foldl_app. reflexivity. Qed.

(** The loop of [setup_reg_data], by induction on the number of inputs
    probed. *)
Lemma setup_reg_data_spec st :
  coil_reg_params (setup_reg_data st) = mk_coil_reg_params 0 0 ∧
  (∀ i, (i < ESP32_RIO_NUM_IO_CHANNELS)%nat →
     Z.testbit (discrete_inputs (discrete_reg_params (setup_reg_data st))) (Z.of_nat i)
     = esp32_rio_is_input_on (gpio_in st) i) ∧
  (∀ j, 10 <= j < 16 →
     Z.testbit (discrete_inputs (discrete_reg_params (setup_reg_data st))) j
     = Z.testbit (discrete_inputs (discrete_reg_params st)) j) ∧
  0 <= discrete_inputs (discrete_reg_params (setup_reg_data st)) < 65536 ∧
  outputs_enabled (setup_reg_data st) = outputs_enabled st ∧
  gpio_out (setup_reg_data st) = gpio_out st ∧
  gpio_in (setup_reg_data st) = gpio_in st.
Proof.
  unfold setup_reg_data.
  set (body := λ (i : nat) (st : board),
         if esp32_rio_is_input_on (gpio_in st) i
         then set_discrete_inputs
                (to_uint16 (Z.lor (discrete_inputs (discrete_reg_params st))
                                  (bit32 (Z.of_nat i)))) st
         else set_discrete_inputs
                (to_uint16 (Z.land (discrete_inputs (discrete_reg_params st))
                                   (not32 (bit32 (Z.of_nat i))))) st).
  set (s0 := set_coil_reg_params (mk_coil_reg_params 0 0) st).
  assert (Hinv : ∀ n, (n ≤ 16)%nat →
            coil_reg_params (for_loop n body s0) = mk_coil_reg_params 0 0 ∧
            (∀ i, (i < n)%nat →
               Z.testbit (discrete_inputs (discrete_reg_params (for_loop n body s0)))
                         (Z.of_nat i)
               = esp32_rio_is_input_on (gpio_in st) i) ∧
            (∀ j, Z.of_nat n <= j < 16 →
               Z.testbit (discrete_inputs (discrete_reg_params (for_loop n body s0))) j
               = Z.testbit (discrete_inputs (discrete_reg_params st)) j) ∧
            ((0 < n)%nat →
               0 <= discrete_inputs (discrete_reg_params (for_loop n body s0)) < 65536) ∧
            outputs_enabled (for_loop n body s0) = outputs_enabled st ∧
            gpio_out (for_loop n body s0) = gpio_out st ∧
            gpio_in (for_loop n body s0) = gpio_in st).
  { induction n as [|n IH]; intros Hn.
    - unfold for_loop. cbn [seq foldl]. subst s0.
      repeat split; try reflexivity; intros; lia.
    - rewrite for_loop_S. destruct IH as (Hc & Hlo & Hhi & _ & He & Ho & Hi); [lia |].
      generalize dependent (for_loop n body s0). intros s Hc Hlo Hhi He Ho Hi.
      assert (Hb : body n s =
                set_discrete_inputs
                  (to_uint16
                     (if esp32_rio_is_input_on (gpio_in st) n
                      then Z.lor (discrete_inputs (discrete_reg_params s)) (2 ^ Z.of_nat n)
                      else Z.land (discrete_inputs (discrete_reg_params s))
                                  (not32 (2 ^ Z.of_nat n)))) s).
      { unfold body. rewrite Hi, bit32_pow2 by lia.
        destruct (esp32_rio_is_input_on (gpio_in st) n); reflexivity. }
      rewrite Hb. clear Hb.
      cbn [set_discrete_inputs coil_reg_params discrete_reg_params discrete_inputs
           outputs_enabled gpio_out gpio_in].
      split; [exact Hc |]. split; [| split; [| split; [| auto]]].
      + intros i Hlt. rewrite to_uint16_testbit by lia.
        destruct (esp32_rio_is_input_on (gpio_in st) n) eqn:Hl.
        * rewrite testbit_set by lia.
          destruct (Z.eqb_spec (Z.of_nat n) (Z.of_nat i)) as [Heq|Hne].
          -- apply Nat2Z.inj in Heq. subst i. rewrite Hl. apply orb_true_r.
          -- rewrite orb_false_r. apply Hlo. lia.
        * rewrite testbit_clear32 by lia.
          destruct (Z.eqb_spec (Z.of_nat n) (Z.of_nat i)) as [Heq|Hne].
          -- apply Nat2Z.inj in Heq. subst i. rewrite Hl. apply andb_false_r.
          -- rewrite andb_true_r. apply Hlo. lia.
      + intros j Hj. rewrite to_uint16_testbit by lia.
        destruct (esp32_rio_is_input_on (gpio_in st) n).
        * rewrite testbit_set by lia.
          destruct (Z.eqb_spec (Z.of_nat n) j); [lia |].
          rewrite orb_false_r. apply Hhi. lia.
        * rewrite testbit_clear32 by lia.
          destruct (Z.eqb_spec (Z.of_nat n) j); [lia |].
          rewrite andb_true_r. apply Hhi. lia.
      + intros _. apply to_uint16_in_range. }
  destruct (Hinv ESP32_RIO_NUM_IO_CHANNELS) as (Hc & Hlo & Hhi & Hr & He & Ho & Hi).
  { unfold ESP32_RIO_NUM_IO_CHANNELS. lia. }
  split; [exact Hc |]. split; [exact Hlo |].
  split; [intros j Hj; apply Hhi; unfold ESP32_RIO_NUM_IO_CHANNELS; lia |].
  split; [apply Hr; unfold ESP32_RIO_NUM_IO_CHANNELS; lia | auto].
Qed.

(** X3.  What a master reads after [setup_reg_data]: every coil is off,
    discrete input [i] is the level at input [i] for [i < 10], the reserved
    discrete inputs 10..15 are what they were, and every discrete input
    from 16 on is clear.  The interlock, the output latch and the input
    levels are not touched. *)
Theorem setup_reg_data_probes st :
  (∀ a, MB_IS_COIL_ON (coil_reg_params (setup_reg_data st)) a = false) ∧
  (∀ i, (i < ESP32_RIO_NUM_IO_CHANNELS)%nat →
     Z.testbit (discrete_inputs (discrete_reg_params (setup_reg_data st))) (Z.of_nat i)
     = esp32_rio_is_input_on (gpio_in st) i) ∧
  (∀ j, 10 <= j < 16 →
     Z.testbit (discrete_inputs (discrete_reg_params (setup_reg_data st))) j
     = Z.testbit (discrete_inputs (discrete_reg_params st)) j) ∧
  (∀ j, 16 <= j →
     Z.testbit (discrete_inputs (discrete_reg_params (setup_reg_data st))) j = false) ∧
  outputs_enabled (setup_reg_data st) = outputs_enabled st ∧
  gpio_out (setup_reg_data st) = gpio_out st ∧
  gpio_in (setup_reg_data st) = gpio_in st.
Proof.
  destruct (setup_reg_data_spec st) as (Hc & Hlo & Hhi & Hr & He & Ho & Hi).
  split; [| split; [exact Hlo | split; [exact Hhi | split; [| auto]]]].
  - intros a. rewrite Hc. unfold MB_IS_COIL_ON. cbv zeta.
    cbn [coils_bank0 coils_bank1]. rewrite !Z.land_0_l.
    destruct (to_uint16 a <? 16); [reflexivity |].
    destruct ((16 <=? to_uint16 a) && (to_uint16 a <? 32)); reflexivity.
  - intros j Hj.
    generalize dependent (discrete_inputs (discrete_reg_params (setup_reg_data st))).
    intros x _ _ Hx.
    destruct (Z.eq_dec x 0) as [->|Hne]; [apply Z.bits_0 |].
    apply Z.bits_above_log2; [lia |].
    assert (Z.log2 x < 16) by (apply Z.log2_lt_pow2; lia). lia.
Qed.

(** X4.  A master switches the outputs off: a round that handles a coil
    write while Enabled with the mirror bit clear leaves the interlock
    Disabled, every output line off and the LED off, and does not touch the
    coil words, so the requested output states stay recorded. *)
Theorem remote_disable st ty :
  is_coils_write ty = true →
  outputs_enabled st = true → mirror_bit st = false →
  outputs_enabled (mb_slave_run ty st) = false ∧
  outputs_all_off (mb_slave_run ty st) ∧
  status_led (mb_slave_run ty st) = false ∧
  coil_reg_params (mb_slave_run ty st) = coil_reg_params st.
Proof.
  intros Hty He Hm. rewrite mb_slave_run_coils_write by exact Hty.
  rewrite He, Hm. split; [reflexivity |]. split; [| split; [| reflexivity]].
  - apply outputs_all_off_led. exact (disable_outputs_all_off st).
  - rewrite status_led_eq. board_fields.
    unfold esp32_rio_turn_status_led_off, gpio_set_level, gpio_level.
    rewrite lookup_insert_eq. reflexivity.
Qed.

(** X5.  A master switches the outputs on: a round that handles a coil
    write while Disabled with the mirror bit set leaves the interlock
    Enabled, every line at its coil bit and the LED on, and does not touch
    the coil words. *)
Theorem remote_enable st ty :
  is_coils_write ty = true →
  outputs_enabled st = false → mirror_bit st = true →
  outputs_enabled (mb_slave_run ty st) = true ∧
  (∀ k, (k < ESP32_RIO_NUM_IO_CHANNELS)%nat →
     output_level DQ0 (mb_slave_run ty st) k
       = coil_bit (coils_bank0 (coil_reg_params st)) k ∧
     output_level DQ1 (mb_slave_run ty st) k
       = coil_bit (coils_bank1 (coil_reg_params st)) k) ∧
  status_led (mb_slave_run ty st) = true ∧
  coil_reg_params (mb_slave_run ty st) = coil_reg_params st.
Proof.
  intros Hty He Hm. rewrite mb_slave_run_coils_write by exact Hty.
  rewrite He, Hm.
  destruct (update_digital_outputs_frame st) as (Hc & _ & _ & _).
  split; [board_fields; reflexivity |]. split; [| split].
  - intros k Hk. unfold esp32_rio_turn_status_led_on.
    rewrite (output_level_led DQ0) by apply DQ0_outputs.
    rewrite (output_level_led DQ1) by apply DQ1_outputs.
    rewrite !output_level_enabled. apply update_digital_outputs_levels, Hk.
  - rewrite status_led_eq. board_fields.
    unfold esp32_rio_turn_status_led_on, gpio_set_level, gpio_level.
    rewrite lookup_insert_eq. reflexivity.
  - board_fields. exact Hc.
Qed.

Lemma discrete_on_gpio f st :
  discrete_reg_params (on_gpio f st) = discrete_reg_params st.
Proof. reflexivity. Qed.
Lemma pins_on_gpio f st : gpio_in (on_gpio f st) = gpio_in st.
Proof. reflexivity. Qed.
Lemma discrete_set_enabled b st :
  discrete_reg_params (set_outputs_enabled b st) = discrete_reg_params st.
Proof. reflexivity. Qed.
Lemma pins_set_enabled b st : gpio_in (set_outputs_enabled b st) = gpio_in st.
Proof. reflexivity. Qed.
Lemma discrete_set_coils c st :
  discrete_reg_params (set_coil_reg_params c st) = discrete_reg_params st.
Proof. reflexivity. Qed.
Lemma pins_set_coils c st : gpio_in (set_coil_reg_params c st) = gpio_in st.
Proof. reflexivity. Qed.

Ltac board_frame :=
  repeat first
    [ progress board_fields
    | rewrite discrete_on_gpio | rewrite pins_on_gpio
    | rewrite discrete_set_enabled | rewrite pins_set_enabled
    | rewrite discrete_set_coils | rewrite pins_set_coils ].

Lemma mb_slave_run_frame ty st :
  coil_reg_params (mb_slave_run ty st) = coil_reg_params st ∧
  discrete_reg_params (mb_slave_run ty st) = discrete_reg_params st ∧
  gpio_in (mb_slave_run ty st) = gpio_in st.
Proof.
  destruct (is_coils_write ty) eqn:Hty.
  - rewrite mb_slave_run_coils_write by exact Hty.
    destruct (update_digital_outputs_frame st) as (Hc & Hd & _ & Hi).
    destruct (outputs_enabled st), (mirror_bit st); board_frame;
      rewrite ?Hc, ?Hd, ?Hi; repeat split; reflexivity.
  - rewrite mb_slave_run_other by exact Hty. repeat split; reflexivity.
Qed.

(** X6.  The bridge only reads the register store: no round of
    [mb_slave_run], whatever its event type, changes a coil word, the
    discrete inputs or the input levels; and a round whose type carries the
    discrete-read or the coil-read bit changes nothing at all, even when
    the coil-write bit is set with it. *)
Theorem bridge_reads_registers_only st ty :
  coil_reg_params (mb_slave_run ty st) = coil_reg_params st ∧
  discrete_reg_params (mb_slave_run ty st) = discrete_reg_params st ∧
  gpio_in (mb_slave_run ty st) = gpio_in st ∧
  (Z.land ty MB_EVENT_DISCRETE_RD ≠ 0 ∨ Z.land ty MB_EVENT_COILS_RD ≠ 0 →
   mb_slave_run ty st = st).
Proof.
  destruct (mb_slave_run_frame ty st) as (Hc & Hd & Hi).
  do 3 (split; [assumption |]). intros Hrd.
  apply mb_slave_run_other. unfold is_coils_write.
  destruct Hrd as [H|H]; apply Z.eqb_neq in H; rewrite H;
    [reflexivity | apply andb_false_intro1, andb_false_r].
Qed.

(** * Invariants of the board with its inputs *)

Lemma io_task_scan_cases {A : Type} (cb : nat → A → A) io_num (tbl : list Z) i (a : A) :
  io_task_scan (Some cb) io_num tbl i a = a ∨
  ∃ k, (i ≤ k < i + length tbl)%nat ∧ io_task_scan (Some cb) io_num tbl i a = cb k a.
Proof.
  revert i. induction tbl as [|pin tbl IH]; intros i; [left; reflexivity |].
  cbn [io_task_scan length]. destruct (io_num =? pin).
  - right. exists i. split; [lia | reflexivity].
  - destruct (IH (S i)) as [H|(k & Hk & H)]; [left; exact H |].
    right. exists k. split; [lia | exact H].
Qed.

Lemma bits_below_1024 x :
  0 <= x < 65536 → (∀ j, 10 <= j < 16 → Z.testbit x j = false) → 0 <= x < 1024.
Proof.
  intros Hx Hb. split; [lia |].
  destruct (Z_lt_dec x 1024) as [|Hge]; [assumption | exfalso].
  assert (Hx0 : x = Z.land x (Z.ones 10)).
  { apply Z.bits_inj'. intros j Hj. rewrite Z.land_spec.
    destruct (Z_lt_dec j 10).
    - rewrite Z.ones_spec_low by lia. symmetry. apply andb_true_r.
    - rewrite Z.ones_spec_high by lia. rewrite andb_false_r.
      destruct (Z_lt_dec j 16); [apply Hb; lia |].
      apply Z.bits_above_log2; [lia |].
      assert (Z.log2 x < 16) by (apply Z.log2_lt_pow2; lia). lia. }
  rewrite Z.land_ones in Hx0 by lia.
  pose proof (Z.mod_pos_bound x (2 ^ 10) ltac:(lia)). lia.
Qed.

Lemma testbit_below_1024 x j : 0 <= x < 1024 → 10 <= j → Z.testbit x j = false.
Proof.
  intros Hx Hj. destruct (Z.eq_dec x 0) as [->|]; [apply Z.bits_0 |].
  apply Z.bits_above_log2; [lia |].
  assert (Z.log2 x < 10) by (apply Z.log2_lt_pow2; lia). lia.
Qed.

Lemma on_di_level_change_keeps i st :
  (i < ESP32_RIO_NUM_IO_CHANNELS)%nat →
  coil_reg_params (on_di_level_change i st) = coil_reg_params st ∧
  outputs_enabled (on_di_level_change i st) = outputs_enabled st ∧
  gpio_out (on_di_level_change i st) = gpio_out st ∧
  (0 <= discrete_inputs (discrete_reg_params st) < 1024 →
   0 <= discrete_inputs (discrete_reg_params (on_di_level_change i st)) < 1024).
Proof.
  intros Hi. unfold ESP32_RIO_NUM_IO_CHANNELS in Hi. unfold on_di_level_change.
  rewrite bit32_pow2 by lia.
  destruct (esp32_rio_is_input_on (gpio_in st) i);
    cbn [set_discrete_inputs discrete_reg_params discrete_inputs coil_reg_params
         outputs_enabled gpio_out gpio_in];
    (do 3 (split; [reflexivity |])); intros Hd;
    (apply bits_below_1024; [apply to_uint16_in_range |]); intros j Hj;
    rewrite to_uint16_testbit by lia.
  - rewrite testbit_set by lia. rewrite (testbit_below_1024 _ j Hd) by lia.
    destruct (Z.eqb_spec (Z.of_nat i) j); [lia | reflexivity].
  - rewrite testbit_clear32 by lia. rewrite (testbit_below_1024 _ j Hd) by lia.
    reflexivity.
Qed.

Lemma led_level_set lvl g : gpio_level (gpio_set_level STATUS_LED lvl g) STATUS_LED = lvl.
Proof. unfold gpio_level, gpio_set_level. rewrite lookup_insert_eq. reflexivity. Qed.

Lemma led_level_drive lv0 lv1 g :
  gpio_level (drive_lines lv0 lv1 g) STATUS_LED = gpio_level g STATUS_LED.
Proof.
  unfold gpio_level. rewrite drive_lines_other by apply STATUS_LED_not_output.
  reflexivity.
Qed.

Lemma other_pin_led lvl g pin :
  pin ≠ STATUS_LED → gpio_set_level STATUS_LED lvl g !! pin = g !! pin.
Proof. intros H. unfold gpio_set_level. apply lookup_insert_ne. congruence. Qed.

Lemma other_pin_disable g pin :
  pin ∉ output_pins → esp32_rio_disable_outputs g !! pin = g !! pin.
Proof.
  change esp32_rio_disable_outputs with (drive_lines (λ _, false) (λ _, false)).
  apply drive_lines_other.
Qed.

Lemma coils_in_range_on c : coils_in_range c → coils_in_range (MB_TURN_COIL_ON OE_COIL_ADDR c).
Proof.
  intros [H0 H1]. rewrite coils_bank1_turn_on by (unfold OE_COIL_ADDR; lia).
  split; [exact H0 | apply to_uint16_in_range].
Qed.

Lemma coils_in_range_off c : coils_in_range c → coils_in_range (MB_TURN_COIL_OFF OE_COIL_ADDR c).
Proof.
  intros [H0 H1]. rewrite coils_bank1_turn_off by (unfold OE_COIL_ADDR; lia).
  split; [exact H0 | apply to_uint16_in_range].
Qed.

Lemma toggle_keeps_invariant latch st :
  board_invariant latch st → board_invariant latch (on_oe_button_toggle st).
Proof.
  intros (Hoff & Hpin & Hc & Hd).
  destruct (outputs_enabled st) eqn:He.
  - rewrite (toggle_when_enabled st He).
    destruct (oe_toggle_disable_off st) as (Hen & Hall & _ & Hl).
    split; [intros _; exact Hall |].
    rewrite oe_toggle_disable_eq.
    cbn [gpio_out coil_reg_params discrete_reg_params].
    split; [| split; [apply coils_in_range_off, Hc | exact Hd]].
    intros pin Ho Hl'. unfold esp32_rio_turn_status_led_off.
    rewrite other_pin_led, other_pin_disable by assumption. apply Hpin; assumption.
  - rewrite (toggle_when_disabled st He).
    destruct (oe_toggle_enable_on st) as (Hen & _ & Hl).
    split; [rewrite Hen; discriminate |].
    rewrite oe_toggle_enable_eq.
    cbn [gpio_out coil_reg_params discrete_reg_params].
    split; [| split; [apply coils_in_range_on, Hc | exact Hd]].
    intros pin Ho Hl'. unfold esp32_rio_turn_status_led_on.
    rewrite other_pin_led, drive_lines_other by assumption. apply Hpin; assumption.
Qed.

(** Both branches of the toggle write the LED with the state they set. *)
Lemma toggle_sets_led st :
  status_led (on_oe_button_toggle st) = outputs_enabled (on_oe_button_toggle st).
Proof.
  destruct (outputs_enabled st) eqn:He.
  - rewrite (toggle_when_enabled st He).
    destruct (oe_toggle_disable_off st) as (Hen & _ & _ & Hl).
    rewrite Hl, Hen. reflexivity.
  - rewrite (toggle_when_disabled st He).
    destruct (oe_toggle_enable_on st) as (Hen & _ & Hl).
    rewrite Hl, Hen. reflexivity.
Qed.

Lemma bridge_keeps_invariant latch ty st :
  board_invariant latch st → board_invariant latch (mb_slave_run ty st).
Proof.
  intros (Hoff & Hpin & Hc & Hd).
  destruct (is_coils_write ty) eqn:Hty;
    [| rewrite mb_slave_run_other by exact Hty;
       exact (conj Hoff (conj Hpin (conj Hc Hd)))].
  destruct (mb_slave_run_frame ty st) as (Hc' & Hd' & _).
  unfold board_invariant. rewrite Hc', Hd'.
  rewrite mb_slave_run_coils_write by exact Hty.
  destruct (outputs_enabled st) eqn:He, (mirror_bit st) eqn:Hm.
  - rewrite update_digital_outputs_lines. board_fields. rewrite He.
    split; [discriminate |]. split; [| split; assumption].
    intros pin Ho Hl. rewrite drive_lines_other by assumption. apply Hpin; assumption.
  - board_fields.
    split; [intros _; apply outputs_all_off_led; exact (disable_outputs_all_off st) |].
    split; [| split; assumption].
    intros pin Ho Hl. unfold esp32_rio_turn_status_led_off.
    rewrite other_pin_led, other_pin_disable by assumption.
    apply Hpin; assumption.
  - rewrite update_digital_outputs_lines. board_fields.
    split; [discriminate |]. split; [| split; assumption].
    intros pin Ho Hl. unfold esp32_rio_turn_status_led_on.
    rewrite other_pin_led, drive_lines_other by assumption.
    apply Hpin; assumption.
  - rewrite He. exact (conj Hoff (conj Hpin (conj Hc Hd))).
Qed.

Lemma bridge_keeps_led ty st :
  status_led st = outputs_enabled st →
  status_led (mb_slave_run ty st) = outputs_enabled (mb_slave_run ty st).
Proof.
  intros Hled.
  destruct (is_coils_write ty) eqn:Hty;
    [| rewrite mb_slave_run_other by exact Hty; exact Hled].
  rewrite mb_slave_run_coils_write by exact Hty.
  rewrite status_led_eq in Hled.
  destruct (outputs_enabled st) eqn:He, (mirror_bit st) eqn:Hm.
  - rewrite update_digital_outputs_lines, status_led_eq. board_fields.
    rewrite led_level_drive, He. exact Hled.
  - rewrite status_led_eq. board_fields.
    unfold esp32_rio_turn_status_led_off. rewrite led_level_set. reflexivity.
  - rewrite update_digital_outputs_lines, status_led_eq. board_fields.
    unfold esp32_rio_turn_status_led_on. rewrite led_level_set. reflexivity.
  - rewrite status_led_eq, He. exact Hled.
Qed.

Lemma sys_step_keeps_invariant latch st e :
  board_invariant latch st → board_invariant latch (sys_step st e).
Proof.
  intros Hinv. destruct e as [[|b0 b1|ty]|io_num|pins|level]; cbn [sys_step step].
  - apply toggle_keeps_invariant, Hinv.
  - destruct Hinv as (Hoff & Hpin & Hc & Hd).
    refine (conj Hoff (conj Hpin (conj _ Hd))).
    split; apply to_uint16_in_range.
  - apply bridge_keeps_invariant, Hinv.
  - destruct (io_task_scan_cases on_di_level_change io_num DI 0 st)
      as [->|(k & Hk & ->)]; [exact Hinv |].
    destruct Hinv as (Hoff & Hpin & Hc & Hd).
    destruct (on_di_level_change_keeps k st) as (Hc' & He' & Ho' & Hd');
      [cbn in Hk; unfold ESP32_RIO_NUM_IO_CHANNELS; lia |].
    unfold board_invariant, outputs_all_off, output_level.
    rewrite Hc', He', Ho'.
    split; [exact Hoff |]. split; [exact Hpin |].
    split; [exact Hc | apply Hd', Hd].
  - exact Hinv.
  - destruct Hinv as (Hoff & Hpin & Hc & Hd).
    split; [| split; [| split]].
    + rewrite enabled_on_gpio. intros He. apply outputs_all_off_led, Hoff, He.
    + intros pin Ho Hl. rewrite latch_on_gpio, other_pin_led by assumption.
      apply Hpin; assumption.
    + rewrite coils_on_gpio. exact Hc.
    + rewrite discrete_on_gpio. exact Hd.
Qed.

Lemma sys_step_keeps_led st e :
  is_morse_write e = false →
  status_led st = outputs_enabled st →
  status_led (sys_step st e) = outputs_enabled (sys_step st e).
Proof.
  intros Hne Hled.
  destruct e as [[|b0 b1|ty]|io_num|pins|level]; cbn [sys_step step];
    [| | | | | discriminate Hne].
  - apply toggle_sets_led.
  - exact Hled.
  - apply bridge_keeps_led, Hled.
  - destruct (io_task_scan_cases on_di_level_change io_num DI 0 st)
      as [->|(k & Hk & ->)]; [exact Hled |].
    destruct (on_di_level_change_keeps k st) as (_ & He' & Ho' & _);
      [cbn in Hk; unfold ESP32_RIO_NUM_IO_CHANNELS; lia |].
    rewrite status_led_eq, He', Ho'. rewrite status_led_eq in Hled. exact Hled.
  - exact Hled.
Qed.

Lemma initial_board_eq latch pins :
  initial_board latch pins
  = setup_reg_data (on_gpio esp32_rio_configure_gpio (power_on latch pins)).
Proof. unfold initial_board. reflexivity. Qed.

Lemma invariant_transfer latch st st' :
  gpio_out st' = gpio_out st → outputs_enabled st' = outputs_enabled st →
  coils_in_range (coil_reg_params st') →
  0 <= discrete_inputs (discrete_reg_params st') < 1024 →
  board_invariant latch st → board_invariant latch st'.
Proof.
  intros Hg He Hc Hd (Hoff & Hpin & _ & _).
  unfold board_invariant, outputs_all_off, output_level in *.
  rewrite Hg, He.
  split; [exact Hoff |]. split; [exact Hpin |].
  split; [exact Hc | exact Hd].
Qed.

Lemma setup_reg_data_keeps_invariant latch st :
  board_invariant latch st → board_invariant latch (setup_reg_data st).
Proof.
  intros Hinv.
  destruct (setup_reg_data_spec st) as (Hc & _ & Hhi & Hr & He & Ho & _).
  apply (invariant_transfer latch st); [exact Ho | exact He | | | exact Hinv].
  - rewrite Hc. split; cbn; lia.
  - apply bits_below_1024; [exact Hr |]. intros j Hj. rewrite Hhi by exact Hj.
    apply testbit_below_1024; [apply Hinv | lia].
Qed.

Lemma setup_reg_data_keeps_led st :
  status_led st = outputs_enabled st →
  status_led (setup_reg_data st) = outputs_enabled (setup_reg_data st).
Proof.
  intros Hled.
  destruct (setup_reg_data_spec st) as (_ & _ & _ & _ & He & Ho & _).
  rewrite status_led_eq, Ho, He. rewrite status_led_eq in Hled. exact Hled.
Qed.

Lemma configured_lines latch pins :
  gpio_out (on_gpio esp32_rio_configure_gpio (power_on latch pins))
  = drive_lines (λ _, false) (λ _, false) (gpio_set_level STATUS_LED false latch).
Proof. reflexivity. Qed.

Lemma configured_invariant latch pins :
  board_invariant latch (on_gpio esp32_rio_configure_gpio (power_on latch pins)).
Proof.
  split; [| split; [| split]].
  - intros _ k Hk.
    exact (disable_outputs_all_off
             (on_gpio (gpio_set_level STATUS_LED false) (power_on latch pins)) k Hk).
  - intros pin Hp Hl. rewrite configured_lines.
    rewrite drive_lines_other, other_pin_led by assumption. reflexivity.
  - rewrite coils_on_gpio. split; cbn; lia.
  - rewrite discrete_on_gpio. cbn. lia.
Qed.

Lemma configured_led latch pins :
  status_led (on_gpio esp32_rio_configure_gpio (power_on latch pins))
  = outputs_enabled (on_gpio esp32_rio_configure_gpio (power_on latch pins)).
Proof.
  rewrite status_led_eq, configured_lines, enabled_on_gpio.
  rewrite led_level_drive, led_level_set. reflexivity.
Qed.

Lemma sys_run_keeps_invariant latch es : ∀ st,
  board_invariant latch st → board_invariant latch (sys_run es st).
Proof.
  unfold sys_run. induction es as [|e es IH]; intros st Hinv; [exact Hinv |].
  cbn [foldl]. apply IH, sys_step_keeps_invariant, Hinv.
Qed.

Lemma sys_run_keeps_led es : ∀ st,
  Forall (λ e, is_morse_write e = false) es →
  status_led st = outputs_enabled st →
  status_led (sys_run es st) = outputs_enabled (sys_run es st).
Proof.
  unfold sys_run. induction es as [|e es IH]; intros st Hes Hled; [exact Hled |].
  apply Forall_cons in Hes as [He Hes]. cbn [foldl].
  apply IH; [exact Hes |]. apply sys_step_keeps_led; assumption.
Qed.

Lemma app_main_start_eq latch pins early :
  app_main_start latch pins early
  = setup_reg_data
      (sys_run early (on_gpio esp32_rio_configure_gpio (power_on latch pins))).
Proof. unfold app_main_start. reflexivity. Qed.

Lemma sys_run_single st e : sys_run [e] st = sys_step st e.
Proof. reflexivity. Qed.

Lemma sys_step_toggle st : sys_step st (BoardEvent LocalToggle) = on_oe_button_toggle st.
Proof. reflexivity. Qed.

Lemma run_pair st e1 e2 : run [e1; e2] st = step (step st e1) e2.
Proof. reflexivity. Qed.

Lemma step_master_write st bank0 bank1 :
  step st (MasterWrite bank0 bank1)
  = set_coil_reg_params (mk_coil_reg_params (to_uint16 bank0) (to_uint16 bank1)) st.
Proof. reflexivity. Qed.

Lemma step_bridge_round st ty : step st (BridgeRound ty) = mb_slave_run ty st.
Proof. reflexivity. Qed.

Lemma sys_run_invariant latch pins early es :
  board_invariant latch (sys_run es (app_main_start latch pins early)).
Proof.
  rewrite app_main_start_eq.
  apply sys_run_keeps_invariant, setup_reg_data_keeps_invariant,
    sys_run_keeps_invariant, configured_invariant.
Qed.

(** X7.  As long as the Morse blinker has not written the LED, the status
    LED shows the interlock state in every state the board reaches from
    power-on, before [setup_reg_data] and after it, by local toggles, input
    events, changes of the field wiring, master writes and bridge rounds:
    it is on exactly when the outputs are enabled.  A write of the blinker
    sets the LED to its level and leaves the interlock as it is. *)
Theorem status_led_tracks_interlock latch pins early es :
  Forall (λ e, is_morse_write e = false) early →
  Forall (λ e, is_morse_write e = false) es →
  status_led (sys_run early (on_gpio esp32_rio_configure_gpio (power_on latch pins)))
  = outputs_enabled
      (sys_run early (on_gpio esp32_rio_configure_gpio (power_on latch pins))) ∧
  status_led (sys_run es (app_main_start latch pins early))
  = outputs_enabled (sys_run es (app_main_start latch pins early)) ∧
  (∀ st level,
     status_led (sys_step st (MorseWrite level)) = level ∧
     outputs_enabled (sys_step st (MorseWrite level)) = outputs_enabled st).
Proof.
  intros Hearly Hes.
  pose proof (sys_run_keeps_led early _ Hearly (configured_led latch pins)) as Hpre.
  split; [exact Hpre |]. split.
  - rewrite app_main_start_eq. apply sys_run_keeps_led; [exact Hes |].
    apply setup_reg_data_keeps_led, Hpre.
  - intros st level. cbn [sys_step].
    rewrite status_led_eq, latch_on_gpio, enabled_on_gpio, led_level_set.
    split; reflexivity.
Qed.

(** X8.  The firmware only ever drives the twenty output lines and the
    LED: whatever happens before and after [setup_reg_data], every other
    pin, the ten input pins and the button pin among them, keeps in the
    output latch what was there at power-on. *)
Theorem only_outputs_and_led_driven latch pins early es pin :
  ((pin ∉ output_pins) ∧ pin ≠ STATUS_LED) ∨ pin ∈ DI ∨ pin = OE_TOGGLE_BTN →
  gpio_out (sys_run es (app_main_start latch pins early)) !! pin = latch !! pin.
Proof.
  intros Hpin.
  destruct (sys_run_invariant latch pins early es) as (_ & Hframe & _).
  assert (Hin : pin ∈ DI ∨ pin = OE_TOGGLE_BTN → (pin ∉ output_pins) ∧ pin ≠ STATUS_LED).
  { intros [H| ->].
    - apply list_elem_of_In in H. cbn in H.
      repeat (destruct H as [<-|H];
              [split; [intros H'; apply list_elem_of_In in H'; cbn in H';
                       repeat (destruct H' as [H'|H']; [discriminate H' |]); exact H'
                      | discriminate] |]).
      destruct H.
    - split; [| discriminate]. intros H'. apply list_elem_of_In in H'. cbn in H'.
      repeat (destruct H' as [H'|H']; [discriminate H' |]). exact H'. }
  destruct Hpin as [[Ho Hl]|Hpin]; [| destruct (Hin Hpin) as [Ho Hl]];
    apply Hframe; assumption.
Qed.

(** X9.  In every state the board reaches from power-on, whatever happens
    before and after [setup_reg_data], both coil words are 16-bit values
    and [discrete_inputs] is below 1024: the reserved discrete inputs
    10..15 are never set. *)
Theorem registers_stay_in_range latch pins early es :
  coils_in_range (coil_reg_params (sys_run es (app_main_start latch pins early))) ∧
  0 <= discrete_inputs
         (discrete_reg_params (sys_run es (app_main_start latch pins early)))
    < 1024.
Proof.
  destruct (sys_run_invariant latch pins early es) as (_ & _ & Hc & Hd).
  split; [exact Hc | exact Hd].
Qed.

(** X10.  A local toggle writes no coil but the mirror: every coil address
    below 31 reads after [on_oe_button_toggle] what it read before, and
    the discrete inputs are untouched. *)
Theorem toggle_keeps_output_coils st a :
  0 <= a < 31 →
  MB_IS_COIL_ON (coil_reg_params (on_oe_button_toggle st)) a
    = MB_IS_COIL_ON (coil_reg_params st) a ∧
  discrete_reg_params (on_oe_button_toggle st) = discrete_reg_params st.
Proof.
  intros Ha. destruct (outputs_enabled st) eqn:He.
  - rewrite (toggle_when_enabled st He), oe_toggle_disable_eq.
    cbn [coil_reg_params discrete_reg_params].
    split; [exact (mirror_write_other_coils false _ a Ha) | reflexivity].
  - rewrite (toggle_when_disabled st He), oe_toggle_enable_eq.
    cbn [coil_reg_params discrete_reg_params].
    split; [exact (mirror_write_other_coils true _ a Ha) | reflexivity].
Qed.

(** X11.  Switching the outputs off and on again with the button restores
    them from the coils: after two local toggles from Enabled the interlock
    is Enabled again, the mirror bit is set, the LED is on and every line
    shows the coil bit the board held before the first toggle. *)
Theorem toggle_off_on_restores_outputs st :
  outputs_enabled st = true →
  outputs_enabled (on_oe_button_toggle (on_oe_button_toggle st)) = true ∧
  mirror_bit (on_oe_button_toggle (on_oe_button_toggle st)) = true ∧
  status_led (on_oe_button_toggle (on_oe_button_toggle st)) = true ∧
  (∀ k, (k < ESP32_RIO_NUM_IO_CHANNELS)%nat →
     output_level DQ0 (on_oe_button_toggle (on_oe_button_toggle st)) k
       = coil_bit (coils_bank0 (coil_reg_params st)) k ∧
     output_level DQ1 (on_oe_button_toggle (on_oe_button_toggle st)) k
       = coil_bit (coils_bank1 (coil_reg_params st)) k).
Proof.
  intros He. rewrite (toggle_when_enabled st He).
  destruct (oe_toggle_disable_off st) as (Hen & _).
  rewrite (toggle_when_disabled _ Hen).
  destruct (oe_toggle_enable_on (oe_toggle_disable st)) as (H1 & H2 & H3).
  do 3 (split; [assumption |]).
  intros k Hk. destruct (oe_toggle_enable_levels (oe_toggle_disable st) k Hk) as [-> ->].
  rewrite oe_toggle_disable_eq. cbn [coil_reg_params].
  rewrite coils_bank1_turn_off by (unfold OE_COIL_ADDR; lia).
  cbn [coils_bank0 coils_bank1]. split; [reflexivity |].
  unfold coil_bit, ESP32_RIO_NUM_IO_CHANNELS in *.
  rewrite to_uint16_testbit, testbit_clear64 by (unfold OE_COIL_ADDR; lia).
  destruct (Z.eqb_spec (OE_COIL_ADDR - 16) (Z.of_nat k));
    [unfold OE_COIL_ADDR in *; lia | apply andb_true_r].
Qed.

(** * Further properties of the edge queue, the io task and the debounce *)

Lemma timer_tick_queue {A : Type} (s : remote_io A * A) :
  s_io_event_queue (fst (timer_tick s)) = s_io_event_queue (fst s).
Proof.
  destruct s as [[[p l] b cb1 cb2 q] a]. unfold timer_tick.
  cbn [s_debounce_timer tm_left tm_period s_button_pressed
       s_oe_button_toggle_callback s_di_level_change_callback s_io_event_queue fst].
  destruct l as [n|]; [| reflexivity].
  destruct (n <=? 1)%nat; [| reflexivity].
  unfold debounce_timer_callback.
  cbn [s_debounce_timer s_button_pressed s_oe_button_toggle_callback
       s_di_level_change_callback s_io_event_queue].
  destruct b; [destruct cb1 |]; reflexivity.
Qed.

Lemma xQueueSendFromISR_length q item :
  (length q ≤ IO_EVENT_QUEUE_LENGTH)%nat →
  (length (xQueueSendFromISR q item) ≤ IO_EVENT_QUEUE_LENGTH)%nat.
Proof.
  intros Hq. unfold xQueueSendFromISR.
  destruct (Nat.ltb_spec (length q) IO_EVENT_QUEUE_LENGTH); [| exact Hq].
  rewrite length_app. cbn [length]. lia.
Qed.

Lemma rio_step_queue_bound {A : Type} (s : remote_io A * A) e :
  (length (s_io_event_queue (fst s)) ≤ IO_EVENT_QUEUE_LENGTH)%nat →
  (length (s_io_event_queue (fst (rio_step s e))) ≤ IO_EVENT_QUEUE_LENGTH)%nat.
Proof.
  intros Hq. destruct e as [[gpio_num|]|]; cbn [rio_step io_step].
  - cbn [fst]. unfold io_isr_handler.
    destruct (gpio_num =? OE_TOGGLE_BTN); cbn [s_io_event_queue];
      [exact Hq | apply xQueueSendFromISR_length, Hq].
  - rewrite timer_tick_queue. exact Hq.
  - destruct s as [r a]. unfold io_task. cbn [fst] in *.
    destruct (s_io_event_queue r) as [|io_num q] eqn:Hr.
    + cbn [fst]. rewrite Hr. exact Hq.
    + cbn [fst s_io_event_queue]. cbn [length] in Hq. lia.
Qed.

(** X12.  The edge queue never holds more than ten identifiers, whatever
    edges, ticks and rounds of the io task follow one another. *)
Theorem queue_never_exceeds_capacity {A : Type} (es : list rio_event)
    (r : remote_io A) (a : A) :
  (length (s_io_event_queue r) ≤ 10)%nat →
  (length (s_io_event_queue (fst (rio_run es (r, a)))) ≤ 10)%nat.
Proof.
  change 10%nat with IO_EVENT_QUEUE_LENGTH. unfold rio_run.
  change r with (fst (r, a)) at 1. generalize (r, a) as s.
  induction es as [|e es IH]; intros s Hq; [exact Hq |].
  cbn [foldl]. apply IH, rio_step_queue_bound, Hq.
Qed.

(** X13.  With ten identifiers pending an input edge is dropped: the
    interrupt handler leaves the component exactly as it was.  Once the io
    task has taken one entry, the next edge is queued again, behind the
    nine that are left. *)
Theorem full_queue_drops_then_accepts {A : Type} (r : remote_io A) (a : A)
    (gpio_num io_num : Z) (q : list Z) :
  gpio_num ≠ OE_TOGGLE_BTN →
  s_io_event_queue r = io_num :: q → length q = 9%nat →
  io_isr_handler gpio_num r = r ∧
  s_io_event_queue
    (fst (rio_run [IoEvent (Edge gpio_num); IoTaskRound; IoEvent (Edge gpio_num)] (r, a)))
  = q ++ [gpio_num].
Proof.
  intros Hb Hq Hlen. destruct r as [t b cb1 cb2 q0]. cbn [s_io_event_queue] in Hq.
  subst q0. apply Z.eqb_neq in Hb.
  assert (Hdrop : io_isr_handler gpio_num (mk_remote_io t b cb1 cb2 (io_num :: q))
                  = mk_remote_io t b cb1 cb2 (io_num :: q)).
  { unfold io_isr_handler. rewrite Hb.
    cbn [s_debounce_timer s_button_pressed s_oe_button_toggle_callback
         s_di_level_change_callback s_io_event_queue].
    unfold xQueueSendFromISR. cbn [length]. rewrite Hlen. reflexivity. }
  split; [exact Hdrop |].
  cbn [rio_run foldl rio_step io_step fst snd]. rewrite Hdrop.
  cbn [io_task s_io_event_queue s_debounce_timer s_button_pressed
       s_oe_button_toggle_callback s_di_level_change_callback fst].
  unfold io_isr_handler. rewrite Hb. cbn [s_io_event_queue].
  unfold xQueueSendFromISR. rewrite Hlen. reflexivity.
Qed.

Lemma io_task_scan_none {A : Type} io_num (tbl : list Z) i (a : A) :
  io_task_scan None io_num tbl i a = a.
Proof.
  revert i. induction tbl as [|pin tbl IH]; intros i; [reflexivity |].
  cbn [io_task_scan]. destruct (io_num =? pin); [reflexivity | apply IH].
Qed.

Lemma rio_run_app {A : Type} es1 es2 (s : remote_io A * A) :
  rio_run (es1 ++ es2) s = rio_run es2 (rio_run es1 s).
Proof. apply foldl_app. Qed.

Lemma input_edges_queued {A : Type} (ps : list Z) : ∀ t b cb1 cb2 q (a : A),
  Forall (λ p, p ≠ OE_TOGGLE_BTN) ps →
  (length q + length ps ≤ IO_EVENT_QUEUE_LENGTH)%nat →
  rio_run (map (λ p, IoEvent (Edge p)) ps) (mk_remote_io t b cb1 cb2 q, a)
  = (mk_remote_io t b cb1 cb2 (q ++ ps), a).
Proof.
  induction ps as [|p ps IH]; intros t b cb1 cb2 q a Hps Hlen.
  - rewrite app_nil_r. reflexivity.
  - apply Forall_cons in Hps as [Hp Hps]. cbn [length] in Hlen.
    cbn [map rio_run foldl rio_step io_step fst snd].
    change (foldl rio_step ?s ?es) with (rio_run es s).
    unfold io_isr_handler. apply Z.eqb_neq in Hp. rewrite Hp.
    cbn [s_debounce_timer s_button_pressed s_oe_button_toggle_callback
         s_di_level_change_callback s_io_event_queue].
    unfold xQueueSendFromISR.
    destruct (Nat.ltb_spec (length q) IO_EVENT_QUEUE_LENGTH); [| lia].
    rewrite IH by (try assumption; rewrite length_app; cbn [length]; lia).
    rewrite <- app_assoc. reflexivity.
Qed.

Lemma io_task_drains {A : Type} (ps : list Z) : ∀ t b cb1 cb2 (a : A),
  rio_run (repeat IoTaskRound (length ps)) (mk_remote_io t b cb1 cb2 ps, a)
  = (mk_remote_io t b cb1 cb2 [],
     foldl (λ a p, io_task_scan cb2 p DI 0 a) a ps).
Proof.
  induction ps as [|p ps IH]; intros t b cb1 cb2 a; [reflexivity |].
  cbn [length repeat rio_run foldl rio_step io_task s_io_event_queue
       s_debounce_timer s_button_pressed s_oe_button_toggle_callback
       s_di_level_change_callback].
  change (foldl rio_step ?s ?es) with (rio_run es s).
  apply IH.
Qed.

Lemma edges_then_rounds {A : Type} (ps : list Z) (r : remote_io A) (a : A) :
  s_io_event_queue r = [] →
  Forall (λ p, p ≠ OE_TOGGLE_BTN) ps →
  (length ps ≤ 10)%nat →
  rio_run (map (λ p, IoEvent (Edge p)) ps ++ repeat IoTaskRound (length ps)) (r, a)
  = (r, foldl (λ a p, io_task_scan (s_di_level_change_callback r) p DI 0 a) a ps).
Proof.
  intros Hq Hps Hlen. destruct r as [t b cb1 cb2 q]. cbn [s_io_event_queue] in Hq.
  subst q. cbn [s_di_level_change_callback].
  rewrite rio_run_app, input_edges_queued by (assumption || exact Hlen).
  cbn [app]. apply io_task_drains.
Qed.

(** X14.  The edge queue is first in, first out and loses nothing below
    its capacity: up to ten input edges arriving at an empty queue are all
    queued in their order of arrival, and as many rounds of the io task
    empty the queue again, handing them to the observer in that order. *)
Theorem input_edges_served_in_order {A : Type} (ps : list Z) (r : remote_io A) (a : A) :
  s_io_event_queue r = [] →
  Forall (λ p, p ≠ OE_TOGGLE_BTN) ps →
  (length ps ≤ 10)%nat →
  s_io_event_queue (fst (rio_run (map (λ p, IoEvent (Edge p)) ps) (r, a))) = ps ∧
  snd (rio_run (map (λ p, IoEvent (Edge p)) ps) (r, a)) = a ∧
  rio_run (map (λ p, IoEvent (Edge p)) ps ++ repeat IoTaskRound (length ps)) (r, a)
  = (r, foldl (λ a p, io_task_scan (s_di_level_change_callback r) p DI 0 a) a ps).
Proof.
  intros Hq Hps Hlen. destruct r as [t b cb1 cb2 q]. cbn [s_io_event_queue] in Hq.
  subst q. cbn [s_di_level_change_callback].
  rewrite rio_run_app, input_edges_queued by (assumption || exact Hlen).
  cbn [app fst snd s_io_event_queue].
  split; [reflexivity |]. split; [reflexivity |]. apply io_task_drains.
Qed.

Lemma DI_pin_not_button i pin : DI !! i = Some pin → pin ≠ OE_TOGGLE_BTN.
Proof.
  intros Hi.
  do 10 (destruct i as [|i]; [injection Hi as <-; discriminate |]).
  discriminate.
Qed.

(** X15.  From the edge to the register: with [on_di_level_change]
    registered and the queue empty, an edge on the pin of input [i]
    followed by a round of the io task updates the board by
    [on_di_level_change i] and leaves the component as it was; bit [i] of
    [discrete_inputs] is then the level at the pin when the task ran, not
    the level at the time of the edge. *)
Theorem input_edge_reaches_register (r : remote_io board) (st : board) i pin :
  DI !! i = Some pin →
  s_io_event_queue r = [] →
  s_di_level_change_callback r = Some on_di_level_change →
  rio_run [IoEvent (Edge pin); IoTaskRound] (r, st) = (r, on_di_level_change i st) ∧
  Z.testbit (discrete_inputs
               (discrete_reg_params
                  (snd (rio_run [IoEvent (Edge pin); IoTaskRound] (r, st)))))
            (Z.of_nat i)
  = gpio_in st pin.
Proof.
  intros Hi Hq Hcb.
  assert (Hrun : rio_run [IoEvent (Edge pin); IoTaskRound] (r, st)
                 = (r, on_di_level_change i st)).
  { pose proof (edges_then_rounds [pin] r st Hq) as H.
    cbn [map app length repeat] in H. rewrite H, Hcb.
    - cbn [foldl].
      rewrite (io_task_scan_match on_di_level_change i pin st Hi). reflexivity.
    - constructor; [exact (DI_pin_not_button i pin Hi) | constructor].
    - lia. }
  split; [exact Hrun |]. rewrite Hrun. cbn [snd].
  assert (Hlt : (i < 10)%nat).
  { apply lookup_lt_Some in Hi. exact Hi. }
  unfold on_di_level_change, esp32_rio_is_input_on. rewrite Hi, bit32_pow2 by lia.
  destruct (gpio_in st pin);
    cbn [set_discrete_inputs discrete_reg_params discrete_inputs].
  - rewrite to_uint16_testbit, testbit_set, Z.eqb_refl by lia. apply orb_true_r.
  - rewrite to_uint16_testbit, testbit_clear32, Z.eqb_refl by lia. apply andb_false_r.
Qed.

Lemma rio_step_unregistered {A : Type} (s : remote_io A * A) e :
  s_oe_button_toggle_callback (fst s) = None →
  s_di_level_change_callback (fst s) = None →
  s_oe_button_toggle_callback (fst (rio_step s e)) = None ∧
  s_di_level_change_callback (fst (rio_step s e)) = None ∧
  snd (rio_step s e) = snd s.
Proof.
  destruct s as [[[p l] b cb1 cb2 q] a].
  cbn [fst snd s_oe_button_toggle_callback s_di_level_change_callback].
  intros -> ->. destruct e as [[gpio_num|]|]; cbn [rio_step io_step fst snd].
  - unfold io_isr_handler. destruct (gpio_num =? OE_TOGGLE_BTN); auto.
  - unfold timer_tick.
    cbn [s_debounce_timer tm_left tm_period s_button_pressed
         s_oe_button_toggle_callback s_di_level_change_callback s_io_event_queue].
    destruct l as [n|]; [| auto]. destruct (n <=? 1)%nat; [| auto].
    unfold debounce_timer_callback. cbn [s_button_pressed s_oe_button_toggle_callback].
    destruct b; auto.
  - unfold io_task. cbn [s_io_event_queue]. destruct q as [|io_num q]; [auto |].
    cbn [fst snd s_oe_button_toggle_callback s_di_level_change_callback].
    rewrite io_task_scan_none. auto.
Qed.

(** X16.  With both observers unregistered, as
    [esp32_rio_io_services_deinit] leaves them first of all, nothing the
    component does reaches its owner: after any edges, ticks and rounds of
    the io task the owner's state is what it was. *)
Theorem unregistered_observers_never_called {A : Type} (es : list rio_event)
    (r : remote_io A) (a : A) :
  s_oe_button_toggle_callback r = None →
  s_di_level_change_callback r = None →
  snd (rio_run es (r, a)) = a.
Proof.
  intros H1 H2. unfold rio_run.
  change a with (snd (r, a)) at 2.
  change r with (fst (r, a)) in H1, H2. revert H1 H2. generalize (r, a) as s.
  induction es as [|e es IH]; intros s H1 H2; [reflexivity |].
  cbn [foldl]. destruct (rio_step_unregistered s e H1 H2) as (H1' & H2' & <-).
  apply IH; assumption.
Qed.

Lemma io_step_not_pressed {A : Type} (s : remote_io A * A) e :
  is_button_edge e = false →
  s_button_pressed (fst s) = false →
  s_button_pressed (fst (io_step s e)) = false ∧ snd (io_step s e) = snd s.
Proof.
  destruct s as [[[p l] b cb1 cb2 q] a]. cbn [fst snd s_button_pressed].
  intros He ->. destruct e as [gpio_num|]; cbn [io_step fst snd].
  - cbn [is_button_edge] in He. unfold io_isr_handler. rewrite He. auto.
  - unfold timer_tick.
    cbn [s_debounce_timer tm_left tm_period s_button_pressed
         s_oe_button_toggle_callback s_di_level_change_callback s_io_event_queue].
    destruct l as [n|]; [| auto]. destruct (n <=? 1)%nat; auto.
Qed.

(** X17.  No press, no toggle: as long as no button edge has set the
    pending flag, edges on other pins and ticks of the timer, even an
    expiry of a running timer, never call the toggle observer, and the flag
    stays clear. *)
Theorem no_toggle_without_press {A : Type} (es : list io_event)
    (r : remote_io A) (a : A) :
  s_button_pressed r = false →
  Forall (λ e, is_button_edge e = false) es →
  snd (io_run es (r, a)) = a ∧
  s_button_pressed (fst (io_run es (r, a))) = false.
Proof.
  intros Hp Hes. unfold io_run.
  change a with (snd (r, a)) at 2.
  change r with (fst (r, a)) in Hp. revert Hp. generalize (r, a) as s.
  induction Hes as [|e es He Hes IH]; intros s Hp; [auto |].
  cbn [foldl]. destruct (io_step_not_pressed s e He Hp) as (Hp' & <-).
  apply IH, Hp'.
Qed.

Lemma press_toggles_once {A : Type} gaps extra p l b cb cb2 q (a : A) :
  (0 < p)%nat → Forall (λ g, (g < p)%nat) gaps →
  io_run (burst gaps ++ repeat Tick (p + extra))
    (mk_remote_io (mk_timer p l) b (Some cb) cb2 q, a)
  = (mk_remote_io (mk_timer p None) false (Some cb) cb2 q, cb a).
Proof.
  intros Hp Hg.
  rewrite repeat_app, !io_run_app, burst_arms, armed_expires, ticks_dormant
    by assumption.
  reflexivity.
Qed.

(** X18.  One toggle per press: button presses that each let the debounce
    period run out, every press a burst of edges closer together than the
    period, call the toggle observer once per press, in total as many times
    as there were presses. *)
Theorem one_toggle_per_press {A : Type} (bs : list (list nat * nat))
    (r : remote_io A) (callback : A → A) (a : A) :
  (0 < tm_period (s_debounce_timer r))%nat →
  Forall (λ b, Forall (λ g, (g < tm_period (s_debounce_timer r))%nat) (fst b)) bs →
  s_oe_button_toggle_callback r = Some callback →
  snd (io_run (presses (tm_period (s_debounce_timer r)) bs) (r, a))
  = Nat.iter (length bs) callback a.
Proof.
  intros Hp Hbs Hcb. destruct r as [[p l] b cb1 cb2 q].
  cbn [s_debounce_timer tm_period s_oe_button_toggle_callback] in *. subst cb1.
  revert l b a. induction Hbs as [|[gaps extra] bs Hg Hbs IH]; intros l b a;
    [reflexivity |].
  unfold presses. cbn [flat_map fst snd]. rewrite io_run_app.
  rewrite press_toggles_once by assumption.
  change (flat_map _ bs) with (presses p bs). rewrite IH.
  cbn [length]. rewrite Nat.iter_succ_r. reflexivity.
Qed.

(** * Properties of the command line parser *)

Lemma reset_console_state_ok : console_ok reset_console_state.
Proof.
  unfold console_ok, reset_console_state.
  cbn [s_cmd_buffer s_arg_buffer s_cmd_char_idx s_current_state].
  rewrite !length_replicate. repeat split; try lia.
  apply Forall_replicate, length_replicate.
Qed.

Lemma ascii_eqb_false_neq (c d : ascii) : Ascii.eqb c d = false → c ≠ d.
Proof. intros H ->. rewrite Ascii.eqb_refl in H. discriminate. Qed.

Lemma evaluate_and_reset_ok env st :
  match evaluate_and_reset env st with
  | Continue st' _ => st' = reset_console_state
  | Halt _ => True
  | Fault => False
  end.
Proof.
  unfold evaluate_and_reset. destruct (evaluate_command env st) as [out [|]]; auto.
Qed.

Lemma evaluate_and_reset_console_ok env st :
  match evaluate_and_reset env st with
  | Continue st' _ => console_ok st'
  | Halt _ => True
  | Fault => False
  end.
Proof.
  pose proof (evaluate_and_reset_ok env st) as H.
  destruct (evaluate_and_reset env st); [subst; apply reset_console_state_ok | | ]; auto.
Qed.

(** Storing through the argument pointer, in a state where it is set. *)
Lemma store_arg_inc_some c cb ab ci ai ac k esc s :
  length ab = MAX_ARG_COUNT →
  Forall (λ buf, length buf = (MAX_ARG_LENGTH + 1)%nat) ab →
  (k < MAX_ARG_COUNT)%nat → (ai ≤ MAX_ARG_LENGTH)%nat →
  ∃ buf, ab !! k = Some buf ∧
    store_arg_inc c (mk_console cb ab ci ai ac (Some k) esc s)
    = Some (mk_console cb (<[k := <[ai := c]> buf]> ab) ci (S ai) ac (Some k) esc s) ∧
    length (<[k := <[ai := c]> buf]> ab) = MAX_ARG_COUNT ∧
    Forall (λ buf, length buf = (MAX_ARG_LENGTH + 1)%nat) (<[k := <[ai := c]> buf]> ab).
Proof.
  intros Hlen Hall Hk Hi.
  destruct (lookup_lt_is_Some_2 ab k) as [buf Hbuf]; [lia |].
  assert (Hb : length buf = (MAX_ARG_LENGTH + 1)%nat).
  { eapply Forall_lookup_1 in Hall; [exact Hall | exact Hbuf]. }
  exists buf. split; [exact Hbuf |]. unfold store_arg_inc.
  cbn [s_current_arg_buf s_arg_buffer s_arg_char_idx s_cmd_buffer s_cmd_char_idx
       s_arg_count s_escape_next_char s_current_state].
  rewrite Hbuf. destruct (Nat.ltb_spec ai (length buf)); [| lia].
  split; [reflexivity |]. rewrite length_insert. split; [exact Hlen |].
  apply Forall_insert; [exact Hall |]. rewrite length_insert. exact Hb.
Qed.

Ltac console_simpl :=
  cbv zeta;
  unfold set_state, set_escape, set_arg_char_idx, next_arg_buf;
  cbn [s_cmd_buffer s_arg_buffer s_cmd_char_idx s_arg_char_idx s_arg_count
       s_current_arg_buf s_escape_next_char s_current_state].

Ltac console_goal :=
  unfold console_ok, set_state, set_escape, set_arg_char_idx, next_arg_buf;
  cbn [set_state set_escape set_arg_char_idx next_arg_buf
       s_cmd_buffer s_arg_buffer s_cmd_char_idx s_arg_char_idx s_arg_count
       s_current_arg_buf s_escape_next_char s_current_state];
  rewrite ?length_insert;
  repeat match goal with |- _ ∧ _ => split end;
  try assumption; try exact I; try reflexivity; try lia;
  try (eexists; split; [reflexivity | lia]); eauto.

Lemma store_arg_checked_ok c (after : console → console) cb ab ci ai ac k esc s :
  length cb = (MAX_COMMAND_LENGTH + 1)%nat →
  length ab = MAX_ARG_COUNT →
  Forall (λ buf, length buf = (MAX_ARG_LENGTH + 1)%nat) ab →
  (ci ≤ MAX_COMMAND_LENGTH)%nat →
  (k < MAX_ARG_COUNT)%nat → (ai ≤ MAX_ARG_LENGTH)%nat →
  s = STATE_READING_ARG ∨ s = STATE_READING_QUOTED_ARG →
  (∀ st0, after st0 = st0 ∨ after st0 = set_escape false st0) →
  match store_arg_checked c after (mk_console cb ab ci ai ac (Some k) esc s) with
  | Continue st' _ => console_ok st'
  | Halt _ => True
  | Fault => False
  end.
Proof.
  intros Hc Hlen Hall Hci Hk Hi Hs Hafter. unfold store_arg_checked.
  cbn [s_arg_char_idx].
  destruct (Nat.ltb_spec ai MAX_ARG_LENGTH).
  - destruct (store_arg_inc_some c cb ab ci ai ac k esc s Hlen Hall Hk Hi)
      as (buf & _ & -> & Hlen' & Hall').
    match goal with |- context [after ?x] => destruct (Hafter x) as [-> | ->] end;
      destruct Hs as [-> | ->]; console_goal.
  - unfold parse_error.
    match goal with |- context [after ?x] => destruct (Hafter x) as [-> | ->] end;
      console_goal.
Qed.

(** One character keeps the parser within its buffers. *)
Lemma console_task_ok env c st :
  console_ok st →
  match console_task env c st with
  | Continue st' _ => console_ok st'
  | Halt _ => True
  | Fault => False
  end.
Proof.
  destruct st as [cb ab ci ai ac cur esc s].
  intros (Hc & Hlen & Hall & Hci & Hst).
  cbn [s_cmd_buffer s_arg_buffer s_cmd_char_idx s_arg_char_idx s_arg_count
       s_current_arg_buf s_escape_next_char s_current_state] in *.
  unfold console_task; cbn [s_current_state]. destruct s.
  - (* STATE_IDLE *)
    unfold reset_console_state in Hst.
    injection Hst as Hcb Hab -> -> -> -> ->. destruct (isalpha c).
    + unfold store_cmd_inc, store_cmd. cbn [s_cmd_char_idx s_cmd_buffer].
      destruct (Nat.ltb_spec 0 (length cb)); [| unfold MAX_COMMAND_LENGTH in *; lia].
      console_goal. unfold MAX_COMMAND_LENGTH. lia.
    + destruct (negb (is_newline c)); [unfold parse_error |]; console_goal.
      subst cb ab. reflexivity.
  - (* STATE_READING_COMMAND_NAME *)
    unfold store_cmd_inc, store_cmd. cbn [s_cmd_char_idx s_cmd_buffer].
    destruct (Nat.ltb_spec ci (length cb)); [| lia].
    destruct (is_newline c); [apply evaluate_and_reset_console_ok |].
    destruct (isblank c); [console_goal |].
    destruct (isalnum c || Ascii.eqb c "-" || Ascii.eqb c "_");
      [| unfold parse_error; console_goal].
    destruct (Nat.ltb_spec ci MAX_COMMAND_LENGTH);
      [| unfold parse_error]; console_goal.
  - (* STATE_EXPECTING_ARG *)
    console_simpl.
    destruct (is_newline c); [apply reset_console_state_ok |].
    destruct (isblank c); [unfold parse_error; console_goal |].
    destruct (Ascii.eqb c "034"%char).
    + destruct (Nat.ltb_spec ac MAX_ARG_COUNT); [| unfold parse_error]; console_goal.
    + destruct (Nat.ltb_spec ac MAX_ARG_COUNT); [| unfold parse_error; console_goal].
      destruct (store_arg_inc_some c cb ab ci 0 (S ac) ac esc STATE_EXPECTING_ARG)
        as (buf & _ & -> & Hlen' & Hall'); try assumption; [lia |].
      console_goal. unfold MAX_ARG_LENGTH. lia.
  - (* STATE_READING_ARG *)
    destruct Hst as [(k & -> & Hk) Hi].
    destruct (store_arg_inc_some zero cb ab ci ai ac k esc STATE_READING_ARG)
      as (buf & _ & Hz & Hlen' & Hall'); try assumption.
    destruct (is_newline c); [rewrite Hz; apply evaluate_and_reset_console_ok |].
    destruct (isblank c); [rewrite Hz; console_goal |].
    apply (store_arg_checked_ok c (λ st, st)); auto.
  - (* STATE_READING_QUOTED_ARG *)
    destruct Hst as [(k & -> & Hk) Hi]. cbn [s_escape_next_char].
    destruct (Ascii.eqb c "034"%char).
    { destruct esc; [| console_goal].
      apply (store_arg_checked_ok c (λ st, st)); auto. }
    destruct (Ascii.eqb c "\").
    { destruct esc; [| console_goal].
      apply (store_arg_checked_ok c (λ st, st)); auto. }
    apply (store_arg_checked_ok c (set_escape false)); auto.
  - (* STATE_CLOSED_QUOTED_ARG *)
    destruct Hst as [(k & -> & Hk) Hi].
    destruct (store_arg_inc_some zero cb ab ci ai ac k esc STATE_CLOSED_QUOTED_ARG)
      as (buf & _ & Hz & Hlen' & Hall'); try assumption.
    destruct (is_newline c); [rewrite Hz; apply evaluate_and_reset_console_ok |].
    destruct (isblank c); [rewrite Hz; console_goal |].
    unfold parse_error. console_goal.
  - (* STATE_ERROR *)
    destruct (is_newline c); [apply reset_console_state_ok | console_goal].
Qed.

Lemma console_run_ok env input : ∀ st,
  console_ok st →
  match console_run env input st with
  | Continue st' _ => console_ok st'
  | Halt _ => True
  | Fault => False
  end.
Proof.
  induction input as [|c input IH]; intros st Hok; [exact Hok |].
  cbn [console_run]. pose proof (console_task_ok env c st Hok) as Hstep.
  destruct (console_task env c st) as [st1 out| |]; [| exact I | exact Hstep].
  specialize (IH st1 Hstep). destruct (console_run env input st1); auto.
Qed.

(** X19.  The parser stays within its buffers: whatever characters
    arrive, no store goes outside [s_cmd_buffer] or a row of
    [s_arg_buffer], and none goes through the argument pointer while it is
    [NULL]. *)
Theorem console_never_faults env input :
  console_run env input reset_console_state ≠ Fault.
Proof.
  pose proof (console_run_ok env input _ reset_console_state_ok) as H.
  intros Heq. rewrite Heq in H. exact H.
Qed.

Lemma evaluate_command_fits env st :
  Forall effect_fits (fst (evaluate_command env st)).
Proof.
  unfold evaluate_command.
  repeat match goal with
         | |- context [if ?b then _ else _] => destruct b eqn:?
         | |- context [match ?o with Some _ => _ | None => _ end] => destruct o as [?|]
         | |- context [let (_, _) := ?p in _] => destruct p
         end;
    cbn [fst]; repeat (apply Forall_cons; split); try apply Forall_nil;
    try exact I; cbn [effect_fits].
  all: repeat match goal with
         | H : (_ && _) = true |- _ => apply andb_true_iff in H as [? ?]
         | H : (_ <? _)%nat = true |- _ => apply Nat.ltb_lt in H
         | H : (_ <? _)%nat = false |- _ => apply Nat.ltb_ge in H
         end;
    unfold strlen, ESP32_RIO_SSID_MAX_LENGTH, ESP32_RIO_PASSWORD_MAX_LENGTH in *; lia.
Qed.

Lemma console_task_fits env c st :
  Forall effect_fits (outcome_effects (console_task env c st)).
Proof.
  assert (Hev : ∀ st0, Forall effect_fits (outcome_effects (evaluate_and_reset env st0))).
  { intros st0. unfold evaluate_and_reset.
    pose proof (evaluate_command_fits env st0) as H.
    destruct (evaluate_command env st0) as [out [|]]; exact H. }
  assert (Hst : ∀ after st0,
            Forall effect_fits (outcome_effects (store_arg_checked c after st0))).
  { intros after st0. unfold store_arg_checked, parse_error.
    destruct (s_arg_char_idx st0 <? MAX_ARG_LENGTH)%nat;
      [destruct (store_arg_inc c st0) |]; cbn [outcome_effects];
      repeat (apply Forall_cons; split); try apply Forall_nil; exact I. }
  unfold console_task, parse_error.
  destruct (s_current_state st); cbv zeta;
    repeat match goal with
           | |- Forall _ (outcome_effects (evaluate_and_reset _ _)) => apply Hev
           | |- Forall _ (outcome_effects (store_arg_checked _ _ _)) => apply Hst
           | |- context [if ?b then _ else _] => destruct b
           | |- context [match ?o with Some _ => _ | None => _ end] => destruct o as [?|]
           end;
    cbn [outcome_effects]; repeat (apply Forall_cons; split); try apply Forall_nil;
    exact I.
Qed.

Lemma console_run_fits env input : ∀ st,
  Forall effect_fits (outcome_effects (console_run env input st)).
Proof.
  induction input as [|c input IH]; intros st; [constructor |].
  cbn [console_run]. pose proof (console_task_fits env c st) as Hstep.
  destruct (console_task env c st) as [st1 out| |]; [| exact Hstep | exact Hstep].
  specialize (IH st1). cbn [outcome_effects] in Hstep.
  destruct (console_run env input st1); cbn [outcome_effects] in *;
    [apply Forall_app; auto | apply Forall_app; auto | constructor].
Qed.

(** X20.  Whatever is typed, from whatever parser state, the credentials
    the console hands to [esp32_rio_wifi_nv_params_save] fit the Wi-Fi
    configuration: the SSID has 1 to 31 characters and the password 1 to
    63. *)
Theorem saved_credentials_fit env input st ssid password :
  esp32_rio_wifi_nv_params_save ssid password
    ∈ outcome_effects (console_run env input st) →
  (1 ≤ String.length ssid ≤ 31)%nat ∧ (1 ≤ String.length password ≤ 63)%nat.
Proof.
  intros Hin. pose proof (console_run_fits env input st) as Hall.
  rewrite Forall_forall in Hall. specialize (Hall _ Hin).
  cbn [effect_fits] in Hall.
  unfold ESP32_RIO_SSID_MAX_LENGTH, ESP32_RIO_PASSWORD_MAX_LENGTH in Hall. lia.
Qed.

Lemma console_run_app env l1 l2 st st1 :
  console_run env l1 st = Continue st1 [] →
  console_run env (l1 ++ l2) st = console_run env l2 st1.
Proof.
  revert st. induction l1 as [|c l1 IH]; intros st H.
  - cbn in H. injection H as ->. reflexivity.
  - cbn [console_run app] in *.
    destruct (console_task env c st) as [st' out| |]; try discriminate.
    destruct (console_run env l1 st') as [st'' out'| |] eqn:E; try discriminate.
    injection H as -> Hout. apply app_eq_nil in Hout as [-> ->].
    rewrite (IH st' E). destruct (console_run env l2 st1); reflexivity.
Qed.

Lemma error_state_skips env junk : ∀ st,
  s_current_state st = STATE_ERROR →
  Forall (λ c, is_newline c = false) junk →
  console_run env junk st = Continue st [].
Proof.
  induction junk as [|c junk IH]; intros st Hs Hj; [reflexivity |].
  apply Forall_cons in Hj as [Hc Hj]. cbn [console_run].
  unfold console_task. rewrite Hs, Hc. rewrite (IH st Hs Hj). reflexivity.
Qed.

(** X21.  A line break brings the parser back: in every state but the
    reading of a quoted argument, a carriage return or line feed leaves the
    parser reset, unless the command it completes restarts the device.
    After an error the rest of the line is skipped without any output, and
    the next line is read as by a freshly reset parser. *)
Theorem newline_resets_parser env c st :
  console_ok st → is_newline c = true →
  (s_current_state st ≠ STATE_READING_QUOTED_ARG →
   match console_task env c st with
   | Continue st' _ => st' = reset_console_state
   | Halt _ => True
   | Fault => False
   end) ∧
  (s_current_state st = STATE_ERROR →
   ∀ junk rest, Forall (λ c, is_newline c = false) junk →
     console_run env (junk ++ c :: rest) st
     = console_run env rest reset_console_state).
Proof.
  intros Hok Hc. split.
  - intros Hq. pose proof (console_task_ok env c st Hok) as Hstep.
    destruct st as [cb ab ci ai ac cur esc s].
    destruct Hok as (Hcb & Hlen & Hall & Hci & Hst).
    cbn [s_cmd_buffer s_arg_buffer s_cmd_char_idx s_arg_char_idx s_arg_count
         s_current_arg_buf s_escape_next_char s_current_state] in *.
    unfold console_task in *. cbn [s_current_state] in *.
    destruct s; console_simpl; try rewrite Hc in *; try congruence.
    + assert (Ha : isalpha c = false).
      { unfold is_newline in Hc. apply orb_true_iff in Hc as [H|H];
          apply Ascii.eqb_eq in H; subst c; reflexivity. }
      rewrite Ha. cbn [negb]. exact Hst.
    + destruct (store_cmd zero _); [apply evaluate_and_reset_ok | exact Hstep].
    + destruct (store_arg_inc zero _); [apply evaluate_and_reset_ok | exact Hstep].
    + destruct (store_arg_inc zero _); [apply evaluate_and_reset_ok | exact Hstep].
  - intros Hs junk rest Hj.
    rewrite (console_run_app env junk (c :: rest) st st (error_state_skips env junk st Hs Hj)).
    cbn [console_run]. unfold console_task. rewrite Hs, Hc.
    destruct (console_run env rest reset_console_state); reflexivity.
Qed.

(** ** Reading a well-formed line *)

Lemma length_fill n p : (length p ≤ n)%nat → length (fill n p) = n.
Proof. intros H. unfold fill. rewrite length_app, length_replicate. lia. Qed.

Lemma fill_lookup_end n p : (length p < n)%nat → fill n p !! length p = Some zero.
Proof.
  intros H. unfold fill. rewrite lookup_app_r by lia. rewrite Nat.sub_diag.
  destruct (n - length p)%nat eqn:E; [lia | reflexivity].
Qed.

Lemma insert_fill n p c :
  (length p < n)%nat → <[length p := c]> (fill n p) = fill n (p ++ [c]).
Proof.
  intros H. unfold fill. rewrite length_app. cbn [length].
  replace (n - length p)%nat with (S (n - (length p + 1))) by lia.
  cbn [replicate]. rewrite insert_app_r_alt by lia. rewrite Nat.sub_diag.
  cbn [insert list_insert]. rewrite <- app_assoc. reflexivity.
Qed.

Lemma insert_fill_zero n p :
  (length p < n)%nat → <[length p := zero]> (fill n p) = fill n p.
Proof. intros H. apply list_insert_id, fill_lookup_end, H. Qed.

Lemma cstring_zeros n : cstring (replicate n zero) = EmptyString.
Proof. destruct n; reflexivity. Qed.

Lemma cstring_fill n p :
  Forall (λ c, c ≠ zero) p → cstring (fill n p) = String.string_of_list_ascii p.
Proof.
  intros Hp. unfold fill. induction Hp as [|c p Hc Hp IH].
  - apply cstring_zeros.
  - cbn [app cstring String.string_of_list_ascii length].
    destruct (Ascii.eqb_spec c zero); [contradiction |].
    f_equal. replace (n - S (length p))%nat with ((n - 1) - length p)%nat by lia.
    clear -Hp. revert n. induction Hp as [|d p Hd Hp IH]; intros n.
    + cbn. rewrite !cstring_zeros. reflexivity.
    + cbn [app cstring String.string_of_list_ascii length].
      destruct (Ascii.eqb_spec d zero); [contradiction |]. f_equal.
      replace (n - 1 - S (length p))%nat with ((n - 1) - 1 - length p)%nat by lia.
      replace (n - S (length p))%nat with ((n - 1) - length p)%nat by lia.
      apply IH.
Qed.

Lemma newline_classes c :
  is_newline c = true → isalpha c = false ∧ name_char c = false ∧ isblank c = false.
Proof.
  unfold is_newline. intros H. apply orb_true_iff in H as [H|H];
    apply Ascii.eqb_eq in H; subst c; repeat split; reflexivity.
Qed.

Lemma blank_classes c :
  isblank c = true → is_newline c = false ∧ name_char c = false.
Proof.
  unfold isblank. intros H. apply orb_true_iff in H as [H|H];
    apply Ascii.eqb_eq in H; subst c; split; reflexivity.
Qed.

Lemma name_char_classes c :
  name_char c = true → is_newline c = false ∧ isblank c = false.
Proof.
  intros H. split.
  - destruct (is_newline c) eqn:E; [| reflexivity].
    apply newline_classes in E as (_ & E & _). congruence.
  - destruct (isblank c) eqn:E; [| reflexivity].
    apply blank_classes in E as (_ & E). congruence.
Qed.

Lemma alpha_name_char c : isalpha c = true → name_char c = true.
Proof. intros H. unfold name_char, isalnum. rewrite H. reflexivity. Qed.

Lemma reset_holding :
  reset_console_state = holding [] [] 0 None false STATE_IDLE.
Proof. reflexivity. Qed.

Ltac console_proj :=
  cbn [s_cmd_buffer s_arg_buffer s_cmd_char_idx s_arg_char_idx s_arg_count
       s_current_arg_buf s_escape_next_char s_current_state].

Ltac holding_step :=
  unfold console_task, holding, store_cmd_inc, store_cmd, store_arg_inc,
    store_arg_checked, set_state, set_escape, set_arg_char_idx, next_arg_buf;
  cbv zeta;
  cbn [s_cmd_buffer s_arg_buffer s_cmd_char_idx s_arg_char_idx s_arg_count
       s_current_arg_buf s_escape_next_char s_current_state].

(** The first letter of a name. *)
Lemma step_first_letter env c :
  isalpha c = true →
  console_task env c reset_console_state
  = Continue (holding [c] [] 0 None false STATE_READING_COMMAND_NAME) [].
Proof. intros H. unfold console_task. cbn [s_current_state reset_console_state]. rewrite H. reflexivity. Qed.

(** A further character of the name. *)
Lemma step_name_char env c name :
  name_char c = true → (length name < MAX_COMMAND_LENGTH)%nat →
  console_task env c (holding name [] 0 None false STATE_READING_COMMAND_NAME)
  = Continue (holding (name ++ [c]) [] 0 None false STATE_READING_COMMAND_NAME) [].
Proof.
  intros Hc Hlen. destruct (name_char_classes c Hc) as [Hn Hb].
  holding_step. rewrite Hn, Hb. unfold name_char in Hc. rewrite Hc.
  destruct (Nat.ltb_spec (length name) MAX_COMMAND_LENGTH); [| lia].
  rewrite length_fill by lia.
  destruct (Nat.ltb_spec (length name) (MAX_COMMAND_LENGTH + 1)); [| lia].
  console_proj. rewrite insert_fill by lia. rewrite length_app. cbn [length].
  replace (length name + 1)%nat with (S (length name)) by lia. reflexivity.
Qed.

Lemma run_name_chars env rest : ∀ name,
  Forall (λ c, name_char c = true) rest →
  (length name + length rest ≤ MAX_COMMAND_LENGTH)%nat →
  console_run env rest (holding name [] 0 None false STATE_READING_COMMAND_NAME)
  = Continue (holding (name ++ rest) [] 0 None false STATE_READING_COMMAND_NAME) [].
Proof.
  induction rest as [|c rest IH]; intros name Hr Hlen.
  - rewrite app_nil_r. reflexivity.
  - apply Forall_cons in Hr as [Hc Hr]. cbn [length] in Hlen.
    cbn [console_run]. rewrite step_name_char by (assumption || lia).
    rewrite IH by (try assumption; rewrite length_app; cbn [length]; lia).
    rewrite <- app_assoc. reflexivity.
Qed.

(** The blank after the name. *)
Lemma step_name_blank env sep name :
  isblank sep = true → (length name ≤ MAX_COMMAND_LENGTH)%nat →
  console_task env sep (holding name [] 0 None false STATE_READING_COMMAND_NAME)
  = Continue (holding name [] 0 None false STATE_EXPECTING_ARG) [].
Proof.
  intros Hb Hlen. destruct (blank_classes sep Hb) as [Hn _].
  holding_step. rewrite Hn, Hb. rewrite length_fill by lia.
  destruct (Nat.ltb_spec (length name) (MAX_COMMAND_LENGTH + 1)); [| lia].
  console_proj. rewrite insert_fill_zero by lia. reflexivity.
Qed.

(** The rows of [argbufs] while argument [length done] is being written. *)
Lemma argbufs_row done p :
  (length done < MAX_ARG_COUNT)%nat →
  argbufs (done ++ [p]) !! length done = Some (fill (MAX_ARG_LENGTH + 1) p).
Proof.
  unfold MAX_ARG_COUNT. intros H.
  destruct done as [|a0 [|a1 done]]; [reflexivity | reflexivity | cbn in H; lia].
Qed.

Lemma argbufs_store done p buf :
  (length done < MAX_ARG_COUNT)%nat →
  <[length done := fill (MAX_ARG_LENGTH + 1) buf]> (argbufs (done ++ [p]))
  = argbufs (done ++ [buf]).
Proof.
  unfold MAX_ARG_COUNT. intros H.
  destruct done as [|a0 [|a1 done]]; [reflexivity | reflexivity | cbn in H; lia].
Qed.

Lemma argbufs_open done :
  (length done < MAX_ARG_COUNT)%nat → argbufs (done ++ [[]]) = argbufs done.
Proof.
  unfold MAX_ARG_COUNT. intros H.
  destruct done as [|a0 [|a1 done]]; [reflexivity | reflexivity | cbn in H; lia].
Qed.

(** Storing character [c] behind the [p] of the argument being written. *)
Lemma store_arg_holding c name done p cur_count esc s :
  (length done < MAX_ARG_COUNT)%nat → (length p ≤ MAX_ARG_LENGTH)%nat →
  store_arg_inc c
    (mk_console (fill (MAX_COMMAND_LENGTH + 1) name) (argbufs (done ++ [p]))
       (length name) (length p) cur_count (Some (length done)) esc s)
  = Some (mk_console (fill (MAX_COMMAND_LENGTH + 1) name) (argbufs (done ++ [p ++ [c]]))
            (length name) (S (length p)) cur_count (Some (length done)) esc s).
Proof.
  intros Hd Hp. unfold store_arg_inc.
  cbn [s_cmd_buffer s_arg_buffer s_cmd_char_idx s_arg_char_idx s_arg_count
       s_current_arg_buf s_escape_next_char s_current_state].
  rewrite argbufs_row by exact Hd. rewrite length_fill by lia.
  destruct (Nat.ltb_spec (length p) (MAX_ARG_LENGTH + 1)); [| lia].
  rewrite insert_fill by lia. rewrite argbufs_store by exact Hd. reflexivity.
Qed.

(** Storing the closing zero leaves the buffers as they are. *)
Lemma store_zero_holding name done p cur_count esc s :
  (length done < MAX_ARG_COUNT)%nat → (length p ≤ MAX_ARG_LENGTH)%nat →
  store_arg_inc zero
    (mk_console (fill (MAX_COMMAND_LENGTH + 1) name) (argbufs (done ++ [p]))
       (length name) (length p) cur_count (Some (length done)) esc s)
  = Some (mk_console (fill (MAX_COMMAND_LENGTH + 1) name) (argbufs (done ++ [p]))
            (length name) (S (length p)) cur_count (Some (length done)) esc s).
Proof.
  intros Hd Hp. unfold store_arg_inc.
  cbn [s_cmd_buffer s_arg_buffer s_cmd_char_idx s_arg_char_idx s_arg_count
       s_current_arg_buf s_escape_next_char s_current_state].
  rewrite argbufs_row by exact Hd. rewrite length_fill by lia.
  destruct (Nat.ltb_spec (length p) (MAX_ARG_LENGTH + 1)); [| lia].
  rewrite insert_fill_zero by lia. rewrite argbufs_store by exact Hd. reflexivity.
Qed.

Lemma writing_snoc name done p c esc s :
  mk_console (fill (MAX_COMMAND_LENGTH + 1) name) (argbufs (done ++ [p ++ [c]]))
    (length name) (S (length p)) (S (length done)) (Some (length done)) esc s
  = writing name done (p ++ [c]) esc s.
Proof. unfold writing. rewrite length_app. cbn [length]. f_equal. lia. Qed.

(** The first character of an argument written without quotes. *)
Lemma step_arg_first env c name done ai cur :
  is_newline c = false → isblank c = false → c ≠ "034"%char →
  (length done < MAX_ARG_COUNT)%nat →
  console_task env c (holding name done ai cur false STATE_EXPECTING_ARG)
  = Continue (writing name done [c] false STATE_READING_ARG) [].
Proof.
  intros Hn Hb Hq Hd.
  unfold console_task, holding, set_arg_char_idx, next_arg_buf, set_state.
  cbv zeta. console_proj. rewrite Hn, Hb.
  destruct (Ascii.eqb_spec c "034"%char); [contradiction |].
  destruct (Nat.ltb_spec (length done) MAX_ARG_COUNT); [| lia].
  rewrite <- (argbufs_open done) by exact Hd.
  change 0%nat with (length (@nil ascii)).
  rewrite store_arg_holding by (assumption || cbn; lia). reflexivity.
Qed.

(** The opening quote of an argument. *)
Lemma step_arg_quote env name done ai cur :
  (length done < MAX_ARG_COUNT)%nat →
  console_task env "034"%char (holding name done ai cur false STATE_EXPECTING_ARG)
  = Continue (writing name done [] false STATE_READING_QUOTED_ARG) [].
Proof.
  intros Hd. holding_step. cbn [is_newline isblank Ascii.eqb Bool.eqb orb andb].
  destruct (Nat.ltb_spec (length done) MAX_ARG_COUNT); [| lia].
  unfold writing. rewrite argbufs_open by exact Hd. reflexivity.
Qed.

(** A further character of an argument written without quotes. *)
Lemma step_plain_char env c name done p :
  is_newline c = false → isblank c = false →
  (length done < MAX_ARG_COUNT)%nat → (length p < MAX_ARG_LENGTH)%nat →
  console_task env c (writing name done p false STATE_READING_ARG)
  = Continue (writing name done (p ++ [c]) false STATE_READING_ARG) [].
Proof.
  intros Hn Hb Hd Hp. unfold console_task, writing, store_arg_checked.
  console_proj. rewrite Hn, Hb.
  destruct (Nat.ltb_spec (length p) MAX_ARG_LENGTH); [| lia].
  rewrite store_arg_holding by (assumption || lia). rewrite writing_snoc. reflexivity.
Qed.

Lemma run_plain_chars env name done rest : ∀ p,
  Forall (λ c, is_newline c = false ∧ isblank c = false) rest →
  (length done < MAX_ARG_COUNT)%nat →
  (length p + length rest ≤ MAX_ARG_LENGTH)%nat →
  console_run env rest (writing name done p false STATE_READING_ARG)
  = Continue (writing name done (p ++ rest) false STATE_READING_ARG) [].
Proof.
  induction rest as [|c rest IH]; intros p Hr Hd Hlen.
  - rewrite app_nil_r. reflexivity.
  - apply Forall_cons in Hr as [[Hn Hb] Hr]. cbn [length] in Hlen.
    cbn [console_run]. rewrite step_plain_char by (assumption || lia).
    rewrite IH by (try assumption; rewrite length_app; cbn [length]; lia).
    rewrite <- app_assoc. reflexivity.
Qed.

(** Inside quotes: a character as it is, or a quote or backslash behind a
    backslash. *)
Lemma step_quoted_char env c name done p :
  c ≠ "034"%char → c ≠ "\"%char →
  (length done < MAX_ARG_COUNT)%nat → (length p < MAX_ARG_LENGTH)%nat →
  console_task env c (writing name done p false STATE_READING_QUOTED_ARG)
  = Continue (writing name done (p ++ [c]) false STATE_READING_QUOTED_ARG) [].
Proof.
  intros Hq Hb Hd Hp. unfold console_task, writing, store_arg_checked. console_proj.
  destruct (Ascii.eqb_spec c "034"%char); [contradiction |].
  destruct (Ascii.eqb_spec c "\"%char); [contradiction |].
  destruct (Nat.ltb_spec (length p) MAX_ARG_LENGTH); [| lia].
  rewrite store_arg_holding by (assumption || lia).
  unfold set_escape. console_proj. rewrite writing_snoc. reflexivity.
Qed.

Lemma step_quoted_backslash env name done p :
  console_task env "\"%char (writing name done p false STATE_READING_QUOTED_ARG)
  = Continue (writing name done p true STATE_READING_QUOTED_ARG) [].
Proof. reflexivity. Qed.

Lemma step_quoted_escaped env c name done p :
  c = "034"%char ∨ c = "\"%char →
  (length done < MAX_ARG_COUNT)%nat → (length p < MAX_ARG_LENGTH)%nat →
  console_task env c (writing name done p true STATE_READING_QUOTED_ARG)
  = Continue (writing name done (p ++ [c]) false STATE_READING_QUOTED_ARG) [].
Proof.
  intros Hc Hd Hp. unfold console_task, writing, store_arg_checked, set_escape.
  console_proj.
  destruct Hc as [-> | ->]; cbn [Ascii.eqb Bool.eqb andb];
    (destruct (Nat.ltb_spec (length p) MAX_ARG_LENGTH); [| lia]);
    rewrite store_arg_holding by (assumption || lia);
    rewrite writing_snoc; reflexivity.
Qed.

Lemma run_escaped_char env c name done p :
  (length done < MAX_ARG_COUNT)%nat → (length p < MAX_ARG_LENGTH)%nat →
  console_run env (escape [c]) (writing name done p false STATE_READING_QUOTED_ARG)
  = Continue (writing name done (p ++ [c]) false STATE_READING_QUOTED_ARG) [].
Proof.
  intros Hd Hp. unfold escape. cbn [flat_map]. rewrite app_nil_r.
  destruct (Ascii.eqb_spec c "034"%char) as [->|Hq]; cbn [orb].
  - cbn [console_run]. rewrite step_quoted_backslash.
    rewrite step_quoted_escaped by auto. reflexivity.
  - destruct (Ascii.eqb_spec c "\"%char) as [->|Hb].
    + cbn [console_run]. rewrite step_quoted_backslash.
      rewrite step_quoted_escaped by auto. reflexivity.
    + cbn [console_run]. rewrite step_quoted_char by assumption. reflexivity.
Qed.

Lemma escape_cons c a : escape (c :: a) = escape [c] ++ escape a.
Proof. unfold escape. cbn [flat_map]. rewrite app_nil_r. reflexivity. Qed.

Lemma run_escaped env name done rest : ∀ p,
  (length done < MAX_ARG_COUNT)%nat →
  (length p + length rest ≤ MAX_ARG_LENGTH)%nat →
  console_run env (escape rest) (writing name done p false STATE_READING_QUOTED_ARG)
  = Continue (writing name done (p ++ rest) false STATE_READING_QUOTED_ARG) [].
Proof.
  induction rest as [|c rest IH]; intros p Hd Hlen.
  - rewrite app_nil_r. reflexivity.
  - cbn [length] in Hlen. rewrite escape_cons.
    rewrite (console_run_app env _ _ _ _ (run_escaped_char env c name done p Hd ltac:(lia))).
    rewrite IH by (try assumption; rewrite length_app; cbn [length]; lia).
    rewrite <- app_assoc. reflexivity.
Qed.

(** The closing quote. *)
Lemma step_close_quote env name done p :
  console_task env "034"%char (writing name done p false STATE_READING_QUOTED_ARG)
  = Continue (writing name done p false STATE_CLOSED_QUOTED_ARG) [].
Proof. reflexivity. Qed.

(** The blank behind an argument. *)
Lemma step_arg_blank env sep name done p s :
  s = STATE_READING_ARG ∨ s = STATE_CLOSED_QUOTED_ARG →
  isblank sep = true →
  (length done < MAX_ARG_COUNT)%nat → (length p ≤ MAX_ARG_LENGTH)%nat →
  console_task env sep (writing name done p false s)
  = Continue (holding name (done ++ [p]) (S (length p)) (Some (length done)) false
                STATE_EXPECTING_ARG) [].
Proof.
  intros Hs Hb Hd Hp. destruct (blank_classes sep Hb) as [Hn _].
  unfold console_task, writing, holding. console_proj.
  destruct Hs as [-> | ->]; rewrite Hn, Hb;
    rewrite store_zero_holding by assumption; unfold set_state; console_proj;
    rewrite length_app; cbn [length];
    replace (length done + 1)%nat with (S (length done)) by lia; reflexivity.
Qed.

(** The end of the line behind the name, and behind an argument. *)
Lemma step_name_eol env eol name :
  is_newline eol = true → (length name ≤ MAX_COMMAND_LENGTH)%nat →
  console_task env eol (holding name [] 0 None false STATE_READING_COMMAND_NAME)
  = evaluate_and_reset env (holding name [] 0 None false STATE_READING_COMMAND_NAME).
Proof.
  intros Hn Hlen. unfold console_task, holding, store_cmd. console_proj.
  rewrite Hn. rewrite length_fill by lia.
  destruct (Nat.ltb_spec (length name) (MAX_COMMAND_LENGTH + 1)); [| lia].
  rewrite insert_fill_zero by lia. reflexivity.
Qed.

Lemma step_arg_eol env eol name done p s :
  s = STATE_READING_ARG ∨ s = STATE_CLOSED_QUOTED_ARG →
  is_newline eol = true →
  (length done < MAX_ARG_COUNT)%nat → (length p ≤ MAX_ARG_LENGTH)%nat →
  console_task env eol (writing name done p false s)
  = evaluate_and_reset env
      (holding name (done ++ [p]) (S (length p)) (Some (length done)) false s).
Proof.
  intros Hs Hn Hd Hp. unfold console_task, writing, holding. console_proj.
  destruct Hs as [-> | ->]; rewrite Hn;
    rewrite store_zero_holding by assumption;
    rewrite length_app; cbn [length];
    replace (length done + 1)%nat with (S (length done)) by lia; reflexivity.
Qed.

Lemma console_run_cons env c l st st1 :
  console_task env c st = Continue st1 [] →
  console_run env (c :: l) st = console_run env l st1.
Proof.
  intros H. cbn [console_run]. rewrite H.
  destruct (console_run env l st1); reflexivity.
Qed.

Lemma console_run_single env c st : console_run env [c] st = console_task env c st.
Proof.
  cbn [console_run]. destruct (console_task env c st); [| reflexivity ..].
  rewrite app_nil_r. reflexivity.
Qed.

(** One argument as it is written, read into the next argument buffer. *)
Lemma run_arg_body env name done ai cur q p :
  valid_arg (q, p) → (length done < MAX_ARG_COUNT)%nat →
  console_run env (render_arg q p) (holding name done ai cur false STATE_EXPECTING_ARG)
  = Continue (writing name done p false
                (if q then STATE_CLOSED_QUOTED_ARG else STATE_READING_ARG)) [].
Proof.
  intros (Hlen & Hz & Hplain) Hd. cbn [fst snd] in *. destruct q; unfold render_arg.
  - rewrite (console_run_cons env _ _ _ _ (step_arg_quote env name done ai cur Hd)).
    rewrite (console_run_app env _ _ _ _
               (run_escaped env name done p [] Hd ltac:(cbn [length]; lia))).
    cbn [app]. rewrite console_run_single. apply step_close_quote.
  - destruct (Hplain eq_refl) as (Hne & Hhd & Hcs).
    destruct p as [|c rest]; [contradiction |].
    apply Forall_cons in Hcs as [[Hn Hb] Hcs]. cbn [length] in Hlen.
    assert (c ≠ "034"%char) as Hq by (intros ->; apply Hhd; reflexivity).
    rewrite (console_run_cons env _ _ _ _ (step_arg_first env c name done ai cur Hn Hb Hq Hd)).
    rewrite run_plain_chars by (try assumption; cbn [length]; lia).
    reflexivity.
Qed.

(** The arguments behind the first, and the end of the line. *)
Lemma run_more_args env sep eol name : ∀ args done p s,
  s = STATE_READING_ARG ∨ s = STATE_CLOSED_QUOTED_ARG →
  Forall valid_arg args → isblank sep = true → is_newline eol = true →
  (length done + 1 + length args ≤ MAX_ARG_COUNT)%nat →
  (length p ≤ MAX_ARG_LENGTH)%nat →
  ∃ ai cur s',
    console_run env
      (flat_map (λ arg, sep :: render_arg (fst arg) (snd arg)) args ++ [eol])
      (writing name done p false s)
    = evaluate_and_reset env
        (holding name (done ++ p :: map snd args) ai cur false s').
Proof.
  induction args as [|[q a] args IH]; intros done p s Hs Hargs Hsep Heol Hcount Hp.
  - cbn [flat_map app map length] in *. rewrite console_run_single.
    eexists _, _, _. apply step_arg_eol; (assumption || lia).
  - apply Forall_cons in Hargs as [Harg Hargs]. cbn [length] in Hcount.
    cbn [flat_map fst snd map]. rewrite <- !app_comm_cons.
    rewrite (console_run_cons env _ _ _ _
               (step_arg_blank env sep name done p s Hs Hsep ltac:(lia) Hp)).
    assert (length (done ++ [p]) < MAX_ARG_COUNT)%nat as Hd
      by (rewrite length_app; cbn [length]; lia).
    rewrite <- app_assoc.
    rewrite (console_run_app env _ _ _ _
               (run_arg_body env name (done ++ [p]) _ _ q a Harg Hd)).
    destruct (IH (done ++ [p]) a (if q then STATE_CLOSED_QUOTED_ARG else STATE_READING_ARG))
      as (ai & cur & s' & IHeq);
      try assumption.
    + destruct q; auto.
    + rewrite length_app. cbn [length]. lia.
    + apply Harg.
    + exists ai, cur, s'. rewrite IHeq. rewrite <- app_assoc. reflexivity.
Qed.

Lemma name_char_not_zero c : name_char c = true → c ≠ zero.
Proof. intros H ->. vm_compute in H. discriminate. Qed.

(** A whole line, read from the reset parser. *)
Lemma run_command_line env sep eol name args :
  valid_name name → Forall valid_arg args → (length args ≤ MAX_ARG_COUNT)%nat →
  isblank sep = true → is_newline eol = true →
  ∃ ai cur s,
    console_run env (command_line sep eol name args) reset_console_state
    = evaluate_and_reset env (holding name (map snd args) ai cur false s).
Proof.
  intros [Hname Hlen] Hargs Hcount Hsep Heol. unfold command_line.
  destruct name as [|c rest]; [contradiction |]. destruct Hname as [Hc Hrest].
  cbn [length] in Hlen. rewrite <- app_comm_cons.
  rewrite (console_run_cons env _ _ _ _ (step_first_letter env c Hc)).
  rewrite (console_run_app env _ _ _ _
             (run_name_chars env rest [c] Hrest ltac:(cbn [length]; lia))).
  cbn [app].
  destruct args as [|[q a] args].
  - cbn [flat_map app map]. rewrite console_run_single.
    eexists _, _, _. apply step_name_eol; [assumption | cbn [length]; lia].
  - apply Forall_cons in Hargs as [Harg Hargs]. cbn [length] in Hcount.
    cbn [flat_map fst snd map]. rewrite <- !app_comm_cons.
    rewrite (console_run_cons env _ _ _ _
               (step_name_blank env sep (c :: rest) Hsep ltac:(cbn [length]; lia))).
    rewrite <- app_assoc.
    rewrite (console_run_app env _ _ _ _
               (run_arg_body env (c :: rest) [] _ _ q a Harg ltac:(cbn; lia))).
    destruct (run_more_args env sep eol (c :: rest) args [] a
                (if q then STATE_CLOSED_QUOTED_ARG else STATE_READING_ARG))
      as (ai & cur & s' & Heq); try assumption.
    + destruct q; auto.
    + apply Harg.
    + exists ai, cur, s'. exact Heq.
Qed.

(** X22. A well-formed line (a valid name, at most two valid arguments,
    each behind one blank, then a line break) typed to the reset parser
    makes the console evaluate the command with exactly the name and the
    arguments of the line in its buffers, and reset. *)
Theorem command_line_round_trip env sep eol name args :
  valid_name name → Forall valid_arg args → (length args ≤ MAX_ARG_COUNT)%nat →
  isblank sep = true → is_newline eol = true →
  ∃ st,
    console_run env (command_line sep eol name args) reset_console_state
    = evaluate_and_reset env st ∧
    cstring (s_cmd_buffer st) = String.string_of_list_ascii name ∧
    s_arg_count st = length args ∧
    ∀ k arg, args !! k = Some arg →
      cstring (arg_buffer st k) = String.string_of_list_ascii (snd arg).
Proof.
  intros Hname Hargs Hcount Hsep Heol.
  destruct (run_command_line env sep eol name args Hname Hargs Hcount Hsep Heol)
    as (ai & cur & s & Hrun).
  exists (holding name (map snd args) ai cur false s). split; [exact Hrun |].
  unfold holding, arg_buffer. console_proj. split; [| split].
  - apply cstring_fill. destruct Hname as [Hname _].
    destruct name as [|c rest]; [contradiction |]. destruct Hname as [Hc Hrest].
    apply Forall_cons. split.
    + apply name_char_not_zero, alpha_name_char, Hc.
    + eapply Forall_impl; [exact Hrest |]. intros d Hd. apply name_char_not_zero, Hd.
  - apply length_map.
  - intros k arg Hk.
    assert (Forall (λ c, c ≠ zero) (snd arg)) as Hz.
    { apply (Forall_lookup_1 _ _ _ _ Hargs Hk). }
    unfold MAX_ARG_COUNT in Hcount.
    destruct args as [|a0 [|a1 [|a2 args]]]; cbn [length] in Hcount; try lia;
      destruct k as [|[|k]]; cbn in Hk; try discriminate;
      injection Hk as <-; cbn [argbufs map nth lookup list_lookup default from_option];
      apply cstring_fill, Hz.
Qed.

Lemma length_string_of_list_ascii l :
  String.length (String.string_of_list_ascii l) = length l.
Proof. induction l as [|c l IH]; [reflexivity |]. cbn. rewrite IH. reflexivity. Qed.

(** X23. Typing [wifi-config], an SSID of 1 to 31 characters and a password
    of 1 to 63 characters, with or without quotes, saves exactly these two
    strings and then leaves the console: for the restart when saving
    succeeded, by [abort] when it failed. *)
Theorem wifi_config_saves_typed_credentials env sep eol ssid password :
  valid_arg ssid → valid_arg password →
  (1 ≤ length (snd ssid) < ESP32_RIO_SSID_MAX_LENGTH)%nat →
  (1 ≤ length (snd password) < ESP32_RIO_PASSWORD_MAX_LENGTH)%nat →
  isblank sep = true → is_newline eol = true →
  console_run env
    (command_line sep eol (String.list_ascii_of_string "wifi-config") [ssid; password])
    reset_console_state
  = Halt (esp32_rio_wifi_nv_params_save (String.string_of_list_ascii (snd ssid))
            (String.string_of_list_ascii (snd password))
          :: if nv_params_save_ok env
             then [usb_console_write_str
                     (newline +:+ "[wifi-config] Configuration successful. Rebooting..."
                      +:+ newline);
                   esp_restart]
             else [esp_abort]).
Proof.
  intros Hs Hp Hslen Hplen Hsep Heol.
  destruct (run_command_line env sep eol (String.list_ascii_of_string "wifi-config")
              [ssid; password]) as (ai & cur & s & Hrun); try assumption.
  - split; [| cbn; unfold MAX_COMMAND_LENGTH; lia].
    split; [reflexivity |]. repeat (apply Forall_cons; split; [reflexivity |]).
    apply Forall_nil. exact I.
  - apply Forall_cons. split; [exact Hs |]. apply Forall_cons. split; [exact Hp |].
    apply Forall_nil. exact I.
  - cbn. unfold MAX_ARG_COUNT. lia.
  - rewrite Hrun. unfold evaluate_and_reset, evaluate_command, holding, arg_buffer, strlen.
    console_proj. cbv zeta. cbn [map argbufs nth lookup list_lookup default from_option length id].
    rewrite (cstring_fill _ (String.list_ascii_of_string "wifi-config"))
      by (repeat (apply Forall_cons; split; [discriminate |]); apply Forall_nil; exact I).
    rewrite !cstring_fill by (apply Hs || apply Hp).
    rewrite !length_string_of_list_ascii.
    change (String.string_of_list_ascii (String.list_ascii_of_string "wifi-config"))
      with "wifi-config"%string.
    change (String.eqb "wifi-config" "help") with false.
    change (String.eqb "wifi-config" "wifi-status") with false.
    change (String.eqb "wifi-config" "wifi-config") with true.
    cbv iota. cbn [Nat.eqb andb].
    destruct (Nat.ltb_spec 0 (length (snd ssid))); [| lia].
    destruct (Nat.ltb_spec 0 (length (snd password))); [| lia].
    cbn [andb].
    destruct (Nat.ltb_spec (ESP32_RIO_SSID_MAX_LENGTH - 1) (length (snd ssid)));
      [unfold ESP32_RIO_SSID_MAX_LENGTH in *; lia |].
    destruct (Nat.ltb_spec (ESP32_RIO_PASSWORD_MAX_LENGTH - 1) (length (snd password)));
      [unfold ESP32_RIO_PASSWORD_MAX_LENGTH in *; lia |].
    destruct (nv_params_save_ok env); reflexivity.
Qed.

(** X24. A third argument is refused: the console reports it once, takes
    the rest of the line for nothing, evaluates no command and is reset at
    the end of the line. *)
Theorem third_argument_refused env sep eol name a0 a1 c junk :
  valid_name name → valid_arg a0 → valid_arg a1 →
  isblank sep = true → is_newline eol = true →
  is_newline c = false → isblank c = false →
  Forall (λ c, is_newline c = false) junk →
  console_run env
    (name ++ (sep :: render_arg (fst a0) (snd a0)) ++ (sep :: render_arg (fst a1) (snd a1))
     ++ sep :: c :: junk ++ [eol])
    reset_console_state
  = Continue reset_console_state
      [usb_console_write_str
         (newline +:+ "Error: Too many arguments for a command." +:+ newline)].
Proof.
  intros [Hname Hlen] Ha0 Ha1 Hsep Heol Hcn Hcb Hjunk.
  destruct name as [|n rest]; [contradiction |]. destruct Hname as [Hn Hrest].
  cbn [length] in Hlen. destruct a0 as [q0 p0], a1 as [q1 p1]. cbn [fst snd].
  rewrite <- ?app_comm_cons.
  rewrite (console_run_cons env _ _ _ _ (step_first_letter env n Hn)).
  rewrite (console_run_app env _ _ _ _
             (run_name_chars env rest [n] Hrest ltac:(cbn [length]; lia))).
  cbn [app].
  rewrite (console_run_cons env _ _ _ _
             (step_name_blank env sep (n :: rest) Hsep ltac:(cbn [length]; lia))).
  rewrite (console_run_app env _ _ _ _
             (run_arg_body env (n :: rest) [] _ _ q0 p0 Ha0 ltac:(unfold MAX_ARG_COUNT; cbn; lia))).
  rewrite <- ?app_comm_cons.
  rewrite (console_run_cons env _ _ _ _
             (step_arg_blank env sep (n :: rest) [] p0
                (if q0 then STATE_CLOSED_QUOTED_ARG else STATE_READING_ARG)
                ltac:(destruct q0; auto) Hsep ltac:(unfold MAX_ARG_COUNT; cbn; lia) ltac:(apply Ha0))).
  rewrite (console_run_app env _ _ _ _
             (run_arg_body env (n :: rest) [p0] _ _ q1 p1 Ha1 ltac:(unfold MAX_ARG_COUNT; cbn; lia))).
  rewrite <- ?app_comm_cons.
  rewrite (console_run_cons env _ _ _ _
             (step_arg_blank env sep (n :: rest) [p0] p1
                (if q1 then STATE_CLOSED_QUOTED_ARG else STATE_READING_ARG)
                ltac:(destruct q1; auto) Hsep ltac:(unfold MAX_ARG_COUNT; cbn; lia) ltac:(apply Ha1))).
  cbn [console_run]. unfold console_task at 1, holding.
  console_proj. cbv zeta. unfold set_arg_char_idx, parse_error, set_state. console_proj.
  rewrite Hcn, Hcb. cbn [app length Nat.ltb Nat.leb MAX_ARG_COUNT].
  change (2 <? MAX_ARG_COUNT)%nat with false. cbv iota.
  assert (∀ st, s_current_state st = STATE_ERROR →
            console_run env (junk ++ [eol]) st = Continue reset_console_state []) as Hskip.
  { intros st Hst.
    rewrite (console_run_app env junk [eol] st st (error_state_skips env junk st Hst Hjunk)).
    cbn [console_run]. unfold console_task. rewrite Hst, Heol. reflexivity. }
  destruct (Ascii.eqb c "034"%char); rewrite Hskip by reflexivity; reflexivity.
Qed.


(** X25. A press of the button while [app_main] still waits for the Wi-Fi
    connection is not kept by the registers: [setup_reg_data] clears the
    mirror coil but not the interlock, so the bridge starts Enabled, with
    the LED on, every line off and coil 31 clear; the first coil write that
    leaves coil 31 clear then switches the interlock to Disabled, whatever
    output coils it sets. *)
Theorem early_press_not_mirrored latch pins bank0 bank1 ty :
  is_coils_write ty = true → Z.testbit (to_uint16 bank1) 15 = false →
  outputs_enabled (app_main_start latch pins [BoardEvent LocalToggle]) = true ∧
  status_led (app_main_start latch pins [BoardEvent LocalToggle]) = true ∧
  mirror_bit (app_main_start latch pins [BoardEvent LocalToggle]) = false ∧
  outputs_all_off (app_main_start latch pins [BoardEvent LocalToggle]) ∧
  outputs_enabled
    (run [MasterWrite bank0 bank1; BridgeRound ty]
       (app_main_start latch pins [BoardEvent LocalToggle])) = false ∧
  outputs_all_off
    (run [MasterWrite bank0 bank1; BridgeRound ty]
       (app_main_start latch pins [BoardEvent LocalToggle])).
Proof.
  intros Hty Hbit. rewrite app_main_start_eq, sys_run_single, sys_step_toggle.
  rewrite run_pair, step_master_write, step_bridge_round.
  assert (Hcfg : outputs_enabled (on_gpio esp32_rio_configure_gpio (power_on latch pins))
                 = false) by (rewrite enabled_on_gpio; reflexivity).
  assert (Hcoils : coil_reg_params (on_gpio esp32_rio_configure_gpio (power_on latch pins))
                   = mk_coil_reg_params 0 0) by (rewrite coils_on_gpio; reflexivity).
  revert Hcfg Hcoils.
  generalize (on_gpio esp32_rio_configure_gpio (power_on latch pins)) as cfg.
  intros cfg Hcfg Hcoils.
  rewrite (toggle_when_disabled cfg Hcfg).
  destruct (oe_toggle_enable_on cfg) as (Hen & _ & Hled).
  assert (Hlv : outputs_all_off (oe_toggle_enable cfg)).
  { intros k Hk. destruct (oe_toggle_enable_levels cfg k Hk) as (H0 & H1).
    rewrite H0, H1, Hcoils. unfold coil_bit. cbn [coils_bank0 coils_bank1].
    rewrite !Z.bits_0. auto. }
  destruct (setup_reg_data_spec (oe_toggle_enable cfg))
    as (Hc & _ & _ & _ & He & Ho & _).
  rewrite Hen in He. rewrite status_led_eq in Hled.
  unfold outputs_all_off, output_level in Hlv. rewrite <- Ho in Hled, Hlv.
  revert Hc He Hled Hlv. clear Ho Hen.
  generalize (setup_reg_data (oe_toggle_enable cfg)) as st.
  intros st Hc He Hled Hlv.
  split; [exact He |]. split; [rewrite status_led_eq; exact Hled |].
  split; [rewrite mirror_bit_eq, Hc; reflexivity |].
  split; [exact Hlv |].
  assert (Hst1 : outputs_enabled
                   (set_coil_reg_params
                      (mk_coil_reg_params (to_uint16 bank0) (to_uint16 bank1)) st) = true)
    by (rewrite enabled_set_coils; exact He).
  assert (Hm1 : mirror_bit
                  (set_coil_reg_params
                     (mk_coil_reg_params (to_uint16 bank0) (to_uint16 bank1)) st) = false).
  { rewrite mirror_bit_eq, coils_set_coils.
    rewrite MB_IS_COIL_ON_bank1 by (unfold OE_COIL_ADDR; lia). exact Hbit. }
  revert Hst1 Hm1.
  generalize (set_coil_reg_params
                (mk_coil_reg_params (to_uint16 bank0) (to_uint16 bank1)) st) as st1.
  intros st1 Hst1 Hm1.
  rewrite mb_slave_run_coils_write by exact Hty. rewrite Hst1, Hm1.
  split; [reflexivity |].
  apply outputs_all_off_led. exact (disable_outputs_all_off st1).
Qed.

End Firmware.

(** * The properties at concrete inputs

    The event bits are taken as in the Modbus stack at hand: coil write 16,
    coil read 32, discrete read 64. *)

Lemma interlock_safety_witness :
  let st := run 64 32 16 [MasterWrite 1023 1023; BridgeRound 16]
              (initial_board ∅ (λ _, false)) in
  (reachable 64 32 16 st ∧ outputs_enabled st = false) ∧ outputs_all_off st.
Proof.
  cbv zeta.
  assert (Hr : reachable 64 32 16
                 (run 64 32 16 [MasterWrite 1023 1023; BridgeRound 16]
                    (initial_board ∅ (λ _, false))))
    by (exists ∅, (λ _, false), [MasterWrite 1023 1023; BridgeRound 16]; reflexivity).
  assert (He : outputs_enabled
                 (run 64 32 16 [MasterWrite 1023 1023; BridgeRound 16]
                    (initial_board ∅ (λ _, false))) = false)
    by (vm_compute; reflexivity).
  split; [split; [exact Hr | exact He] |].
  exact (proj1 (interlock_safety 64 32 16) _ Hr He).
Defined.

Lemma mirroring_while_enabled_witness :
  let st := mk_board (mk_coil_reg_params 5 32770) (mk_discrete_reg_params 0)
              true ∅ (λ _, false) in
  (is_coils_write 64 32 16 16 = true ∧ outputs_enabled st = true
   ∧ mirror_bit st = true) ∧
  output_level DQ0 (mb_slave_run 64 32 16 16 st) 2 = true ∧
  output_level DQ1 (mb_slave_run 64 32 16 16 st) 1 = true ∧
  outputs_enabled (mb_slave_run 64 32 16 16 st) = true.
Proof.
  cbv zeta.
  destruct (mirroring_while_enabled 64 32 16
              (mk_board (mk_coil_reg_params 5 32770) (mk_discrete_reg_params 0)
                 true ∅ (λ _, false)) 16)
    as (Hk & Hc & He); [reflexivity | reflexivity | reflexivity |].
  split; [repeat split |].
  destruct (Hk 2%nat ltac:(unfold ESP32_RIO_NUM_IO_CHANNELS; lia)) as (H0 & _).
  destruct (Hk 1%nat ltac:(unfold ESP32_RIO_NUM_IO_CHANNELS; lia)) as (_ & H1 & _).
  rewrite H0, H1, Hc, He. repeat split.
Defined.

(** C3, as worded, fails at start-up.  [init_services] registers the
    observers before [app_main] waits for the Wi-Fi connection.  A press of
    the button in that wait sets the state, coil 31 and the LED;
    [setup_reg_data] then clears both coil words and leaves
    [outputs_enabled] as it is.  After the initial setup coil 31 reads off
    while the interlock is Enabled and the LED is on, and the next handled
    coil write that leaves coil 31 clear switches the outputs off. *)
Theorem mirror_bit_lost_at_setup :
  let st := app_main_start 64 32 16 ∅ (λ _, false) [BoardEvent LocalToggle] in
  outputs_enabled st = true ∧
  mirror_bit st = false ∧
  Z.testbit (coils_bank1 (coil_reg_params st)) 15 = false ∧
  status_led st = true ∧
  mirror_bit st ≠ outputs_enabled st ∧
  outputs_enabled (run 64 32 16 [MasterWrite 1 0; BridgeRound 16] st) = false.
Proof.
  cbv zeta.
  assert (He : outputs_enabled
                 (app_main_start 64 32 16 ∅ (λ _, false) [BoardEvent LocalToggle])
               = true) by (vm_compute; reflexivity).
  assert (Hm : mirror_bit
                 (app_main_start 64 32 16 ∅ (λ _, false) [BoardEvent LocalToggle])
               = false) by (vm_compute; reflexivity).
  split; [exact He |]. split; [exact Hm |].
  split; [vm_compute; reflexivity |]. split; [vm_compute; reflexivity |].
  split; [rewrite He, Hm; discriminate | vm_compute; reflexivity].
Qed.

Lemma scenario_A_local_enable_witness :
  let st := mk_board (mk_coil_reg_params 5 0) (mk_discrete_reg_params 0)
              false ∅ (λ _, false) in
  (outputs_enabled st = false ∧ coils_bank0 (coil_reg_params st) = 5) ∧
  outputs_enabled (on_oe_button_toggle st) = true ∧
  output_level DQ0 (on_oe_button_toggle st) 0 = true ∧
  output_level DQ0 (on_oe_button_toggle st) 2 = true ∧
  output_level DQ0 (on_oe_button_toggle st) 1 = false ∧
  MB_IS_COIL_ON (coil_reg_params (on_oe_button_toggle st)) 31 = true ∧
  status_led (on_oe_button_toggle st) = true.
Proof.
  cbv zeta. split; [split; reflexivity |].
  apply scenario_A_local_enable; reflexivity.
Defined.

Lemma coil_addressing_witness :
  (0 <= 3 < 16 ∧ 16 <= 19 < 32) ∧
  MB_IS_COIL_ON (mk_coil_reg_params 8 8) 3 = Z.testbit 8 3 ∧
  MB_IS_COIL_ON (mk_coil_reg_params 8 8) 19 = Z.testbit 8 (19 - 16).
Proof.
  split; [lia |]. split.
  - apply (proj1 coil_addressing (mk_coil_reg_params 8 8) 3). lia.
  - apply (proj1 (proj2 coil_addressing) (mk_coil_reg_params 8 8) 19). lia.
Defined.

Lemma out_of_range_coil_noop_witness :
  32 <= 40 < 65536 ∧
  MB_IS_COIL_ON (mk_coil_reg_params 65535 65535) 40 = false ∧
  MB_TURN_COIL_ON 40 (mk_coil_reg_params 0 0) = mk_coil_reg_params 0 0 ∧
  MB_TURN_COIL_OFF 40 (mk_coil_reg_params 65535 65535)
    = mk_coil_reg_params 65535 65535.
Proof.
  split; [lia |].
  destruct (proj1 out_of_range_coil_noop (mk_coil_reg_params 65535 65535) 40)
    as (H1 & _ & H3); [lia |].
  destruct (proj1 out_of_range_coil_noop (mk_coil_reg_params 0 0) 40)
    as (_ & H2 & _); [lia |].
  split; [exact H1 | split; [exact H2 | exact H3]].
Defined.

Lemma input_mirror_frame_witness :
  let st := mk_board (mk_coil_reg_params 5 0) (mk_discrete_reg_params 0)
              false ∅ (λ pin, pin =? 7) in
  (3 < ESP32_RIO_NUM_IO_CHANNELS)%nat ∧
  Z.testbit (discrete_inputs (discrete_reg_params (on_di_level_change 3 st))) 3
    = true ∧
  coil_reg_params (on_di_level_change 3 st) = coil_reg_params st.
Proof.
  cbv zeta. split; [unfold ESP32_RIO_NUM_IO_CHANNELS; lia |].
  destruct (input_mirror_frame
              (mk_board (mk_coil_reg_params 5 0) (mk_discrete_reg_params 0)
                 false ∅ (λ pin, pin =? 7)) 3)
    as (Hb & _ & _ & _ & Hc & _); [unfold ESP32_RIO_NUM_IO_CHANNELS; lia |].
  split; [exact Hb | exact Hc].
Defined.

Lemma disable_idempotent_witness :
  let st := mk_board (mk_coil_reg_params 1 32768) (mk_discrete_reg_params 0)
              true ∅ (λ _, false) in
  outputs_enabled st = true ∧
  oe_toggle_disable (on_oe_button_toggle st) = on_oe_button_toggle st ∧
  on_oe_button_toggle (on_oe_button_toggle (on_oe_button_toggle st))
    = on_oe_button_toggle st.
Proof.
  cbv zeta. split; [reflexivity |].
  destruct (disable_idempotent
              (mk_board (mk_coil_reg_params 1 32768) (mk_discrete_reg_params 0)
                 true ∅ (λ _, false)))
    as (_ & _ & _ & _ & H5 & _ & H7); [reflexivity |].
  split; [exact H5 | exact H7].
Defined.

(** The owner's state is a counter of observer calls. *)
Lemma spurious_identifier_ignored_witness :
  let r := mk_remote_io (xTimerCreate 25) false (Some S) (Some (λ _ n, S n)) [19; 4] in
  ((19 ∉ DI) ∧ s_io_event_queue r = [19; 4]) ∧
  io_task (r, 0%nat)
  = Some (mk_remote_io (xTimerCreate 25) false (Some S) (Some (λ _ n, S n)) [4],
          0%nat).
Proof.
  cbv zeta.
  assert (Hn : 19 ∉ DI).
  { intros H. apply list_elem_of_In in H. cbn in H.
    repeat (destruct H as [H|H]; [discriminate H |]). exact H. }
  split; [split; [exact Hn | reflexivity] |].
  exact (spurious_identifier_ignored
           (mk_remote_io (xTimerCreate 25) false (Some S) (Some (λ _ n, S n)) [19; 4])
           0%nat 19 [4] Hn eq_refl).
Defined.

(** Three edges, 5 and 24 ticks apart, at 100 ticks per second (a period of
    25 ticks): the counter of observer calls is 0 up to 24 ticks after the
    last edge and 1 from the 25th on. *)
Lemma debounce_one_toggle_witness :
  let r := esp32_rio_io_services_init 100 (Some S) None in
  ((1 ≤ 3)%nat ∧ (length [5; 24] = 3 - 1)%nat
   ∧ (0 < tm_period (s_debounce_timer r))%nat
   ∧ Forall (λ g, (g < tm_period (s_debounce_timer r))%nat) [5; 24]%nat
   ∧ s_oe_button_toggle_callback r = Some S) ∧
  button_edges (burst [5; 24]%nat) = 3%nat ∧
  snd (io_run (burst [5; 24]%nat ++ repeat Tick 24) (r, 0%nat)) = 0%nat ∧
  snd (io_run (burst [5; 24]%nat ++ repeat Tick 25) (r, 0%nat)) = 1%nat ∧
  snd (io_run (burst [5; 24]%nat ++ repeat Tick (25 + 100)) (r, 0%nat)) = 1%nat.
Proof.
  cbv zeta.
  assert (Hp : (0 < tm_period (s_debounce_timer
                   (esp32_rio_io_services_init (A:=nat) 100 (Some S) None)))%nat)
    by (vm_compute; lia).
  assert (Hg : Forall (λ g, (g < tm_period (s_debounce_timer
                   (esp32_rio_io_services_init (A:=nat) 100 (Some S) None)))%nat)
                 [5; 24]%nat)
    by (repeat constructor; vm_compute; lia).
  split; [repeat split; [lia | exact Hp | exact Hg] |].
  destruct (debounce_one_toggle 3 [5; 24]%nat
              (esp32_rio_io_services_init 100 (Some S) None) S 0%nat
              ltac:(lia) eq_refl Hp Hg eq_refl)
    as (HK & _ & _ & Hb & He & Ha).
  split; [exact HK |].
  split; [exact (Hb 24%nat ltac:(vm_compute; lia)) |].
  split; [exact He | exact (Ha 100%nat)].
Defined.

Lemma coil_read_after_write_witness :
  (0 <= 3 < 32 ∧ 0 <= 19 < 32) ∧
  MB_IS_COIL_ON (MB_TURN_COIL_ON 3 (mk_coil_reg_params 0 8)) 19
    = MB_IS_COIL_ON (mk_coil_reg_params 0 8) 19 || (3 =? 19) ∧
  MB_IS_COIL_ON (MB_TURN_COIL_OFF 3 (mk_coil_reg_params 0 8)) 19
    = MB_IS_COIL_ON (mk_coil_reg_params 0 8) 19 && negb (3 =? 19).
Proof.
  split; [lia |]. apply (coil_read_after_write (mk_coil_reg_params 0 8) 3 19); lia.
Defined.

Lemma coil_write_absorbs_witness :
  (coils_in_range (mk_coil_reg_params 8 0) ∧ 0 <= 3 < 32) ∧
  MB_TURN_COIL_ON 3 (mk_coil_reg_params 8 0) = mk_coil_reg_params 8 0 ∧
  MB_TURN_COIL_OFF 3 (MB_TURN_COIL_ON 3 (mk_coil_reg_params 8 0))
    = MB_TURN_COIL_OFF 3 (mk_coil_reg_params 8 0).
Proof.
  assert (Hr : coils_in_range (mk_coil_reg_params 8 0))
    by (unfold coils_in_range; cbn; lia).
  split; [split; [exact Hr | lia] |].
  destruct (coil_write_absorbs (mk_coil_reg_params 8 0) 3 Hr ltac:(lia))
    as (Hon & _ & _ & Hoff).
  split; [apply Hon; reflexivity | exact Hoff].
Defined.

(** Inputs 3 and 8 high (pins 7 and 8), bit 12 of the word set before. *)
Lemma setup_reg_data_probes_witness :
  let st := mk_board (mk_coil_reg_params 5 9) (mk_discrete_reg_params 4096)
              true ∅ (λ pin, (pin =? 7) || (pin =? 8)) in
  ((3 < ESP32_RIO_NUM_IO_CHANNELS)%nat ∧ 10 <= 12 < 16) ∧
  Z.testbit (discrete_inputs (discrete_reg_params (setup_reg_data st))) 3 = true ∧
  Z.testbit (discrete_inputs (discrete_reg_params (setup_reg_data st))) 12 = true.
Proof.
  cbv zeta. split; [split; [unfold ESP32_RIO_NUM_IO_CHANNELS; lia | lia] |].
  destruct (setup_reg_data_probes
              (mk_board (mk_coil_reg_params 5 9) (mk_discrete_reg_params 4096)
                 true ∅ (λ pin, (pin =? 7) || (pin =? 8))))
    as (_ & Hi & Hj & _).
  split.
  - exact (Hi 3%nat ltac:(unfold ESP32_RIO_NUM_IO_CHANNELS; lia)).
  - exact (Hj 12 ltac:(lia)).
Defined.

Lemma remote_disable_witness :
  let st := mk_board (mk_coil_reg_params 5 2) (mk_discrete_reg_params 0)
              true ∅ (λ _, false) in
  (is_coils_write 64 32 16 16 = true ∧ outputs_enabled st = true
   ∧ mirror_bit st = false) ∧
  outputs_enabled (mb_slave_run 64 32 16 16 st) = false ∧
  status_led (mb_slave_run 64 32 16 16 st) = false ∧
  coil_reg_params (mb_slave_run 64 32 16 16 st) = mk_coil_reg_params 5 2.
Proof.
  cbv zeta. split; [repeat split |].
  destruct (remote_disable 64 32 16
              (mk_board (mk_coil_reg_params 5 2) (mk_discrete_reg_params 0)
                 true ∅ (λ _, false)) 16)
    as (He & _ & Hl & Hc); [reflexivity | reflexivity | reflexivity |].
  split; [exact He | split; [exact Hl | exact Hc]].
Defined.

Lemma remote_enable_witness :
  let st := mk_board (mk_coil_reg_params 5 32770) (mk_discrete_reg_params 0)
              false ∅ (λ _, false) in
  (is_coils_write 64 32 16 16 = true ∧ outputs_enabled st = false
   ∧ mirror_bit st = true) ∧
  outputs_enabled (mb_slave_run 64 32 16 16 st) = true ∧
  output_level DQ0 (mb_slave_run 64 32 16 16 st) 2 = true ∧
  output_level DQ1 (mb_slave_run 64 32 16 16 st) 1 = true ∧
  status_led (mb_slave_run 64 32 16 16 st) = true.
Proof.
  cbv zeta. split; [repeat split |].
  destruct (remote_enable 64 32 16
              (mk_board (mk_coil_reg_params 5 32770) (mk_discrete_reg_params 0)
                 false ∅ (λ _, false)) 16)
    as (He & Hk & Hl & _); [reflexivity | reflexivity | reflexivity |].
  destruct (Hk 2%nat ltac:(unfold ESP32_RIO_NUM_IO_CHANNELS; lia)) as (H0 & _).
  destruct (Hk 1%nat ltac:(unfold ESP32_RIO_NUM_IO_CHANNELS; lia)) as (_ & H1).
  rewrite H0, H1, He, Hl. repeat split.
Defined.

(** A round whose type has the coil-write and the discrete-read bit. *)
Lemma bridge_reads_registers_only_witness :
  let st := mk_board (mk_coil_reg_params 5 0) (mk_discrete_reg_params 0)
              true ∅ (λ _, false) in
  (Z.land 80 64 ≠ 0 ∨ Z.land 80 32 ≠ 0) ∧ mb_slave_run 64 32 16 80 st = st.
Proof.
  cbv zeta.
  assert (Hty : Z.land 80 64 ≠ 0 ∨ Z.land 80 32 ≠ 0) by (left; discriminate).
  split; [exact Hty |].
  exact (proj2 (proj2 (proj2 (bridge_reads_registers_only 64 32 16
           (mk_board (mk_coil_reg_params 5 0) (mk_discrete_reg_params 0)
              true ∅ (λ _, false)) 80))) Hty).
Defined.

(** A press in the wait for Wi-Fi, then a master's write of coils 0, 2 and
    31 and its round. *)
Lemma status_led_tracks_interlock_witness :
  let early := [BoardEvent LocalToggle; InputEvent 4] in
  let es := [BoardEvent (MasterWrite 5 32768); BoardEvent (BridgeRound 16);
             FieldChange (λ _, true); BoardEvent LocalToggle] in
  (Forall (λ e, is_morse_write e = false) early
   ∧ Forall (λ e, is_morse_write e = false) es) ∧
  status_led (sys_run 64 32 16 es (app_main_start 64 32 16 ∅ (λ _, false) early))
  = outputs_enabled
      (sys_run 64 32 16 es (app_main_start 64 32 16 ∅ (λ _, false) early)).
Proof.
  cbv zeta.
  assert (H1 : Forall (λ e, is_morse_write e = false) [BoardEvent LocalToggle; InputEvent 4])
    by (repeat (apply Forall_cons; split; [reflexivity |]); apply Forall_nil; exact I).
  assert (H2 : Forall (λ e, is_morse_write e = false)
                 [BoardEvent (MasterWrite 5 32768); BoardEvent (BridgeRound 16);
                  FieldChange (λ _, true); BoardEvent LocalToggle])
    by (repeat (apply Forall_cons; split; [reflexivity |]); apply Forall_nil; exact I).
  split; [split; [exact H1 | exact H2] |].
  exact (proj1 (proj2 (status_led_tracks_interlock 64 32 16 ∅ (λ _, false) _ _ H1 H2))).
Defined.

(** The button pin, with a latch that held it high at power-on. *)
Lemma only_outputs_and_led_driven_witness :
  let es := [BoardEvent (MasterWrite 1023 33791); BoardEvent (BridgeRound 16);
             InputEvent 7; BoardEvent LocalToggle] in
  (((OE_TOGGLE_BTN ∉ output_pins) ∧ OE_TOGGLE_BTN ≠ STATUS_LED)
   ∨ OE_TOGGLE_BTN ∈ DI ∨ OE_TOGGLE_BTN = OE_TOGGLE_BTN) ∧
  gpio_out (sys_run 64 32 16 es
              (app_main_start 64 32 16 {[OE_TOGGLE_BTN := true]} (λ _, true)
                 [BoardEvent LocalToggle; InputEvent 4]))
    !! OE_TOGGLE_BTN = Some true.
Proof.
  cbv zeta.
  assert (H : ((OE_TOGGLE_BTN ∉ output_pins) ∧ OE_TOGGLE_BTN ≠ STATUS_LED)
              ∨ OE_TOGGLE_BTN ∈ DI ∨ OE_TOGGLE_BTN = OE_TOGGLE_BTN)
    by (right; right; reflexivity).
  split; [exact H |].
  rewrite (only_outputs_and_led_driven 64 32 16 {[OE_TOGGLE_BTN := true]} (λ _, true)
             [BoardEvent LocalToggle; InputEvent 4] _ OE_TOGGLE_BTN H).
  reflexivity.
Defined.

Lemma toggle_keeps_output_coils_witness :
  let st := mk_board (mk_coil_reg_params 5 2) (mk_discrete_reg_params 9)
              false ∅ (λ _, false) in
  0 <= 17 < 31 ∧
  MB_IS_COIL_ON (coil_reg_params (on_oe_button_toggle st)) 17 = true ∧
  discrete_reg_params (on_oe_button_toggle st) = mk_discrete_reg_params 9.
Proof.
  cbv zeta. split; [lia |].
  destruct (toggle_keeps_output_coils
              (mk_board (mk_coil_reg_params 5 2) (mk_discrete_reg_params 9)
                 false ∅ (λ _, false)) 17 ltac:(lia)) as (Hc & Hd).
  split; [rewrite Hc; reflexivity | exact Hd].
Defined.

Lemma toggle_off_on_restores_outputs_witness :
  let st := mk_board (mk_coil_reg_params 5 32770) (mk_discrete_reg_params 0)
              true ∅ (λ _, false) in
  outputs_enabled st = true ∧
  outputs_enabled (on_oe_button_toggle (on_oe_button_toggle st)) = true ∧
  output_level DQ0 (on_oe_button_toggle (on_oe_button_toggle st)) 2 = true ∧
  output_level DQ1 (on_oe_button_toggle (on_oe_button_toggle st)) 0 = false.
Proof.
  cbv zeta. split; [reflexivity |].
  destruct (toggle_off_on_restores_outputs
              (mk_board (mk_coil_reg_params 5 32770) (mk_discrete_reg_params 0)
                 true ∅ (λ _, false)) eq_refl)
    as (He & _ & _ & Hk).
  destruct (Hk 2%nat ltac:(unfold ESP32_RIO_NUM_IO_CHANNELS; lia)) as (H0 & _).
  destruct (Hk 0%nat ltac:(unfold ESP32_RIO_NUM_IO_CHANNELS; lia)) as (_ & H1).
  rewrite He, H0, H1. repeat split.
Defined.

(** Twelve edges on input pins and one round of the io task, the owner a
    counter of observer calls. *)
Lemma queue_never_exceeds_capacity_witness :
  let r := esp32_rio_io_services_init 100 (Some S) (Some (λ _ n, S n)) in
  let es := repeat (IoEvent (Edge 4)) 12 ++ [IoTaskRound] in
  (length (s_io_event_queue r) ≤ 10)%nat ∧
  (length (s_io_event_queue (fst (rio_run es (r, 0%nat)))) ≤ 10)%nat.
Proof.
  cbv zeta.
  assert (H : (length (s_io_event_queue
                 (esp32_rio_io_services_init (A:=nat) 100 (Some S) (Some (λ _ n, S n))))
               ≤ 10)%nat) by (cbn; lia).
  split; [exact H |].
  exact (queue_never_exceeds_capacity (repeat (IoEvent (Edge 4)) 12 ++ [IoTaskRound])
           (esp32_rio_io_services_init 100 (Some S) (Some (λ _ n, S n))) 0%nat H).
Defined.

Lemma full_queue_drops_then_accepts_witness :
  let r := mk_remote_io (xTimerCreate 25) false (Some S) (Some (λ _ n, S n))
             [4; 5; 6; 7; 15; 16; 17; 9; 8; 18] in
  (5 ≠ OE_TOGGLE_BTN ∧ s_io_event_queue r = 4 :: [5; 6; 7; 15; 16; 17; 9; 8; 18]
   ∧ length [5; 6; 7; 15; 16; 17; 9; 8; 18] = 9%nat) ∧
  io_isr_handler 5 r = r ∧
  s_io_event_queue
    (fst (rio_run [IoEvent (Edge 5); IoTaskRound; IoEvent (Edge 5)] (r, 0%nat)))
  = [5; 6; 7; 15; 16; 17; 9; 8; 18] ++ [5].
Proof.
  cbv zeta.
  assert (Hp : 5 ≠ OE_TOGGLE_BTN) by discriminate.
  split; [split; [exact Hp | split; reflexivity] |].
  exact (full_queue_drops_then_accepts
           (mk_remote_io (xTimerCreate 25) false (Some S) (Some (λ _ n, S n))
              [4; 5; 6; 7; 15; 16; 17; 9; 8; 18])
           0%nat 5 4 [5; 6; 7; 15; 16; 17; 9; 8; 18] Hp eq_refl eq_refl).
Defined.

(** The owner's state is the list of the inputs reported, the last first. *)
Lemma input_edges_served_in_order_witness :
  let r := esp32_rio_io_services_init 100 None (Some (λ i l, i :: l)) in
  (s_io_event_queue r = [] ∧ Forall (λ p, p ≠ OE_TOGGLE_BTN) [7; 4; 18]
   ∧ (length [7; 4; 18] ≤ 10)%nat) ∧
  rio_run (map (λ p, IoEvent (Edge p)) [7; 4; 18] ++ repeat IoTaskRound 3) (r, [])
  = (r, [9; 0; 3]%nat).
Proof.
  cbv zeta.
  assert (Hf : Forall (λ p, p ≠ OE_TOGGLE_BTN) [7; 4; 18])
    by (repeat (apply Forall_cons; split; [discriminate |]); apply Forall_nil; exact I).
  split; [split; [reflexivity | split; [exact Hf | cbn; lia]] |].
  destruct (input_edges_served_in_order [7; 4; 18]
              (esp32_rio_io_services_init 100 None (Some (λ i l, i :: l)))
              (@nil nat) eq_refl Hf ltac:(cbn; lia))
    as (_ & _ & Hrun).
  exact Hrun.
Defined.

(** Input 3 is on pin 7, which is high when the task runs. *)
Lemma input_edge_reaches_register_witness :
  let r := esp32_rio_io_services_init 100 (Some on_oe_button_toggle)
             (Some on_di_level_change) in
  let st := mk_board (mk_coil_reg_params 0 0) (mk_discrete_reg_params 0)
              false ∅ (λ pin, pin =? 7) in
  (DI !! 3%nat = Some 7 ∧ s_io_event_queue r = []
   ∧ s_di_level_change_callback r = Some on_di_level_change) ∧
  Z.testbit (discrete_inputs
               (discrete_reg_params
                  (snd (rio_run [IoEvent (Edge 7); IoTaskRound] (r, st))))) 3
  = true.
Proof.
  cbv zeta. split; [repeat split |].
  exact (proj2 (input_edge_reaches_register
                  (esp32_rio_io_services_init 100 (Some on_oe_button_toggle)
                     (Some on_di_level_change))
                  (mk_board (mk_coil_reg_params 0 0) (mk_discrete_reg_params 0)
                     false ∅ (λ pin, pin =? 7))
                  3%nat 7 eq_refl eq_refl eq_refl)).
Defined.

Lemma unregistered_observers_never_called_witness :
  let r := esp32_rio_io_services_init (A:=nat) 100 None None in
  let es := [IoEvent (Edge OE_TOGGLE_BTN); IoEvent (Edge 7)]
            ++ repeat (IoEvent Tick) 30 ++ [IoTaskRound] in
  (s_oe_button_toggle_callback r = None ∧ s_di_level_change_callback r = None) ∧
  snd (rio_run es (r, 5%nat)) = 5%nat.
Proof.
  cbv zeta. split; [split; reflexivity |].
  exact (unregistered_observers_never_called
           ([IoEvent (Edge OE_TOGGLE_BTN); IoEvent (Edge 7)]
            ++ repeat (IoEvent Tick) 30 ++ [IoTaskRound])
           (esp32_rio_io_services_init 100 None None) 5%nat eq_refl eq_refl).
Defined.

(** A running timer expires with the flag clear. *)
Lemma no_toggle_without_press_witness :
  let r := mk_remote_io (mk_timer 25 (Some 2%nat)) false (Some S) None [] in
  let es := [Edge 7; Tick; Tick; Tick] in
  (s_button_pressed r = false ∧ Forall (λ e, is_button_edge e = false) es) ∧
  snd (io_run es (r, 0%nat)) = 0%nat.
Proof.
  cbv zeta.
  assert (Hf : Forall (λ e, is_button_edge e = false) [Edge 7; Tick; Tick; Tick])
    by (repeat (apply Forall_cons; split; [reflexivity |]); apply Forall_nil; exact I).
  split; [split; [reflexivity | exact Hf] |].
  exact (proj1 (no_toggle_without_press [Edge 7; Tick; Tick; Tick]
                  (mk_remote_io (mk_timer 25 (Some 2%nat)) false (Some S) None [])
                  0%nat eq_refl Hf)).
Defined.

(** Two presses: one bouncing twice, one clean. *)
Lemma one_toggle_per_press_witness :
  let r := esp32_rio_io_services_init 100 (Some S) None in
  let bs := [([5; 24], 3); ([], 0)]%nat in
  ((0 < tm_period (s_debounce_timer r))%nat
   ∧ Forall (λ b, Forall (λ g, (g < tm_period (s_debounce_timer r))%nat) (fst b)) bs
   ∧ s_oe_button_toggle_callback r = Some S) ∧
  snd (io_run (presses (tm_period (s_debounce_timer r)) bs) (r, 0%nat)) = 2%nat.
Proof.
  cbv zeta.
  assert (Hp : (0 < tm_period (s_debounce_timer
                   (esp32_rio_io_services_init (A:=nat) 100 (Some S) None)))%nat)
    by (vm_compute; lia).
  assert (Hg : Forall (λ b : list nat * nat,
                  Forall (λ g, (g < tm_period (s_debounce_timer
                     (esp32_rio_io_services_init (A:=nat) 100 (Some S) None)))%nat) (fst b))
                 [([5; 24], 3); ([], 0)]%nat).
  { apply Forall_cons. split.
    - repeat (apply Forall_cons; split; [vm_compute; lia |]). apply Forall_nil. exact I.
    - apply Forall_cons. split; apply Forall_nil; exact I. }
  split; [split; [exact Hp | split; [exact Hg | reflexivity]] |].
  exact (one_toggle_per_press [([5; 24], 3); ([], 0)]%nat
           (esp32_rio_io_services_init 100 (Some S) None) S 0%nat Hp Hg eq_refl).
Defined.

Lemma saved_credentials_fit_witness :
  let env := mk_console_env None None true in
  let input := String.list_ascii_of_string "wifi-config ab cde" ++ ["010"%char] in
  esp32_rio_wifi_nv_params_save "ab" "cde"
    ∈ outcome_effects (console_run env input reset_console_state) ∧
  (1 ≤ String.length "ab" ≤ 31)%nat ∧ (1 ≤ String.length "cde" ≤ 63)%nat.
Proof.
  cbv zeta.
  assert (H : esp32_rio_wifi_nv_params_save "ab" "cde"
              ∈ outcome_effects
                  (console_run (mk_console_env None None true)
                     (String.list_ascii_of_string "wifi-config ab cde" ++ ["010"%char])
                     reset_console_state))
    by (vm_compute; constructor).
  split; [exact H |].
  exact (saved_credentials_fit _ _ _ _ _ H).
Defined.

(** The parser after an error: the rest of the line is skipped, the next
    line is read from the reset state. *)
Lemma newline_resets_parser_witness :
  let env := mk_console_env None None true in
  let st := set_state STATE_ERROR reset_console_state in
  (console_ok st ∧ is_newline "010"%char = true
   ∧ s_current_state st = STATE_ERROR
   ∧ Forall (λ c, is_newline c = false) ["x"%char; " "%char]) ∧
  console_run env (["x"%char; " "%char] ++ "010"%char :: ["h"%char]) st
  = console_run env ["h"%char] reset_console_state.
Proof.
  cbv zeta.
  assert (Hok : console_ok (set_state STATE_ERROR reset_console_state)).
  { unfold console_ok. cbn.
    split; [reflexivity |]. split; [reflexivity |].
    split; [repeat (apply Forall_cons; split; [reflexivity |]); apply Forall_nil; exact I |].
    split; [unfold MAX_COMMAND_LENGTH; lia | exact I]. }
  assert (Hj : Forall (λ c, is_newline c = false) ["x"%char; " "%char])
    by (repeat (apply Forall_cons; split; [reflexivity |]); apply Forall_nil; exact I).
  split; [split; [exact Hok | split; [reflexivity | split; [reflexivity | exact Hj]]] |].
  exact (proj2 (newline_resets_parser (mk_console_env None None true) "010"%char
                  (set_state STATE_ERROR reset_console_state) Hok eq_refl)
           eq_refl ["x"%char; " "%char] ["h"%char] Hj).
Defined.

Lemma command_line_round_trip_witness :
  let env := mk_console_env None None true in
  let name := String.list_ascii_of_string "wifi-status" in
  let args := [(true, String.list_ascii_of_string "a b")] in
  (valid_name name ∧ Forall valid_arg args ∧ (length args ≤ MAX_ARG_COUNT)%nat
   ∧ isblank " "%char = true ∧ is_newline "013"%char = true) ∧
  ∃ st,
    console_run env (command_line " "%char "013"%char name args) reset_console_state
    = evaluate_and_reset env st ∧
    cstring (s_cmd_buffer st) = "wifi-status"%string ∧
    s_arg_count st = 1%nat.
Proof.
  cbv zeta.
  assert (Hn : valid_name (String.list_ascii_of_string "wifi-status")).
  { split; [| cbn; unfold MAX_COMMAND_LENGTH; lia].
    split; [reflexivity |]. repeat (apply Forall_cons; split; [reflexivity |]).
    apply Forall_nil. exact I. }
  assert (Ha : Forall valid_arg [(true, String.list_ascii_of_string "a b")]).
  { apply Forall_cons. split; [| apply Forall_nil; exact I].
    split; [cbn; unfold MAX_ARG_LENGTH; lia |]. split; [| discriminate].
    repeat (apply Forall_cons; split; [discriminate |]). apply Forall_nil. exact I. }
  assert (Hc : (length [(true, String.list_ascii_of_string "a b")] ≤ MAX_ARG_COUNT)%nat)
    by (cbn; unfold MAX_ARG_COUNT; lia).
  split; [split; [exact Hn | split; [exact Ha | split; [exact Hc | split; reflexivity]]] |].
  destruct (command_line_round_trip (mk_console_env None None true) " "%char "013"%char
              (String.list_ascii_of_string "wifi-status")
              [(true, String.list_ascii_of_string "a b")] Hn Ha Hc eq_refl eq_refl)
    as (st & Hrun & Hcmd & Hcount & _).
  exists st. split; [exact Hrun | split; [exact Hcmd | exact Hcount]].
Defined.

(** [wifi-config home "my key"], closed by a carriage return. *)
Lemma wifi_config_saves_typed_credentials_witness :
  let env := mk_console_env None None true in
  let ssid := (false, String.list_ascii_of_string "home") in
  let password := (true, String.list_ascii_of_string "my key") in
  (valid_arg ssid ∧ valid_arg password
   ∧ (1 ≤ length (snd ssid) < ESP32_RIO_SSID_MAX_LENGTH)%nat
   ∧ (1 ≤ length (snd password) < ESP32_RIO_PASSWORD_MAX_LENGTH)%nat
   ∧ isblank " "%char = true ∧ is_newline "013"%char = true) ∧
  console_run env
    (command_line " "%char "013"%char (String.list_ascii_of_string "wifi-config")
       [ssid; password])
    reset_console_state
  = Halt [esp32_rio_wifi_nv_params_save "home" "my key";
          usb_console_write_str
            (newline +:+ "[wifi-config] Configuration successful. Rebooting..."
             +:+ newline);
          esp_restart].
Proof.
  cbv zeta.
  assert (Hs : valid_arg (false, String.list_ascii_of_string "home")).
  { split; [cbn; unfold MAX_ARG_LENGTH; lia |]. split.
    - repeat (apply Forall_cons; split; [discriminate |]). apply Forall_nil. exact I.
    - intros _. split; [discriminate |]. split; [discriminate |].
      repeat (apply Forall_cons; split; [split; reflexivity |]). apply Forall_nil. exact I. }
  assert (Hp : valid_arg (true, String.list_ascii_of_string "my key")).
  { split; [cbn; unfold MAX_ARG_LENGTH; lia |]. split; [| discriminate].
    repeat (apply Forall_cons; split; [discriminate |]). apply Forall_nil. exact I. }
  assert (Hsl : (1 ≤ length (snd (false, String.list_ascii_of_string "home"))
                 < ESP32_RIO_SSID_MAX_LENGTH)%nat)
    by (cbn; unfold ESP32_RIO_SSID_MAX_LENGTH; lia).
  assert (Hpl : (1 ≤ length (snd (true, String.list_ascii_of_string "my key"))
                 < ESP32_RIO_PASSWORD_MAX_LENGTH)%nat)
    by (cbn; unfold ESP32_RIO_PASSWORD_MAX_LENGTH; lia).
  split; [split; [exact Hs | split; [exact Hp | split; [exact Hsl | split;
          [exact Hpl | split; reflexivity]]]] |].
  exact (wifi_config_saves_typed_credentials (mk_console_env None None true)
           " "%char "013"%char (false, String.list_ascii_of_string "home")
           (true, String.list_ascii_of_string "my key") Hs Hp Hsl Hpl eq_refl eq_refl).
Defined.

(** [help a b c d], closed by a line feed. *)
Lemma third_argument_refused_witness :
  let env := mk_console_env None None true in
  let name := String.list_ascii_of_string "help" in
  let a0 := (false, ["a"%char]) in
  let a1 := (false, ["b"%char]) in
  (valid_name name ∧ valid_arg a0 ∧ valid_arg a1
   ∧ isblank " "%char = true ∧ is_newline "010"%char = true
   ∧ is_newline "c"%char = false ∧ isblank "c"%char = false
   ∧ Forall (λ c, is_newline c = false) [" "%char; "d"%char]) ∧
  console_run env (String.list_ascii_of_string "help a b c d" ++ ["010"%char])
    reset_console_state
  = Continue reset_console_state
      [usb_console_write_str
         (newline +:+ "Error: Too many arguments for a command." +:+ newline)].
Proof.
  cbv zeta.
  assert (Hn : valid_name (String.list_ascii_of_string "help")).
  { split; [| cbn; unfold MAX_COMMAND_LENGTH; lia].
    split; [reflexivity |]. repeat (apply Forall_cons; split; [reflexivity |]).
    apply Forall_nil. exact I. }
  assert (Hplain : ∀ c, c ≠ zero → c ≠ "034"%char → is_newline c = false →
                     isblank c = false → valid_arg (false, [c])).
  { intros c Hz Hq Hnl Hb. split; [cbn; unfold MAX_ARG_LENGTH; lia |]. split.
    - apply Forall_cons. split; [exact Hz | apply Forall_nil; exact I].
    - intros _. split; [discriminate |]. split; [intros [= ->]; apply Hq; reflexivity |].
      apply Forall_cons. split; [split; assumption | apply Forall_nil; exact I]. }
  assert (Ha0 : valid_arg (false, ["a"%char]))
    by (apply Hplain; (discriminate || reflexivity)).
  assert (Ha1 : valid_arg (false, ["b"%char]))
    by (apply Hplain; (discriminate || reflexivity)).
  assert (Hj : Forall (λ c, is_newline c = false) [" "%char; "d"%char])
    by (repeat (apply Forall_cons; split; [reflexivity |]); apply Forall_nil; exact I).
  split; [split; [exact Hn | split; [exact Ha0 | split; [exact Ha1 |
          repeat (split; [reflexivity |]); exact Hj]]] |].
  exact (third_argument_refused (mk_console_env None None true) " "%char "010"%char
           (String.list_ascii_of_string "help") (false, ["a"%char]) (false, ["b"%char])
           "c"%char [" "%char; "d"%char] Hn Ha0 Ha1 eq_refl eq_refl eq_refl eq_refl Hj).
Defined.

(** The master sets output coils 0 and 2 of bank 0 and leaves coil 31
    clear. *)
Lemma early_press_not_mirrored_witness :
  let st := app_main_start 64 32 16 ∅ (λ _, false) [BoardEvent LocalToggle] in
  (is_coils_write 64 32 16 16 = true ∧ Z.testbit (to_uint16 0) 15 = false) ∧
  outputs_enabled st = true ∧ mirror_bit st = false ∧
  outputs_enabled (run 64 32 16 [MasterWrite 5 0; BridgeRound 16] st) = false.
Proof.
  cbv zeta. split; [split; reflexivity |].
  destruct (early_press_not_mirrored 64 32 16 ∅ (λ _, false) 5 0 16 eq_refl eq_refl)
    as (He & _ & Hm & _ & Hd & _).
  split; [exact He | split; [exact Hm | exact Hd]].
Defined.
